(** * pyxtf: the XTF packet decoder of [pyxtf/xtf_ctypes.py]

    A shallow embedding of the ctypes overlay structures of pyxtf and of the
    decoding code attached to them ([XTFBase.__new__], the [__init__] chain of
    the packet classes, [XTFFileHeader.channel_count], [XTFPingHeader.__new__]
    and [XTFPacket.get_time]), followed by the properties the specification
    states about them.

    Conventions of the embedding:
    - a ctypes structure instance is its class together with its raw bytes;
      a field is read by slicing the raw bytes at the field's offset
      ([_pack_ = 1], little endian), exactly as the overlay does;
    - the byte stream handed to a constructor ([buffer]) is mutable state:
      decoding functions live in the monad [io], which threads the unread part
      of the stream and carries Python exceptions;
    - Python integers are unbounded: they are [Z] without wrap-around. *)

From Stdlib Require Import ZArith String List Bool Lia DecimalString.
From Stdlib.Strings Require Import Byte.
Import ListNotations.
Open Scope string_scope.
Open Scope list_scope.
Open Scope Z_scope.

(** ** Python exceptions and results *)

Inductive exn : Type :=
| RuntimeError (msg : string)
| Exception (msg : string)
| ValueError (msg : string)
| TypeError
| IndexError
| KeyError
| AttributeError (attr : string).

Inductive result (A : Type) : Type :=
| Ok (a : A)
| Raise (e : exn).

Arguments Ok {A} a.
Arguments Raise {A} e.

Definition rbind {A B : Type} (c : result A) (k : A -> result B) : result B :=
  match c with
  | Ok a => k a
  | Raise e => Raise e
  end.

Notation "'let?' x ':=' c 'in' k" := (rbind c (fun x => k))
  (at level 10, x name, c at level 100, k at level 200).

(** ** Byte strings and the stream *)

Definition bytes : Type := list byte.

(** The monad of code that reads from the stream: the state is the part of the
    stream that has not been read yet; it survives an exception. *)
Definition io (A : Type) : Type := bytes -> result A * bytes.

Definition ret {A : Type} (a : A) : io A := fun s => (Ok a, s).

Definition raise {A : Type} (e : exn) : io A := fun s => (Raise e, s).

Definition bind {A B : Type} (c : io A) (k : A -> io B) : io B :=
  fun s =>
    match c s with
    | (Ok a, s') => k a s'
    | (Raise e, s') => (Raise e, s')
    end.

Definition lift {A : Type} (r : result A) : io A := fun s => (r, s).

Notation "x <- c ;; k" := (bind c (fun x => k))
  (at level 61, c at next level, right associativity).

(** [io.BytesIO.read(n)]: at most [n] bytes, everything when [n] is negative. *)
Definition BytesIO_read (n : Z) : io bytes :=
  fun s =>
    if n <? 0 then (Ok s, [])
    else (Ok (firstn (Z.to_nat n) s), skipn (Z.to_nat n) s).

(** The [buffer] argument of the constructors: [None], a [bytes]/[bytearray]
    object, or a stream (whose unread content is the state of [io]). *)
Inductive pybuffer : Type :=
| PyNone
| PyBytes (b : bytes)
| PyStream.

(** Truth value of [buffer] in [if buffer:]. A stream object is always true,
    a bytes object is true when it is not empty. *)
Definition truthy (buffer : pybuffer) : bool :=
  match buffer with
  | PyNone => false
  | PyBytes b => negb (Nat.eqb (length b) 0)
  | PyStream => true
  end.

(** [buffer.read(n)]: only a stream has a [read] method. *)
Definition buffer_read (buffer : pybuffer) (n : Z) : io bytes :=
  match buffer with
  | PyStream => BytesIO_read n
  | PyBytes _ => raise (AttributeError "read")
  | PyNone => raise (AttributeError "read")
  end.

(** Bytes consumed from the stream between two states. *)
Definition consumed (before after : bytes) : Z :=
  Z.of_nat (length before) - Z.of_nat (length after).

(** ** Little-endian integers *)

Definition byte_to_Z (b : byte) : Z := Z.of_N (Byte.to_N b).

Fixpoint le_uint (bs : bytes) : Z :=
  match bs with
  | [] => 0
  | b :: r => byte_to_Z b + 256 * le_uint r
  end.

Definition le_int (bs : bytes) : Z :=
  let u := le_uint bs in
  let m := 256 ^ Z.of_nat (length bs) in
  if 2 * u <? m then u else u - m.

Definition byte_of_Z (z : Z) : byte :=
  match Byte.of_N (Z.to_N (z mod 256)) with
  | Some b => b
  | None => x00
  end.

Fixpoint le_encode (width : nat) (z : Z) : bytes :=
  match width with
  | O => []
  | S w => byte_of_Z z :: le_encode w (z / 256)
  end.

Definition slice (off len : nat) (bs : bytes) : bytes :=
  firstn len (skipn off bs).

(** ** ctypes field types and structure classes *)

Inductive ctype : Type :=
| c_char
| c_uint8
| c_uint16
| c_uint32
| c_int16
| c_int32
| c_float
| c_double
| c_array (t : ctype) (n : nat)
| c_struct (size : nat).

Fixpoint ctypes_sizeof (t : ctype) : nat :=
  match t with
  | c_char => 1
  | c_uint8 => 1
  | c_uint16 => 2
  | c_uint32 => 4
  | c_int16 => 2
  | c_int32 => 4
  | c_float => 4
  | c_double => 8
  | c_array t n => (n * ctypes_sizeof t)%nat
  | c_struct size => size
  end.

Record ctypes_class : Type := {
  __name__ : string;
  _fields_ : list (string * ctype)
}.

Fixpoint fields_size (flds : list (string * ctype)) : nat :=
  match flds with
  | [] => O
  | (_, t) :: r => (ctypes_sizeof t + fields_size r)%nat
  end.

Definition sizeof (cls : ctypes_class) : nat := fields_size (_fields_ cls).

(** Offset and type of a field, [None] when the class has no such field
    ([hasattr] is false). *)
Fixpoint field_lookup (name : string) (flds : list (string * ctype))
  (off : nat) : option (nat * ctype) :=
  match flds with
  | [] => None
  | (f, t) :: r =>
      if String.eqb f name then Some (off, t)
      else field_lookup name r (off + ctypes_sizeof t)%nat
  end.

Definition hasattr (cls : ctypes_class) (name : string) : bool :=
  match field_lookup name (_fields_ cls) O with
  | Some _ => true
  | None => false
  end.

(** What reading a structure field gives in Python: integer fields come back
    as plain [int] objects, everything else is kept as the bytes it overlays. *)
Inductive pyvalue : Type :=
| PyInt (z : Z)
| PyRaw (t : ctype) (raw : bytes).

Definition field_value (t : ctype) (raw : bytes) : pyvalue :=
  match t with
  | c_uint8 | c_uint16 | c_uint32 => PyInt (le_uint raw)
  | c_int16 | c_int32 => PyInt (le_int raw)
  | _ => PyRaw t raw
  end.

Definition getattr (cls : ctypes_class) (raw : bytes) (name : string)
  : result pyvalue :=
  match field_lookup name (_fields_ cls) O with
  | Some (off, t) => Ok (field_value t (slice off (ctypes_sizeof t) raw))
  | None => Raise (AttributeError name)
  end.

(** An attribute used as a number. *)
Definition getint (cls : ctypes_class) (raw : bytes) (name : string)
  : result Z :=
  let? v := getattr cls raw name in
  match v with
  | PyInt z => Ok z
  | PyRaw _ _ => Raise TypeError
  end.

(** A field the class declares as an integer, read as a number. *)
Definition field (cls : ctypes_class) (name : string) (raw : bytes) : Z :=
  match getint cls raw name with
  | Ok z => z
  | Raise _ => 0
  end.

(** [value.value]: structure fields of integer type are plain [int] objects,
    which have no attribute [value]; the wrapped bytes of the other field
    types are no number. *)
Definition dot_value (v : pyvalue) : result Z :=
  match v with
  | PyInt _ => Raise (AttributeError "value")
  | PyRaw _ _ => Raise TypeError
  end.

(** Overwriting [len] bytes at offset [off], zero padded. *)
Definition set_slice (off len : nat) (new raw : bytes) : bytes :=
  firstn off raw ++ firstn len (new ++ repeat x00 len) ++ skipn (off + len) raw.

(** Assignment to a field ([self.Field = value]). *)
Definition setattr_bytes (cls : ctypes_class) (raw : bytes) (name : string)
  (new : bytes) : bytes :=
  match field_lookup name (_fields_ cls) O with
  | Some (off, t) => set_slice off (ctypes_sizeof t) new raw
  | None => raw
  end.

Definition setattr_int (cls : ctypes_class) (raw : bytes) (name : string)
  (v : Z) : bytes :=
  match field_lookup name (_fields_ cls) O with
  | Some (_, t) => setattr_bytes cls raw name (le_encode (ctypes_sizeof t) v)
  | None => raw
  end.

(** ** Enumerations *)

Module XTFChannelType.
Definition subbottom : Z := 0.
Definition port : Z := 1.
Definition stbd : Z := 2.
Definition bathy : Z := 3.
End XTFChannelType.

Module XTFHeaderType.
Definition sonar : Z := 0.
Definition notes : Z := 1.
Definition bathy : Z := 2.
Definition attitude : Z := 3.
Definition raw_serial : Z := 6.
Definition highspeed_sensor2 : Z := 15.
Definition bathy_xyza : Z := 17.
Definition gyro : Z := 23.
Definition q_singlebeam : Z := 26.
Definition navigation : Z := 42.
Definition multibeam_raw_beam_angle : Z := 74.
Definition sourcetime_gyro : Z := 84.
Definition pos_raw_navigation : Z := 107.
Definition custom_vendor_data : Z := 199.
Definition user_defined : Z := 200.
End XTFHeaderType.

(** Mapping from number of bytes to the unsigned numpy type; the type is
    represented by its item size. A missing key is a [KeyError]. *)
Definition xtf_dtype (n_bytes : Z) : result Z :=
  if (n_bytes =? 1) || (n_bytes =? 2) || (n_bytes =? 4) || (n_bytes =? 8)
  then Ok n_bytes
  else Raise KeyError.

(** ** The structure classes *)

Definition XTFChanInfo : ctypes_class := {|
  __name__ := "XTFChanInfo";
  _fields_ := [
    ("TypeOfChannel", c_uint8);
    ("SubChannelNumber", c_uint8);
    ("CorrectionFlags", c_uint16);
    ("UniPolar", c_uint16);
    ("BytesPerSample", c_uint16);
    ("Reserved", c_uint32);
    ("ChannelName", c_array c_char 16);
    ("VoltScale", c_float);
    ("Frequency", c_float);
    ("HorizBeamAngle", c_float);
    ("TiltAngle", c_float);
    ("BeamWidth", c_float);
    ("OffsetX", c_float);
    ("OffsetY", c_float);
    ("OffsetZ", c_float);
    ("OffsetYaw", c_float);
    ("OffsetPitch", c_float);
    ("OffsetRoll", c_float);
    ("BeamsPerArray", c_uint16);
    ("ReservedArea2", c_array c_uint8 54)
  ]
|}.

Definition XTFFileHeader : ctypes_class := {|
  __name__ := "XTFFileHeader";
  _fields_ := [
    ("FileFormat", c_uint8);
    ("SystemType", c_uint8);
    ("RecordingProgramName", c_array c_char 8);
    ("RecordingProgramVersion", c_array c_char 8);
    ("SonarName", c_array c_char 16);
    ("SonarType", c_uint16);
    ("NoteString", c_array c_char 64);
    ("ThisFileName", c_array c_char 64);
    ("NavUnits", c_uint16);
    ("NumberOfSonarChannels", c_uint16);
    ("NumberOfBathymetryChannels", c_uint16);
    ("NumberOfSnippetChannels", c_uint8);
    ("NumberOfForwardLookArrays", c_uint8);
    ("NumberOfEchoStrengthChannels", c_uint16);
    ("NumberOfInterferometryChannels", c_uint8);
    ("Reserved1", c_uint8);
    ("Reserved2", c_uint16);
    ("ReferencePointHeight", c_float);
    ("ProjectionType", c_array c_uint8 12);
    ("SpheriodType", c_array c_uint8 10);
    ("NavigationLatency", c_int32);
    ("OriginY", c_float);
    ("OriginX", c_float);
    ("NavOffsetY", c_float);
    ("NavOffsetX", c_float);
    ("NavOffsetZ", c_float);
    ("NavOffsetYaw", c_float);
    ("MRUOffsetY", c_float);
    ("MRUOffsetX", c_float);
    ("MRUOffsetZ", c_float);
    ("MRUOffsetYaw", c_float);
    ("MRUOffsetPitch", c_float);
    ("MRUOffsetRoll", c_float);
    ("ChanInfo", c_array (c_struct (sizeof XTFChanInfo)) 6)
  ]
|}.

(** The base class of all packets has no field of its own. *)
Definition XTFPacket : ctypes_class := {|
  __name__ := "XTFPacket";
  _fields_ := []
|}.

(** A subclass lays its fields out after those of its base class. *)
Definition subclass (base : ctypes_class) (name : string)
  (flds : list (string * ctype)) : ctypes_class := {|
  __name__ := name;
  _fields_ := _fields_ base ++ flds
|}.

Definition XTFPacketStart : ctypes_class :=
  subclass XTFPacket "XTFPacketStart" [
    ("MagicNumber", c_uint16);
    ("HeaderType", c_uint8);
    ("SubChannelNumber", c_uint8);
    ("NumChansToFollow", c_uint16);
    ("Reserved1", c_array c_uint16 2);
    ("NumBytesThisRecord", c_uint32)
  ].

Definition XTFAttitudeData : ctypes_class :=
  subclass XTFPacketStart "XTFAttitudeData" [
    ("Reserved2", c_array c_uint32 2);
    ("EpochMicroseconds", c_uint32);
    ("SourceEpoch", c_uint32);
    ("Pitch", c_float);
    ("Roll", c_float);
    ("Heave", c_float);
    ("Yaw", c_float);
    ("TimeTag", c_uint32);
    ("Heading", c_float);
    ("Year", c_uint16);
    ("Month", c_uint8);
    ("Day", c_uint8);
    ("Hour", c_uint8);
    ("Minute", c_uint8);
    ("Second", c_uint8);
    ("Millisecond", c_uint16);
    ("Reserved3", c_uint8)
  ].

Definition XTFNotesHeader : ctypes_class :=
  subclass XTFPacketStart "XTFNotesHeader" [
    ("Year", c_uint16);
    ("Month", c_uint8);
    ("Day", c_uint8);
    ("Hour", c_uint8);
    ("Minute", c_uint8);
    ("Second", c_uint8);
    ("ReservedBytes", c_array c_uint8 35);
    ("NotesText", c_array c_char 200)
  ].

Definition XTFRawSerialHeader : ctypes_class :=
  subclass XTFPacketStart "XTFRawSerialHeader" [
    ("Year", c_uint16);
    ("Month", c_uint8);
    ("Day", c_uint8);
    ("Hour", c_uint8);
    ("Minute", c_uint8);
    ("Second", c_uint8);
    ("HSeconds", c_uint8);
    ("JulianDay", c_uint16);
    ("TimeTag", c_uint32);
    ("StringSize", c_uint16)
  ].

Definition XTFPingChanHeader : ctypes_class := {|
  __name__ := "XTFPingChanHeader";
  _fields_ := [
    ("ChannelNumber", c_uint16);
    ("DownsampleMethod", c_uint16);
    ("SlandRange", c_float);
    ("GroundRange", c_float);
    ("TimeDelay", c_float);
    ("TimeDuration", c_float);
    ("SecondsPerPing", c_float);
    ("ProcessingFlags", c_uint16);
    ("Frequency", c_uint16);
    ("InitialGainCode", c_uint16);
    ("GainCode", c_uint16);
    ("BandWidth", c_uint16);
    ("ContactNumber", c_uint32);
    ("ContactClassification", c_uint16);
    ("ContactSubNumber", c_uint8);
    ("ContactType", c_uint8);
    ("NumSamples", c_uint32);
    ("MillivoltScale", c_uint16);
    ("ContactTimeOffTrack", c_float);
    ("ContactCloseNumber", c_uint8);
    ("Reserved2", c_uint8);
    ("FixedVSOP", c_float);
    ("Weight", c_int16);
    ("ReservedSpace", c_array c_uint8 4)
  ]
|}.

Definition XTFPingHeader : ctypes_class :=
  subclass XTFPacketStart "XTFPingHeader" [
    ("Year", c_uint16);
    ("Month", c_uint8);
    ("Day", c_uint8);
    ("Hour", c_uint8);
    ("Minute", c_uint8);
    ("Second", c_uint8);
    ("HSeconds", c_uint8);
    ("JulianDay", c_uint16);
    ("EventNumber", c_uint32);
    ("PingNumber", c_uint32);
    ("SoundVelocity", c_float);
    ("OceanTide", c_float);
    ("Reserved2", c_uint32);
    ("ConductivityFreq", c_float);
    ("TemperatureFreq", c_float);
    ("PressureFreq", c_float);
    ("PressureTemp", c_float);
    ("Conductivity", c_float);
    ("WaterTemperature", c_float);
    ("Pressure", c_float);
    ("ComputedSoundVelocity", c_float);
    ("MagX", c_float);
    ("MagY", c_float);
    ("MagZ", c_float);
    ("AuxVal1", c_float);
    ("AuxVal2", c_float);
    ("AuxVal3", c_float);
    ("AuxVal4", c_float);
    ("AuxVal5", c_float);
    ("AuxVal6", c_float);
    ("SpeedLog", c_float);
    ("Turbidity", c_float);
    ("ShipSpeed", c_float);
    ("ShipGyro", c_float);
    ("ShipYcoordinate", c_double);
    ("ShipXcoordinate", c_double);
    ("ShipAltitude", c_uint16);
    ("ShipDepth", c_uint16);
    ("FixTimeHour", c_uint8);
    ("FixTimeMinute", c_uint8);
    ("FixTimeSecond", c_uint8);
    ("FixTimeHsecond", c_uint8);
    ("SensorSpeed", c_float);
    ("KP", c_float);
    ("SensorYcoordinate", c_double);
    ("SensorXcoordinate", c_double);
    ("SonarStatus", c_uint16);
    ("RangeToFish", c_uint16);
    ("BearingToFish", c_uint16);
    ("CableOut", c_uint16);
    ("Layback", c_float);
    ("CableTension", c_float);
    ("SensorDepth", c_float);
    ("SensorPrimaryAltitude", c_float);
    ("SensorAuxAltitude", c_float);
    ("SensorPitch", c_float);
    ("SensorRoll", c_float);
    ("SensorHeading", c_float);
    ("Heave", c_float);
    ("Yaw", c_float);
    ("AttitudeTimeTag", c_uint32);
    ("DOT", c_float);
    ("NavFixMilliseconds", c_uint32);
    ("ComputerClockHour", c_uint8);
    ("ComputerClockMinute", c_uint8);
    ("ComputerClockSecond", c_uint8);
    ("ComputerClockHsec", c_uint8);
    ("FishPositionDeltaX", c_int16);
    ("FishPositionDeltaY", c_int16);
    ("FishPositionErrorCode", c_uint8);
    ("OptionalOffset", c_uint32);
    ("CableOutHundredths", c_uint8);
    ("ReservedSpace2", c_array c_uint8 6)
  ].

Definition XTFPosRawNavigation : ctypes_class :=
  subclass XTFPacketStart "XTFPosRawNavigation" [
    ("Year", c_uint16);
    ("Month", c_uint8);
    ("Day", c_uint8);
    ("Hour", c_uint8);
    ("Minute", c_uint8);
    ("Second", c_uint8);
    ("Microsecond", c_uint16);
    ("RawYcoordinate", c_double);
    ("RawXcoordinate", c_double);
    ("RawAltitude", c_double);
    ("Pitch", c_float);
    ("Roll", c_float);
    ("Heave", c_float);
    ("Heading", c_float);
    ("Reserved2", c_uint8)
  ].

Definition XTFQPSSingleBeam : ctypes_class :=
  subclass XTFPacketStart "XTFQPSSingleBeam" [
    ("TimeTag", c_uint32);
    ("Id", c_int32);
    ("SoundVelocity", c_float);
    ("Intensity", c_float);
    ("Quality", c_int32);
    ("TwoWayTravelTime", c_float);
    ("Year", c_uint16);
    ("Month", c_uint8);
    ("Day", c_uint8);
    ("Hour", c_uint8);
    ("Minute", c_uint8);
    ("Second", c_uint8);
    ("Millisecond", c_uint16);
    ("Reserved2", c_array c_uint8 7)
  ].

Definition XTFRawCustomHeader : ctypes_class :=
  subclass XTFPacket "XTFRawCustomHeader" [
    ("MagicNumber", c_uint16);
    ("HeaderType", c_uint8);
    ("ManufacturerID", c_uint8);
    ("SonarID", c_uint16);
    ("PacketID", c_array c_uint16 2);
    ("Reserved1", c_uint32);
    ("NumBytesThisRecord", c_uint32);
    ("Id", c_int32);
    ("SoundVelocity", c_float);
    ("Intensity", c_float);
    ("Quality", c_int32);
    ("TwoWayTravelTime", c_float);
    ("Year", c_uint16);
    ("Month", c_uint8);
    ("Day", c_uint8);
    ("Hour", c_uint8);
    ("Minute", c_uint8);
    ("Second", c_uint8);
    ("Millisecond", c_uint16);
    ("Reserved2", c_array c_uint8 7)
  ].

Definition XTFHeaderNavigation : ctypes_class :=
  subclass XTFPacket "XTFHeaderNavigation" [
    ("MagicNumber", c_uint16);
    ("HeaderType", c_uint8);
    ("Reserved", c_array c_uint8 7);
    ("NumBytesThisRecord", c_uint32);
    ("Year", c_uint16);
    ("Month", c_uint8);
    ("Day", c_uint8);
    ("Hour", c_uint8);
    ("Minute", c_uint8);
    ("Second", c_uint8);
    ("Microsecond", c_uint32);
    ("SourceEpoch", c_uint32);
    ("TimeTag", c_uint32);
    ("RawYcoordinate", c_double);
    ("RawXcoordinate", c_double);
    ("RawAltitude", c_double);
    ("TimeFlag", c_uint8);
    ("Reserved2", c_array c_uint8 6)
  ].

Definition XTFHeaderGyro : ctypes_class :=
  subclass XTFPacket "XTFHeaderGyro" [
    ("MagicNumber", c_uint16);
    ("HeaderType", c_uint8);
    ("Reserved", c_array c_uint8 7);
    ("NumBytesThisRecord", c_uint32);
    ("Year", c_uint16);
    ("Month", c_uint8);
    ("Day", c_uint8);
    ("Hour", c_uint8);
    ("Minute", c_uint8);
    ("Second", c_uint8);
    ("Microsecond", c_uint32);
    ("SourceEpoch", c_uint32);
    ("TimeTag", c_uint32);
    ("Gyro", c_float);
    ("TimeFlag", c_uint8);
    ("Reserved1", c_array c_uint8 26)
  ].

Definition XTFHighSpeedSensor : ctypes_class :=
  subclass XTFPacketStart "XTFHighSpeedSensor" [
    ("Year", c_uint16);
    ("Month", c_uint8);
    ("Day", c_uint8);
    ("Hour", c_uint8);
    ("Minute", c_uint8);
    ("Second", c_uint8);
    ("HSeconds", c_uint8);
    ("NumSensorBytes", c_uint32);
    ("RelativeBathyPingNum", c_uint32);
    ("Reserved3", c_array c_uint8 34)
  ].

Definition XTFBeamXYZA : ctypes_class := {|
  __name__ := "XTFBeamXYZA";
  _fields_ := [
    ("dPosOffsetTrX", c_double);
    ("dPosOffsetTrY", c_double);
    ("fDepth", c_float);
    ("dTime", c_double);
    ("usAmpl", c_int16);
    ("ucQuality", c_uint8)
  ]
|}.

(** The size assertions at the end of the source file, as a check that can be
    evaluated. *)
Definition header_sizes : list (ctypes_class * nat) := [
  (XTFFileHeader, 1024%nat);
  (XTFChanInfo, 128%nat);
  (XTFAttitudeData, 64%nat);
  (XTFNotesHeader, 256%nat);
  (XTFRawSerialHeader, 30%nat);
  (XTFPingHeader, 256%nat);
  (XTFPingChanHeader, 64%nat);
  (XTFHighSpeedSensor, 64%nat);
  (XTFBeamXYZA, 31%nat);
  (XTFHeaderGyro, 64%nat)
].

(** ** [XTFBase]: constructing a structure from a buffer *)

(** A natural number as Python prints it with [%zd]. *)
Definition decimal (n : nat) : string :=
  NilZero.string_of_uint (Nat.to_uint n).

(** The message of the [ValueError] of [from_buffer_copy] for a source of
    [got] bytes where [need] are required. *)
Definition buffer_too_small (got need : nat) : string :=
  String.append "Buffer size too small ("
    (String.append (decimal got)
       (String.append " instead of at least "
          (String.append (decimal need) " bytes)"))).

Definition from_buffer_copy (size : nat) (source : bytes) : result bytes :=
  if (length source <? size)%nat
  then Raise (ValueError (buffer_too_small (length source) size))
  else Ok (firstn size source).

Definition shorter_than_expected (cls : ctypes_class) : exn :=
  RuntimeError
    (String.append "XTF file shorter than expected (end hit while reading "
       (String.append (__name__ cls) ")")).

(** [XTFBase.__new__]. A bytes object is wrapped in a fresh [BytesIO], which
    is local to this call: the caller's [buffer] is not advanced by it. *)
Definition XTFBase_new (cls : ctypes_class) (buffer : pybuffer) : io bytes :=
  if truthy buffer then
    header_bytes <-
      match buffer with
      | PyBytes b => lift (fst (BytesIO_read (Z.of_nat (sizeof cls)) b))
      | _ => buffer_read buffer (Z.of_nat (sizeof cls))
      end ;;
    if (length header_bytes =? 0)%nat
    then raise (shorter_than_expected cls)
    else lift (from_buffer_copy (sizeof cls) header_bytes)
  else ret (repeat x00 (sizeof cls)).

(** A class without an [__init__] of its own that does anything:
    [XTFPingChanHeader(buffer=buffer)], [XTFBeamXYZA(buffer)]. *)
Definition XTFPingChanHeader_call (buffer : pybuffer) : io bytes :=
  XTFBase_new XTFPingChanHeader buffer.

(** [XTFChanInfo(buffer)]. *)
Definition XTFChanInfo_call (buffer : pybuffer) : io bytes :=
  raw <- XTFBase_new XTFChanInfo buffer ;;
  if truthy buffer then ret raw
  else ret (setattr_int XTFChanInfo raw "Reserved" 1024).

(** ** [XTFFileHeader] *)

Record XTFFileHeader_obj : Type := {
  fh_raw : bytes;
  sonar_info : option (list bytes);
  bathy_info : option (list bytes)
}.

Definition sonar_chan_types : list Z :=
  [XTFChannelType.port; XTFChannelType.stbd; XTFChannelType.subbottom].

Definition channel_count (raw : bytes) : Z :=
  let n_channels :=
    field XTFFileHeader "NumberOfSonarChannels" raw
    + field XTFFileHeader "NumberOfBathymetryChannels" raw
    + field XTFFileHeader "NumberOfSnippetChannels" raw
    + field XTFFileHeader "NumberOfForwardLookArrays" raw
    + field XTFFileHeader "NumberOfEchoStrengthChannels" raw
    + field XTFFileHeader "NumberOfInterferometryChannels" raw in
  n_channels.

(** [range(lo, hi)]. *)
Definition py_range (lo hi : Z) : list Z :=
  map (fun k => lo + Z.of_nat k) (seq 0 (Z.to_nat (hi - lo))).

(** [x in xs] for integers. *)
Definition py_in (x : Z) (xs : list Z) : bool := existsb (Z.eqb x) xs.

Definition ChanInfo_offset : nat :=
  match field_lookup "ChanInfo" (_fields_ XTFFileHeader) O with
  | Some (off, _) => off
  | None => O
  end.

(** [self.ChanInfo[i]]: the array has six elements; an index outside of it
    raises [IndexError]. *)
Definition ChanInfo_getitem (raw : bytes) (i : Z) : result bytes :=
  let i' := if i <? 0 then i + 6 else i in
  if (0 <=? i') && (i' <? 6)
  then Ok (slice (ChanInfo_offset + Z.to_nat i' * sizeof XTFChanInfo)
             (sizeof XTFChanInfo) raw)
  else Raise IndexError.

Fixpoint mapM {A B : Type} (f : A -> result B) (xs : list A)
  : result (list B) :=
  match xs with
  | [] => Ok []
  | x :: r =>
      let? y := f x in
      let? ys := mapM f r in
      Ok (y :: ys)
  end.

Definition ChanInfo_set_Reserved (raw : bytes) (i : nat) : bytes :=
  let off := (ChanInfo_offset + i * sizeof XTFChanInfo)%nat in
  set_slice off (sizeof XTFChanInfo)
    (setattr_int XTFChanInfo (slice off (sizeof XTFChanInfo) raw)
       "Reserved" 1024)
    raw.

(** [XTFFileHeader.__init__] *)
Definition XTFFileHeader_init (buffer : pybuffer) (raw : bytes)
  : result XTFFileHeader_obj :=
  if truthy buffer then
    let? chan_info := mapM (ChanInfo_getitem raw)
                        (py_range 0 (channel_count raw)) in
    Ok {| fh_raw := raw;
          sonar_info :=
            Some (filter (fun x => py_in (field XTFChanInfo "TypeOfChannel" x)
                                     sonar_chan_types) chan_info);
          bathy_info :=
            Some (filter (fun x => field XTFChanInfo "TypeOfChannel" x
                                   =? XTFChannelType.bathy) chan_info) |}
  else
    let raw := setattr_int XTFFileHeader raw "FileFormat" 0x7B in
    let raw := setattr_int XTFFileHeader raw "SystemType" 1 in
    let raw :=
      fold_left
        (fun raw i =>
           let raw := ChanInfo_set_Reserved raw i in
           let raw := setattr_bytes XTFFileHeader raw "RecordingProgramName"
                        (list_byte_of_string "pyxtf") in
           setattr_bytes XTFFileHeader raw "RecordingProgramVersion"
             (list_byte_of_string "223"))
        (seq 0 6) raw in
    Ok {| fh_raw := raw; sonar_info := None; bathy_info := None |}.

(** [XTFFileHeader(buffer)] *)
Definition XTFFileHeader_call (buffer : pybuffer) : io XTFFileHeader_obj :=
  raw <- XTFBase_new XTFFileHeader buffer ;;
  lift (XTFFileHeader_init buffer raw).

(** ** [XTFPacketStart] and the packets that only check the magic number *)

Definition bad_magic : exn :=
  RuntimeError
    "XTF packet does not start with the correct identifier (0xFACE).".

(** [XTFPacketStart.__init__], inherited by the subclasses ([cls] is the class
    of [self]). *)
Definition XTFPacketStart_init (cls : ctypes_class) (buffer : pybuffer)
  (raw : bytes) : result bytes :=
  if truthy buffer then
    if negb (field cls "MagicNumber" raw =? 0xFACE)
    then Raise bad_magic
    else Ok raw
  else
    let raw := setattr_int cls raw "MagicNumber" 0xFACE in
    Ok (setattr_int cls raw "HeaderType" XTFHeaderType.user_defined).

(** [XTFPacketStart(buffer)] *)
Definition XTFPacketStart_call (buffer : pybuffer) : io bytes :=
  raw <- XTFBase_new XTFPacketStart buffer ;;
  lift (XTFPacketStart_init XTFPacketStart buffer raw).

(** ** [XTFRawSerialHeader] *)

Record XTFRawSerialHeader_obj : Type := {
  rs_raw : bytes;
  RawAsciiData : bytes
}.

(** The attribute [buffer.read], looked up on its own: in a call
    [buffer.read(args)] Python evaluates it before the arguments. *)
Definition getattr_read (buffer : pybuffer) : result (Z -> io bytes) :=
  match buffer with
  | PyStream => Ok BytesIO_read
  | PyBytes _ => Raise (AttributeError "read")
  | PyNone => Raise (AttributeError "read")
  end.

(** [XTFRawSerialHeader.__init__]. The number of bytes to read is written
    [ctypes.sizeof(ctypes.c_char) * self.StringSize.value] in the source;
    [buffer.read] is looked up first, then the argument is evaluated. *)
Definition XTFRawSerialHeader_init (buffer : pybuffer) (raw : bytes)
  : io XTFRawSerialHeader_obj :=
  raw <- lift (XTFPacketStart_init XTFRawSerialHeader buffer raw) ;;
  if truthy buffer then
    read <- lift (getattr_read buffer) ;;
    StringSize <- lift (getattr XTFRawSerialHeader raw "StringSize") ;;
    n <- lift (dot_value StringSize) ;;
    ascii <- read (Z.of_nat (ctypes_sizeof c_char) * n) ;;
    ret {| rs_raw := raw; RawAsciiData := ascii |}
  else
    ret {| rs_raw := setattr_int XTFRawSerialHeader raw "HeaderType"
                       XTFHeaderType.raw_serial;
           RawAsciiData := [] |}.

(** [XTFRawSerialHeader(buffer)] *)
Definition XTFRawSerialHeader_call (buffer : pybuffer)
  : io XTFRawSerialHeader_obj :=
  raw <- XTFBase_new XTFRawSerialHeader buffer ;;
  XTFRawSerialHeader_init buffer raw.

(** ** [XTFPingHeader] *)

(** A numpy array of unsigned integers: the item size of its dtype and its
    items. *)
Record ndarray : Type := {
  itemsize : Z;
  items : list Z
}.

(** The [data] attribute of a ping: a list of numpy arrays, or (for processed
    bathymetry) a ctypes array of [XTFBeamXYZA] structures. *)
Inductive ping_data : Type :=
| DataList (arrays : list ndarray)
| DataXYZA (beams : list bytes).

Record XTFPingHeader_obj : Type := {
  ph_raw : bytes;
  ping_chan_headers : list bytes;
  data : ping_data
}.

(** Cutting a byte string into items of [w] bytes ([n] bounds the number of
    items). *)
Fixpoint chunks (n w : nat) (bs : bytes) : list bytes :=
  match n with
  | O => []
  | S n' =>
      match bs with
      | [] => []
      | _ :: _ => firstn w bs :: chunks n' w (skipn w bs)
      end
  end.

(** [np.frombuffer(samples, dtype)] for an unsigned little-endian dtype. *)
Definition np_frombuffer (samples : bytes) (dtype : Z) : result ndarray :=
  if Z.of_nat (length samples) mod dtype =? 0
  then Ok {| itemsize := dtype;
             items := map le_uint
                        (chunks (length samples) (Z.to_nat dtype) samples) |}
  else Raise (ValueError "buffer size must be a multiple of element size").

(** [xs[i]] on a Python list, for [i >= 0]. *)
Definition list_getitem {A : Type} (xs : list A) (i : Z) : result A :=
  if i <? 0 then Raise IndexError
  else match nth_error xs (Z.to_nat i) with
       | Some x => Ok x
       | None => Raise IndexError
       end.

(** Reading an attribute that [__init__] sets only on some paths. *)
Definition getattr_opt {A : Type} (name : string) (a : option A) : result A :=
  match a with
  | Some x => Ok x
  | None => Raise (AttributeError name)
  end.

Definition _bathy_header_types : list Z :=
  [XTFHeaderType.bathy_xyza; XTFHeaderType.bathy;
   XTFHeaderType.multibeam_raw_beam_angle].

Definition exceeds_remaining : exn :=
  RuntimeError
    "Number of bytes to read exceeds the number of bytes remaining in packet.".

Definition file_ended : exn :=
  RuntimeError "File ended while reading data packets (file corrupt?)".

Definition packets_missing : exn :=
  Exception "XTF data packets missing (file corrupt?)".

(** The sample count of channel [i]: [p_chan.NumSamples] when it is positive,
    else the old field [file_header.sonar_info[i].Reserved]. *)
Definition n_samples_of (file_header : XTFFileHeader_obj) (p_chan : bytes)
  (i : Z) : result Z :=
  if field XTFPingChanHeader "NumSamples" p_chan >? 0
  then Ok (field XTFPingChanHeader "NumSamples" p_chan)
  else
    let? info := getattr_opt "sonar_info" (sonar_info file_header) in
    let? chan := list_getitem info i in
    Ok (field XTFChanInfo "Reserved" chan).

Definition n_bytes_remaining_of (p_header : bytes) : Z :=
  field XTFPingHeader "NumBytesThisRecord" p_header
  - Z.of_nat (sizeof XTFPingHeader)
  - Z.of_nat (sizeof XTFPingChanHeader).

(** The body of the loop over the channels of a sonar ping. The accumulator
    carries [p_header.ping_chan_headers] and [p_header.data]. *)
Definition ping_channel (buffer : pybuffer) (file_header : XTFFileHeader_obj)
  (p_header : bytes) (i : Z) (acc : list bytes * list ndarray)
  : io (list bytes * list ndarray) :=
  p_chan <- XTFPingChanHeader_call buffer ;;
  let chan_headers := fst acc ++ [p_chan] in
  n_samples <- lift (n_samples_of file_header p_chan i) ;;
  info <- lift (getattr_opt "sonar_info" (sonar_info file_header)) ;;
  chan <- lift (list_getitem info i) ;;
  let n_bytes := n_samples * field XTFChanInfo "BytesPerSample" chan in
  let n_bytes_remaining := n_bytes_remaining_of p_header in
  if n_bytes >? n_bytes_remaining then raise exceeds_remaining
  else
    samples <- buffer_read buffer
                 (n_samples * field XTFChanInfo "BytesPerSample" chan) ;;
    if (length samples =? 0)%nat then raise file_ended
    else
      dtype <- lift (xtf_dtype (field XTFChanInfo "BytesPerSample" chan)) ;;
      samples <- lift (np_frombuffer samples dtype) ;;
      ret (chan_headers, snd acc ++ [samples]).

(** [for i in xs: acc = body(i, acc)] *)
Fixpoint for_each {A S : Type} (xs : list A) (body : A -> S -> io S) (acc : S)
  : io S :=
  match xs with
  | [] => ret acc
  | x :: r => acc' <- body x acc ;; for_each r body acc'
  end.

(** The processed bathymetry payload: [num_xyza] structures copied out of
    [samples] by [(XTFBeamXYZA * num_xyza).from_buffer_copy(samples)]. *)
Definition xyza_array (n_bytes : Z) (samples : bytes) : result ping_data :=
  let num_xyza := n_bytes / Z.of_nat (sizeof XTFBeamXYZA) in
  if num_xyza <? 0 then Raise (ValueError "Array length must be >= 0")
  else
    let? copied := from_buffer_copy (Z.to_nat num_xyza * sizeof XTFBeamXYZA)
                     samples in
    Ok (DataXYZA (chunks (Z.to_nat num_xyza) (sizeof XTFBeamXYZA) copied)).

(** [XTFPingHeader.__new__] *)
Definition XTFPingHeader_new (buffer : pybuffer)
  (file_header : option XTFFileHeader_obj) : io XTFPingHeader_obj :=
  p_header <- XTFBase_new XTFPingHeader buffer ;;
  if truthy buffer then
    match file_header with
    | None =>
        raise (RuntimeError "Initialization of XTFPingHeader from buffer requires file_header to be passed.")
    | Some file_header =>
        let HeaderType := field XTFPingHeader "HeaderType" p_header in
        if HeaderType =? XTFHeaderType.sonar then
          acc <- for_each
                   (py_range 0 (field XTFPingHeader "NumChansToFollow" p_header))
                   (ping_channel buffer file_header p_header) ([], []) ;;
          ret {| ph_raw := p_header;
                 ping_chan_headers := fst acc;
                 data := DataList (snd acc) |}
        else if py_in HeaderType _bathy_header_types then
          let n_bytes := field XTFPingHeader "NumBytesThisRecord" p_header
                         - Z.of_nat (sizeof XTFPingHeader) in
          samples <- buffer_read buffer n_bytes ;;
          if (length samples =? 0)%nat then raise packets_missing
          else if HeaderType =? XTFHeaderType.bathy_xyza then
            xyza <- lift (xyza_array n_bytes samples) ;;
            ret {| ph_raw := p_header; ping_chan_headers := []; data := xyza |}
          else
            raw_bathy <- lift (np_frombuffer samples 1) ;;
            ret {| ph_raw := p_header; ping_chan_headers := [];
                   data := DataList [raw_bathy] |}
        else raise (RuntimeError "Unknown XTFPingHeader type encountered.")
    end
  else
    ret {| ph_raw := p_header; ping_chan_headers := []; data := DataList [] |}.

(** [XTFPingHeader.__init__] *)
Definition XTFPingHeader_init (buffer : pybuffer) (self : XTFPingHeader_obj)
  : result XTFPingHeader_obj :=
  let? raw := XTFPacketStart_init XTFPingHeader buffer (ph_raw self) in
  let raw := if truthy buffer then raw
             else setattr_int XTFPingHeader raw "HeaderType"
                    XTFHeaderType.sonar in
  Ok {| ph_raw := raw;
        ping_chan_headers := ping_chan_headers self;
        data := data self |}.

(** [XTFPingHeader(buffer, file_header)] *)
Definition XTFPingHeader_call (buffer : pybuffer)
  (file_header : option XTFFileHeader_obj) : io XTFPingHeader_obj :=
  self <- XTFPingHeader_new buffer file_header ;;
  lift (XTFPingHeader_init buffer self).

(** Building a structure the way the writer side of the library does: a zero
    filled instance whose fields are then assigned. *)
Definition with_fields (cls : ctypes_class) (assignments : list (string * Z))
  : bytes :=
  fold_left (fun raw nv => setattr_int cls raw (fst nv) (snd nv)) assignments
    (repeat x00 (sizeof cls)).

(** ** Dates and times: [datetime.date] and [numpy.datetime64] *)

Module datetime.

Definition MINYEAR : Z := 1.
Definition MAXYEAR : Z := 9999.

Definition _is_leap (year : Z) : bool :=
  (year mod 4 =? 0) && (negb (year mod 100 =? 0) || (year mod 400 =? 0)).

Definition _DAYS_IN_MONTH : list Z :=
  [-1; 31; 28; 31; 30; 31; 30; 31; 31; 30; 31; 30; 31].

Definition _DAYS_BEFORE_MONTH : list Z :=
  [-1; 0; 31; 59; 90; 120; 151; 181; 212; 243; 273; 304; 334].

Definition _days_before_year (year : Z) : Z :=
  let y := year - 1 in
  y * 365 + y / 4 - y / 100 + y / 400.

Definition _days_in_month (year month : Z) : Z :=
  if (month =? 2) && _is_leap year then 29
  else nth (Z.to_nat month) _DAYS_IN_MONTH 0.

Definition _days_before_month (year month : Z) : Z :=
  nth (Z.to_nat month) _DAYS_BEFORE_MONTH 0
  + (if (month >? 2) && _is_leap year then 1 else 0).

Definition _ymd2ord (year month day : Z) : Z :=
  _days_before_year year + _days_before_month year month + day.

Record date_obj : Type := { year : Z; month : Z; day : Z }.

(** [date(year, month, day)] checks its fields; the messages are those of
    CPython 3.11. *)
Definition date (y m d : Z) : result date_obj :=
  if negb ((MINYEAR <=? y) && (y <=? MAXYEAR))
  then Raise (ValueError
                (String.append "year "
                   (String.append (NilZero.string_of_int (Z.to_int y))
                      " is out of range")))
  else if negb ((1 <=? m) && (m <=? 12))
  then Raise (ValueError "month must be in 1..12")
  else if negb ((1 <=? d) && (d <=? _days_in_month y m))
  then Raise (ValueError "day is out of range for month")
  else Ok {| year := y; month := m; day := d |}.

Definition toordinal (self : date_obj) : Z :=
  _ymd2ord (year self) (month self) (day self).

(** [(a - b).days] *)
Definition sub_days (a b : date_obj) : Z := toordinal a - toordinal b.

End datetime.

Module np.

Inductive time_unit : Type := Y | D | h | m | s | ms | us.

Record datetime64 : Type := { dt_unit : time_unit; dt_value : Z }.
Record timedelta64 : Type := { td_unit : time_unit; td_value : Z }.

(** Units from coarse to fine. *)
Definition rank (u : time_unit) : nat :=
  match u with
  | Y => 0 | D => 1 | h => 2 | m => 3 | s => 4 | ms => 5 | us => 6
  end%nat.

Definition finer (a b : time_unit) : time_unit :=
  if (rank a <? rank b)%nat then b else a.

(** How many of a unit make a day (the year is not a linear unit). *)
Definition per_day (u : time_unit) : Z :=
  match u with
  | Y => 0
  | D => 1
  | h => 24
  | m => 1440
  | s => 86400
  | ms => 86400000
  | us => 86400000000
  end.

(** numpy's [get_datetimestruct_days] for the first of January of [year]:
    days since 1970-01-01, with C integer division. *)
Definition year_start_days (year : Z) : Z :=
  let y := year - 1970 in
  let days := y * 365 in
  if days >=? 0 then
    let y := y + 1 in
    let days := days + Z.quot y 4 in
    let y := y + 68 in
    let days := days - Z.quot y 100 in
    let y := y + 300 in
    days + Z.quot y 400
  else
    let y := y - 2 in
    let days := days + Z.quot y 4 in
    let y := y - 28 in
    let days := days - Z.quot y 100 in
    days + Z.quot y 400.

(** Casting a datetime to a unit that is at least as fine. A value in years
    is the first of January of that year. *)
Definition datetime_as (u : time_unit) (t : datetime64) : Z :=
  match dt_unit t with
  | Y =>
      match u with
      | Y => dt_value t
      | _ => year_start_days (1970 + dt_value t) * per_day u
      end
  | u0 => dt_value t * (per_day u / per_day u0)
  end.

(** Casting a time difference to a finer unit; years do not convert. *)
Definition timedelta_as (u : time_unit) (t : timedelta64) : result Z :=
  match td_unit t, u with
  | Y, Y => Ok (td_value t)
  | Y, _ => Raise TypeError
  | u0, _ => Ok (td_value t * (per_day u / per_day u0))
  end.

(** [datetime64 + timedelta64]: the result has the finer of the two units. *)
Definition add (t : datetime64) (d : timedelta64) : result datetime64 :=
  let u := finer (dt_unit t) (td_unit d) in
  let? dv := timedelta_as u d in
  Ok {| dt_unit := u; dt_value := datetime_as u t + dv |}.

(** [np.datetime64(str(year), 'Y')] for a non-negative integer [year]. *)
Definition datetime64_of_year (year : Z) : datetime64 :=
  {| dt_unit := Y; dt_value := year - 1970 |}.

End np.

(** ** [XTFPacket.get_time] *)

(** [hasattr(self, name) and self.name] as a truth value. *)
Definition has_nonzero (cls : ctypes_class) (raw : bytes) (name : string)
  : result bool :=
  if hasattr cls name then
    let? v := getint cls raw name in
    Ok (negb (v =? 0))
  else Ok false.

Definition get_time (cls : ctypes_class) (self : bytes)
  : result np.datetime64 :=
  let? epoch := has_nonzero cls self "SourceEpoch" in
  if epoch then
    let? SourceEpoch := getint cls self "SourceEpoch" in
    let p_time := {| np.dt_unit := np.s; np.dt_value := SourceEpoch |} in
    let? micro := has_nonzero cls self "EpochMicroseconds" in
    if micro then
      let? EpochMicroseconds := getint cls self "EpochMicroseconds" in
      np.add p_time
        {| np.td_unit := np.us; np.td_value := EpochMicroseconds |}
    else Ok p_time
  else
    let? Year := getint cls self "Year" in
    let? Month := getint cls self "Month" in
    let? Day := getint cls self "Day" in
    let? d1 := datetime.date Year Month Day in
    let? d0 := datetime.date Year 1 1 in
    let days := datetime.sub_days d1 d0 in
    let? p_time := np.add (np.datetime64_of_year Year)
                     {| np.td_unit := np.D; np.td_value := days |} in
    let? Hour := getint cls self "Hour" in
    let? p_time := np.add p_time
                     {| np.td_unit := np.h; np.td_value := Hour |} in
    let? Minute := getint cls self "Minute" in
    let? p_time := np.add p_time
                     {| np.td_unit := np.m; np.td_value := Minute |} in
    let? Second := getint cls self "Second" in
    let? p_time := np.add p_time
                     {| np.td_unit := np.s; np.td_value := Second |} in
    if hasattr cls "HSeconds" then
      let? HSeconds := getint cls self "HSeconds" in
      np.add p_time {| np.td_unit := np.ms; np.td_value := HSeconds * 10 |}
    else
      let? p_time :=
        if hasattr cls "Millisecond" then
          let? Millisecond := getint cls self "Millisecond" in
          np.add p_time {| np.td_unit := np.ms; np.td_value := Millisecond |}
        else Ok p_time in
      let? p_time :=
        if hasattr cls "Microsecond" then
          let? Microsecond := getint cls self "Microsecond" in
          np.add p_time {| np.td_unit := np.us; np.td_value := Microsecond |}
        else Ok p_time in
      Ok p_time.

(** The packet classes of the module: the values of [XTFPacketClasses], and
    the bare packet start. *)
Definition packet_classes : list ctypes_class :=
  [XTFPingHeader; XTFAttitudeData; XTFNotesHeader; XTFRawSerialHeader;
   XTFPosRawNavigation; XTFQPSSingleBeam; XTFRawCustomHeader;
   XTFHeaderNavigation; XTFHeaderGyro; XTFHighSpeedSensor].

(** A point in time as microseconds since 1970-01-01T00:00:00. *)
Definition instant_us (t : np.datetime64) : Z := np.datetime_as np.us t.

(** ** The proleptic Gregorian calendar, as the reference for [get_time] *)

Module Gregorian.

Definition leap (y : Z) : bool :=
  (y mod 4 =? 0) && (negb (y mod 100 =? 0) || (y mod 400 =? 0)).

Definition year_length (y : Z) : Z := if leap y then 366 else 365.

Definition month_length (y m : Z) : Z :=
  match m with
  | 1 => 31
  | 2 => if leap y then 29 else 28
  | 3 => 31
  | 4 => 30
  | 5 => 31
  | 6 => 30
  | 7 => 31
  | 8 => 31
  | 9 => 30
  | 10 => 31
  | 11 => 30
  | 12 => 31
  | _ => 0
  end.

(** Days in the years [1 .. n]. *)
Fixpoint days_in_years (n : nat) : Z :=
  match n with
  | O => 0
  | S k => days_in_years k + year_length (Z.of_nat (S k))
  end.

(** Days in the months [1 .. n] of year [y]. *)
Fixpoint days_in_months (y : Z) (n : nat) : Z :=
  match n with
  | O => 0
  | S k => days_in_months y k + month_length y (Z.of_nat (S k))
  end.

Definition valid (y m d : Z) : Prop :=
  1 <= y <= 9999 /\ 1 <= m <= 12 /\ 1 <= d <= month_length y m.

(** Days from 1970-01-01 to the day [y]-[m]-[d]. *)
Definition days_since_epoch (y m d : Z) : Z :=
  days_in_years (Z.to_nat (y - 1)) - days_in_years 1969
  + days_in_months y (Z.to_nat (m - 1)) + (d - 1).

(** Microseconds from 1970-01-01T00:00:00 to the given calendar time. *)
Definition micros (y m d hh mm ss : Z) : Z :=
  (((days_since_epoch y m d * 24 + hh) * 60 + mm) * 60 + ss) * 1000000.

End Gregorian.

(** The sub-second part of a packet's time stamp in microseconds: hundredths
    of a second if the class has them, else milliseconds, else
    microseconds. *)
Definition subsecond_us (cls : ctypes_class) (self : bytes) : Z :=
  if hasattr cls "HSeconds" then field cls "HSeconds" self * 10 * 1000
  else if hasattr cls "Millisecond" then field cls "Millisecond" self * 1000
  else if hasattr cls "Microsecond" then field cls "Microsecond" self
  else 0.

(** The unit of the time stamp [get_time] computes from the calendar fields. *)
Definition subsecond_unit (cls : ctypes_class) : np.time_unit :=
  if hasattr cls "HSeconds" then np.ms
  else if hasattr cls "Microsecond" then np.us
  else if hasattr cls "Millisecond" then np.ms
  else np.s.

(** ** Order-preserving sub-lists *)

Inductive subsequence {A : Type} : list A -> list A -> Prop :=
| subseq_nil : subsequence [] []
| subseq_skip (x : A) (l1 l2 : list A) :
    subsequence l1 l2 -> subsequence l1 (x :: l2)
| subseq_take (x : A) (l1 l2 : list A) :
    subsequence l1 l2 -> subsequence (x :: l1) (x :: l2).

(** The four channel types of [XTFChannelType]. *)
Definition known_channel_type (t : Z) : bool :=
  (t =? XTFChannelType.subbottom) || (t =? XTFChannelType.port)
  || (t =? XTFChannelType.stbd) || (t =? XTFChannelType.bathy).

(** The descriptor slot [i] of a file header. *)
Definition chan_slot (raw : bytes) (i : Z) : bytes :=
  slice (ChanInfo_offset + Z.to_nat i * sizeof XTFChanInfo)
    (sizeof XTFChanInfo) raw.

(** The error of a structure decode that finds too few bytes [avail]:
    the decoder's own error at the end of the input, the one of
    [from_buffer_copy] after a partial read. *)
Definition truncation_error (cls : ctypes_class) (avail : bytes) : exn :=
  match avail with
  | [] => shorter_than_expected cls
  | _ :: _ => ValueError (buffer_too_small (length avail) (sizeof cls))
  end.

(** The bytes a buffer argument can provide: the unread part of the stream,
    or the content of the bytes object. *)
Definition available (buffer : pybuffer) (s : bytes) : bytes :=
  match buffer with
  | PyStream => s
  | PyBytes b => b
  | PyNone => []
  end.

(** A computation that, from any state of the stream and whatever its
    outcome, removes a prefix of at most [bound] bytes from the stream. *)
Definition takes_at_most {A : Type} (c : io A) (bound : Z) : Prop :=
  forall s, exists got,
    s = got ++ snd (c s) /\ Z.of_nat (length got) <= bound.

(** ** Concrete inputs *)

Module Examples.

Definition chan_info (type bytes_per_sample reserved : Z) : bytes :=
  with_fields XTFChanInfo
    [("TypeOfChannel", type); ("BytesPerSample", bytes_per_sample);
     ("Reserved", reserved)].

(** A file header with a port and a starboard channel of two bytes per sample
    and an old sample count of three. *)
Definition header_2ch_raw : bytes :=
  set_slice 256 128 (chan_info XTFChannelType.port 2 3)
    (set_slice 384 128 (chan_info XTFChannelType.stbd 2 3)
       (with_fields XTFFileHeader [("NumberOfSonarChannels", 2)])).

Definition header_2ch : XTFFileHeader_obj := {|
  fh_raw := header_2ch_raw;
  sonar_info := Some [chan_info XTFChannelType.port 2 3;
                      chan_info XTFChannelType.stbd 2 3];
  bathy_info := Some []
|}.

(** A file header that announces seven sonar channels. *)
Definition header_7ch_raw : bytes :=
  with_fields XTFFileHeader [("NumberOfSonarChannels", 7)].

(** A file header whose six counters are given. *)
Definition header_counts (a b c d e f : Z) : bytes :=
  with_fields XTFFileHeader
    [("NumberOfSonarChannels", a); ("NumberOfBathymetryChannels", b);
     ("NumberOfSnippetChannels", c); ("NumberOfForwardLookArrays", d);
     ("NumberOfEchoStrengthChannels", e);
     ("NumberOfInterferometryChannels", f)].

(** A file header with channels of types port, 9 (unknown), bathy, stbd. *)
Definition header_mixed_raw : bytes :=
  set_slice 256 128 (chan_info XTFChannelType.port 2 0)
    (set_slice 384 128 (chan_info 9 2 0)
       (set_slice 512 128 (chan_info XTFChannelType.bathy 2 0)
          (set_slice 640 128 (chan_info XTFChannelType.stbd 2 0)
             (header_counts 2 1 1 0 0 0)))).

Definition ping_header (header_type n_chans n_bytes : Z) : bytes :=
  with_fields XTFPingHeader
    [("MagicNumber", 0xFACE); ("HeaderType", header_type);
     ("NumChansToFollow", n_chans); ("NumBytesThisRecord", n_bytes)].

Definition ping_chan_header (num_samples : Z) : bytes :=
  with_fields XTFPingChanHeader [("NumSamples", num_samples)].

Definition payload (n : nat) : bytes := repeat x01 n.

(** A sonar ping that declares a frame of 324 bytes and two channels of two
    samples each; it is followed by 8 bytes of the next packet. *)
Definition ping_2ch_stream : bytes :=
  ping_header XTFHeaderType.sonar 2 324
    ++ ping_chan_header 2 ++ payload 4
    ++ ping_chan_header 2 ++ payload 4
    ++ payload 8.

(** A file header with a port channel of two bytes per sample and an old
    sample count of three, and a starboard channel of one byte per sample and
    an old sample count of seven. *)
Definition header_mixed_widths_raw : bytes :=
  set_slice 256 128 (chan_info XTFChannelType.port 2 3)
    (set_slice 384 128 (chan_info XTFChannelType.stbd 1 7)
       (with_fields XTFFileHeader [("NumberOfSonarChannels", 2)])).

Definition header_mixed_widths : XTFFileHeader_obj := {|
  fh_raw := header_mixed_widths_raw;
  sonar_info := Some [chan_info XTFChannelType.port 2 3;
                      chan_info XTFChannelType.stbd 1 7];
  bathy_info := Some []
|}.

(** A sonar ping of two channels for that file header: the first sub-header
    counts five samples, the second none; three bytes of the next packet
    follow. *)
Definition ping_mixed_stream : bytes :=
  ping_header XTFHeaderType.sonar 2 400
    ++ ping_chan_header 5 ++ payload 10
    ++ ping_chan_header 0 ++ payload 7
    ++ payload 3.

(** A one-channel sonar ping whose sub-header has no sample count. *)
Definition ping_legacy_stream : bytes :=
  ping_header XTFHeaderType.sonar 1 326 ++ ping_chan_header 0 ++ payload 6.

(** A one-channel sonar ping whose sub-header counts five samples. *)
Definition ping_5_stream : bytes :=
  ping_header XTFHeaderType.sonar 1 330 ++ ping_chan_header 5 ++ payload 10.

(** A one-channel sonar ping that declares more samples than its frame of
    322 bytes holds. *)
Definition ping_overlong_stream : bytes :=
  ping_header XTFHeaderType.sonar 1 322 ++ ping_chan_header 2 ++ payload 4.

(** A processed bathymetry record with a payload of 32 bytes: one beam record
    and one byte more. *)
Definition xyza_32_stream : bytes :=
  ping_header XTFHeaderType.bathy_xyza 0 (256 + 32) ++ payload 32.

Definition preamble (magic : Z) : bytes :=
  with_fields XTFPacketStart
    [("MagicNumber", magic); ("HeaderType", XTFHeaderType.notes);
     ("NumBytesThisRecord", 256)].

(** A raw serial packet with a three byte string. *)
Definition raw_serial_stream : bytes :=
  with_fields XTFRawSerialHeader
    [("MagicNumber", 0xFACE); ("HeaderType", XTFHeaderType.raw_serial);
     ("NumBytesThisRecord", 64); ("StringSize", 3)]
    ++ list_byte_of_string "abc".

(** 2020-03-01T00:00:00 and 50 hundredths of a second, in a ping header. *)
Definition ping_2020_03_01 : bytes :=
  with_fields XTFPingHeader
    [("MagicNumber", 0xFACE); ("Year", 2020); ("Month", 3); ("Day", 1);
     ("Hour", 0); ("Minute", 0); ("Second", 0); ("HSeconds", 50)].

(** A navigation packet with a source epoch and other time fields set. *)
Definition navigation_epoch : bytes :=
  with_fields XTFHeaderNavigation
    [("MagicNumber", 0xFACE); ("Year", 2020); ("Month", 3); ("Day", 1);
     ("Hour", 7); ("Microsecond", 123456); ("SourceEpoch", 1583020800)].

End Examples.

(** * The rest of the module *)

(** ** [AutoIntEnum] *)

(** A member of an [AutoIntEnum]: [int.__new__(cls)] makes the integer zero,
    and [_value_] is set to the number of members defined so far. *)
Record auto_member : Type := {
  member_name : string;
  int_value : Z;
  _value_ : Z
}.

(** [AutoIntEnum.__new__], called for each member in declaration order with
    the members created before it. *)
Definition AutoIntEnum_new (__members__ : list auto_member) (name : string)
  : auto_member :=
  let value := Z.of_nat (length __members__) in
  {| member_name := name; int_value := 0; _value_ := value |}.

(** Creating the class: the members in declaration order. *)
Definition AutoIntEnum (names : list string) : list auto_member :=
  fold_left (fun members name => members ++ [AutoIntEnum_new members name])
    names [].

Definition enum_member (cls : list auto_member) (name : string)
  : result auto_member :=
  match find (fun m => String.eqb (member_name m) name) cls with
  | Some m => Ok m
  | None => Raise (AttributeError name)
  end.

Definition XTFChannelType_enum : list auto_member :=
  AutoIntEnum ["subbottom"; "port"; "stbd"; "bathy"].

Definition XTFManufacturerID_enum : list auto_member :=
  AutoIntEnum
    ["unknown"; "benthos"; "reson"; "edgetech"; "klein"; "coda"; "kongsberg";
     "cmax"; "marine_sonics"; "applied_signal"; "imagenex"; "geoacoustics"].

Definition XTFSonarType_enum : list auto_member :=
  AutoIntEnum
    ["none"; "jamstec"; "analog_c31"; "sis1000"; "analog_32chan"; "klein2000";
     "rws"; "df1000"; "seabat"; "klein595"; "egg260"; "sonatech_dds";
     "echoscan"; "elac"; "klein5000"; "reson_seabat_8101"; "imagenex_858";
     "usn_silos"; "sonatech"; "delph_au32"; "generic_sonar"; "simrad_sm2000";
     "standard_multimedia_audio"; "edgetech_aci_card"; "edgetech_black_box";
     "fugro_deeptow"; "cc_edgetech_chirp_conversion"; "dti_sas";
     "fugro_osiris_ss"; "fugro_osiris_mb"; "geoacoustics_sls";
     "simrad_em2000_em3000"; "klein_system_3000"; "shrsss_chirp_system";
     "benthos_c3d_sara_caati"; "edgetech_mpx"; "cmax"; "benthos_sis1624";
     "edgetech_4200"; "benthos_sis1500"; "benthos_sis1502"; "benthos_sis3000";
     "benthos_sis7000"; "df1000_dcu"; "none_sidescan"; "none_multibeam";
     "reson_7125"; "coda_echoscope"; "kongsberg_sas"; "qinsy";
     "geoacoustics_dsss"; "cmax_usb"; "swathplus_bathy"; "r2sonic_qinsy";
     "r2sonic_triton"; "swathplus_converted_bathy"; "edgetech_4600";
     "klein_3500"; "klein_5900"; "em2040"; "klein5kv2"; "dt100"; "kraken62";
     "unknown1"; "unknown2"; "kraken65"; "klein_4900"; "fsi_hms622";
     "fsi_hms6x4"; "fsi_hms6x5"].

(** The assertion after the enumerations:
    [assert XTFSonarType.fsi_hms6x5 != 69], a comparison of integers. *)
Definition sonar_type_assertion : result bool :=
  let? m := enum_member XTFSonarType_enum "fsi_hms6x5" in
  Ok (negb (int_value m =? 69)).

(** ** The snippet structures *)

Definition SNP0 : ctypes_class := {|
  __name__ := "SNP0";
  _fields_ := [
    ("ID", c_uint32);
    ("HeaderSize", c_uint16);
    ("DataSize", c_uint16);
    ("PingNumber", c_uint32);
    ("Seconds", c_uint32);
    ("Millisec", c_uint32);
    ("Latency", c_uint16);
    ("SonarID", c_array c_uint16 2);
    ("SonarModel", c_uint16);
    ("Frequency", c_uint16);
    ("SSpeed", c_uint16);
    ("SampleRate", c_uint16);
    ("PingRate", c_uint16);
    ("Range", c_uint16);
    ("Power", c_uint16);
    ("Gain", c_uint16);
    ("PulseWidth", c_uint16);
    ("Spread", c_uint16);
    ("Absorb", c_uint16);
    ("Proj", c_uint16);
    ("ProjWidth", c_uint16);
    ("SpacingNum", c_uint16);
    ("SpacingDen", c_uint16);
    ("ProjAngle", c_int16);
    ("MinRange", c_uint16);
    ("MaxRange", c_uint16);
    ("MinDepth", c_uint16);
    ("MaxDepth", c_uint16);
    ("Filters", c_uint16);
    ("bFlags", c_array c_uint8 2);
    ("HeadTemp", c_int16);
    ("BeamCnt", c_uint16)
  ]
|}.

Definition SNP1 : ctypes_class := {|
  __name__ := "SNP1";
  _fields_ := [
    ("ID", c_uint32);
    ("HeaderSize", c_uint16);
    ("DataSize", c_uint16);
    ("PingNumber", c_uint32);
    ("Beam", c_uint16);
    ("SnipSamples", c_uint16);
    ("GainStart", c_uint16);
    ("GainEnd", c_uint16);
    ("FragOffset", c_uint16);
    ("FragSamples", c_uint16)
  ]
|}.

(** [SNP0.__init__] and [SNP1.__init__]: the identifier is checked when the
    structure comes from a buffer (with the error message of the packets),
    and written otherwise. *)
Definition SNP_init (cls : ctypes_class) (id : Z) (buffer : pybuffer)
  (raw : bytes) : result bytes :=
  if truthy buffer then
    if negb (field cls "ID" raw =? id) then Raise bad_magic else Ok raw
  else Ok (setattr_int cls raw "ID" id).

Definition SNP0_call (buffer : pybuffer) : io bytes :=
  raw <- XTFBase_new SNP0 buffer ;;
  lift (SNP_init SNP0 0x534E5030 buffer raw).

Definition SNP1_call (buffer : pybuffer) : io bytes :=
  raw <- XTFBase_new SNP1 buffer ;;
  lift (SNP_init SNP1 0x534E5031 buffer raw).

(** All the size assertions under [if __name__ == '__main__']. *)
Definition header_sizes_main : list (ctypes_class * nat) :=
  header_sizes ++ [(SNP0, 74%nat); (SNP1, 24%nat)].

(** ** The [__init__] methods of the other packets *)

(** The subclasses of [XTFPacketStart] whose [__init__] calls the one of
    [XTFPacketStart] and, without a buffer, writes their own header type. *)
Definition packet_start_subclass_init (cls : ctypes_class) (header_type : Z)
  (buffer : pybuffer) (raw : bytes) : result bytes :=
  let? raw := XTFPacketStart_init cls buffer raw in
  if truthy buffer then Ok raw
  else Ok (setattr_int cls raw "HeaderType" header_type).

Definition XTFAttitudeData_init : pybuffer -> bytes -> result bytes :=
  packet_start_subclass_init XTFAttitudeData XTFHeaderType.attitude.

Definition XTFNotesHeader_init : pybuffer -> bytes -> result bytes :=
  packet_start_subclass_init XTFNotesHeader XTFHeaderType.notes.

Definition XTFPosRawNavigation_init : pybuffer -> bytes -> result bytes :=
  packet_start_subclass_init XTFPosRawNavigation
    XTFHeaderType.pos_raw_navigation.

Definition XTFQPSSingleBeam_init : pybuffer -> bytes -> result bytes :=
  packet_start_subclass_init XTFQPSSingleBeam XTFHeaderType.q_singlebeam.

Definition XTFHighSpeedSensor_init : pybuffer -> bytes -> result bytes :=
  packet_start_subclass_init XTFHighSpeedSensor
    XTFHeaderType.highspeed_sensor2.

(** The subclasses of [XTFPacket] that declare the magic number themselves
    and check it in their own [__init__]. *)
Definition own_magic_init (cls : ctypes_class) (header_type : Z)
  (buffer : pybuffer) (raw : bytes) : result bytes :=
  if truthy buffer then
    if negb (field cls "MagicNumber" raw =? 0xFACE)
    then Raise bad_magic
    else Ok raw
  else
    let raw := setattr_int cls raw "MagicNumber" 0xFACE in
    Ok (setattr_int cls raw "HeaderType" header_type).

Definition XTFRawCustomHeader_init : pybuffer -> bytes -> result bytes :=
  own_magic_init XTFRawCustomHeader XTFHeaderType.custom_vendor_data.

Definition XTFHeaderNavigation_init : pybuffer -> bytes -> result bytes :=
  own_magic_init XTFHeaderNavigation XTFHeaderType.navigation.

Definition XTFHeaderGyro_init : pybuffer -> bytes -> result bytes :=
  own_magic_init XTFHeaderGyro XTFHeaderType.gyro.

(** [cls(buffer=buffer)] for a class whose [__new__] is the inherited one. *)
Definition construct (cls : ctypes_class)
  (init : pybuffer -> bytes -> result bytes) (buffer : pybuffer) : io bytes :=
  raw <- XTFBase_new cls buffer ;;
  lift (init buffer raw).

(** The packets without a variable part: class, the header type its
    [__init__] writes, and its [__init__]. *)
Definition fixed_packets
  : list (ctypes_class * Z * (pybuffer -> bytes -> result bytes)) :=
  [(XTFAttitudeData, XTFHeaderType.attitude, XTFAttitudeData_init);
   (XTFNotesHeader, XTFHeaderType.notes, XTFNotesHeader_init);
   (XTFPosRawNavigation, XTFHeaderType.pos_raw_navigation,
    XTFPosRawNavigation_init);
   (XTFQPSSingleBeam, XTFHeaderType.q_singlebeam, XTFQPSSingleBeam_init);
   (XTFHighSpeedSensor, XTFHeaderType.highspeed_sensor2,
    XTFHighSpeedSensor_init);
   (XTFRawCustomHeader, XTFHeaderType.custom_vendor_data,
    XTFRawCustomHeader_init);
   (XTFHeaderNavigation, XTFHeaderType.navigation, XTFHeaderNavigation_init);
   (XTFHeaderGyro, XTFHeaderType.gyro, XTFHeaderGyro_init)].

(** The dictionary [XTFPacketClasses]; a missing key is a [KeyError]. *)
Definition XTFPacketClasses (header_type : Z) : result ctypes_class :=
  if header_type =? XTFHeaderType.sonar then Ok XTFPingHeader
  else if header_type =? XTFHeaderType.bathy then Ok XTFPingHeader
  else if header_type =? XTFHeaderType.bathy_xyza then Ok XTFPingHeader
  else if header_type =? XTFHeaderType.attitude then Ok XTFAttitudeData
  else if header_type =? XTFHeaderType.notes then Ok XTFNotesHeader
  else if header_type =? XTFHeaderType.raw_serial then Ok XTFRawSerialHeader
  else if header_type =? XTFHeaderType.pos_raw_navigation
  then Ok XTFPosRawNavigation
  else if header_type =? XTFHeaderType.q_singlebeam then Ok XTFQPSSingleBeam
  else if header_type =? XTFHeaderType.custom_vendor_data
  then Ok XTFRawCustomHeader
  else if header_type =? XTFHeaderType.navigation then Ok XTFHeaderNavigation
  else if header_type =? XTFHeaderType.gyro then Ok XTFHeaderGyro
  else if header_type =? XTFHeaderType.sourcetime_gyro then Ok XTFHeaderGyro
  else if header_type =? XTFHeaderType.highspeed_sensor2
  then Ok XTFHighSpeedSensor
  else Raise KeyError.

(** ** The [SerialPort] property of [XTFRawSerialHeader] *)

Definition SerialPort (self : bytes) : Z :=
  field XTFRawSerialHeader "SubChannelNumber" self.

Definition SerialPort_setter (self : bytes) (value : Z) : bytes :=
  setattr_int XTFRawSerialHeader self "SubChannelNumber" value.

(** ** Helpers for the statements *)

(** The array [np.frombuffer] makes of a byte string. *)
Definition decode_samples (dtype : Z) (samples : bytes) : ndarray :=
  {| itemsize := dtype;
     items := map le_uint (chunks (length samples) (Z.to_nat dtype) samples) |}.

(** The bytes of a list of unsigned integers of [width] bytes each. *)
Definition encode_samples (width : nat) (values : list Z) : bytes :=
  flat_map (le_encode width) values.

(** A channel of a sonar ping as it lies in the stream: its sub-header and
    its sample bytes. *)
Definition channel_bytes (channel : bytes * bytes) : bytes :=
  fst channel ++ snd channel.

(** The sample count the decoder resolves for a sub-header and a channel
    descriptor. *)
Definition resolved_samples (sub chan : bytes) : Z :=
  if field XTFPingChanHeader "NumSamples" sub >? 0
  then field XTFPingChanHeader "NumSamples" sub
  else field XTFChanInfo "Reserved" chan.

(** A channel that the loop of [XTFPingHeader.__new__] decodes: a whole
    sub-header, a supported sample width, a positive number of sample bytes
    within the bound of the loop, and all of them in the stream. *)
Definition channel_fits (p_header chan : bytes) (channel : bytes * bytes)
  : Prop :=
  length (fst channel) = sizeof XTFPingChanHeader
  /\ xtf_dtype (field XTFChanInfo "BytesPerSample" chan)
     = Ok (field XTFChanInfo "BytesPerSample" chan)
  /\ 0 < resolved_samples (fst channel) chan
  /\ resolved_samples (fst channel) chan
     * field XTFChanInfo "BytesPerSample" chan
     <= n_bytes_remaining_of p_header
  /\ Z.of_nat (length (snd channel))
     = resolved_samples (fst channel) chan
       * field XTFChanInfo "BytesPerSample" chan.

(** The arrays decoded for channels paired with their descriptors. *)
Definition decode_channels (info : list bytes) (channels : list (bytes * bytes))
  : list ndarray :=
  map (fun p => decode_samples (field XTFChanInfo "BytesPerSample" (fst p))
                  (snd (snd p)))
    (combine info channels).

(** * Properties *)

(** ** Reading from the stream *)

Lemma BytesIO_read_app (n : nat) (front rest : bytes) :
  length front = n ->
  BytesIO_read (Z.of_nat n) (front ++ rest) = (Ok front, rest).
Proof.
  intros Hlen. unfold BytesIO_read.
  destruct (Z.ltb_spec (Z.of_nat n) 0) as [Hneg | _]; [lia |].
  rewrite Nat2Z.id, <- Hlen.
  rewrite firstn_app, Nat.sub_diag, firstn_all, firstn_O, app_nil_r.
  rewrite skipn_app, Nat.sub_diag, skipn_all, skipn_O.
  reflexivity.
Qed.

Lemma BytesIO_read_short (n : nat) (s : bytes) :
  (length s <= n)%nat ->
  BytesIO_read (Z.of_nat n) s = (Ok s, []).
Proof.
  intros Hlen. unfold BytesIO_read.
  destruct (Z.ltb_spec (Z.of_nat n) 0) as [Hneg | _]; [lia |].
  rewrite Nat2Z.id, firstn_all2, skipn_all2 by lia.
  reflexivity.
Qed.

(** A read never makes the stream longer, and returns what it removed. *)
Lemma BytesIO_read_length (n : Z) (s : bytes) :
  exists got, BytesIO_read n s = (Ok got, snd (BytesIO_read n s))
    /\ s = got ++ snd (BytesIO_read n s)
    /\ (0 <= n -> Z.of_nat (length got) <= n).
Proof.
  unfold BytesIO_read.
  destruct (Z.ltb_spec n 0) as [Hneg | Hpos]; cbn [snd].
  - exists s. rewrite app_nil_r. repeat split; lia.
  - exists (firstn (Z.to_nat n) s). rewrite firstn_skipn.
    repeat split. intros _. rewrite length_firstn. lia.
Qed.

(** ** [XTFBase.__new__] *)

Lemma XTFBase_new_stream_ok (cls : ctypes_class) (hdr rest : bytes) :
  length hdr = sizeof cls -> (0 < sizeof cls)%nat ->
  XTFBase_new cls PyStream (hdr ++ rest) = (Ok hdr, rest).
Proof.
  intros Hlen Hpos. unfold XTFBase_new, bind. cbn [truthy buffer_read].
  rewrite BytesIO_read_app by assumption.
  destruct (Nat.eqb_spec (length hdr) 0) as [H0 | _]; [lia |].
  unfold lift, from_buffer_copy.
  destruct (Nat.ltb_spec (length hdr) (sizeof cls)) as [Hlt | _]; [lia |].
  rewrite <- Hlen, firstn_all. reflexivity.
Qed.

Lemma XTFBase_new_stream_short (cls : ctypes_class) (s : bytes) :
  (length s < sizeof cls)%nat ->
  XTFBase_new cls PyStream s = (Raise (truncation_error cls s), []).
Proof.
  intros Hlen. unfold XTFBase_new, bind. cbn [truthy buffer_read].
  rewrite BytesIO_read_short by lia.
  destruct s as [| b s]; [reflexivity |].
  cbn [length Nat.eqb]. unfold lift, from_buffer_copy.
  destruct (Nat.ltb_spec (length (b :: s)) (sizeof cls)) as [_ | Hge];
    [reflexivity | lia].
Qed.

Lemma XTFBase_new_bytes_ok (cls : ctypes_class) (hdr rest s : bytes) :
  length hdr = sizeof cls -> (0 < sizeof cls)%nat ->
  XTFBase_new cls (PyBytes (hdr ++ rest)) s = (Ok hdr, s).
Proof.
  intros Hlen Hpos. unfold XTFBase_new, bind. cbn [truthy].
  destruct (Nat.eqb_spec (length (hdr ++ rest)) 0) as [H0 | _].
  - rewrite length_app in H0. lia.
  - cbn [negb]. rewrite BytesIO_read_app by assumption.
    cbn [fst]. unfold lift at 1.
    destruct (Nat.eqb_spec (length hdr) 0) as [H0 | _]; [lia |].
    unfold lift, from_buffer_copy.
    destruct (Nat.ltb_spec (length hdr) (sizeof cls)) as [Hlt | _]; [lia |].
    rewrite <- Hlen, firstn_all. reflexivity.
Qed.

Lemma XTFBase_new_bytes_short (cls : ctypes_class) (b s : bytes) :
  b <> [] -> (length b < sizeof cls)%nat ->
  XTFBase_new cls (PyBytes b) s
  = (Raise (ValueError (buffer_too_small (length b) (sizeof cls))), s).
Proof.
  intros Hne Hlen. unfold XTFBase_new, bind. cbn [truthy].
  destruct b as [| x b]; [congruence |].
  cbn [length Nat.eqb negb].
  rewrite BytesIO_read_short by lia. cbn [fst]. unfold lift at 1.
  cbn [length Nat.eqb]. unfold lift, from_buffer_copy.
  destruct (Nat.ltb_spec (length (x :: b)) (sizeof cls)) as [_ | Hge];
    [reflexivity | lia].
Qed.

Lemma XTFBase_new_falsy (cls : ctypes_class) (buffer : pybuffer) (s : bytes) :
  truthy buffer = false ->
  XTFBase_new cls buffer s = (Ok (repeat x00 (sizeof cls)), s).
Proof. intros Hf. unfold XTFBase_new. rewrite Hf. reflexivity. Qed.

(** Whatever happens, [XTFBase.__new__] takes at most the size of the
    structure from the stream, and what is left is a suffix of it. *)
Lemma XTFBase_new_consumed (cls : ctypes_class) (buffer : pybuffer)
  (s : bytes) :
  exists got, s = got ++ snd (XTFBase_new cls buffer s)
    /\ (length got <= sizeof cls)%nat.
Proof.
  unfold XTFBase_new, bind.
  destruct (truthy buffer); [| exists []; cbn; split; [reflexivity | lia]].
  destruct buffer as [| b |]; cbn [buffer_read].
  - exists []. cbn. split; [reflexivity | lia].
  - exists []. unfold lift at 1.
    destruct (fst (BytesIO_read (Z.of_nat (sizeof cls)) b)) as [got | e];
      [| cbn; split; [reflexivity | lia]].
    destruct (length got =? 0)%nat; cbn; split; try reflexivity; lia.
  - destruct (BytesIO_read_length (Z.of_nat (sizeof cls)) s)
      as (got & Hread & Hs & Hlen).
    rewrite Hread. exists got.
    destruct (length got =? 0)%nat; unfold raise, lift; cbn [snd];
      (split; [exact Hs | lia]).
Qed.

Lemma XTFBase_new_truncated (cls : ctypes_class) (buffer : pybuffer)
  (s : bytes) :
  truthy buffer = true ->
  (length (available buffer s) < sizeof cls)%nat ->
  fst (XTFBase_new cls buffer s)
  = Raise (truncation_error cls (available buffer s)).
Proof.
  intros Ht Hlen. destruct buffer as [| b |]; cbn [available] in *.
  - discriminate.
  - destruct b as [| x b]; [discriminate |].
    rewrite XTFBase_new_bytes_short by (congruence || assumption).
    reflexivity.
  - rewrite XTFBase_new_stream_short by assumption. reflexivity.
Qed.

Lemma fst_bind_raise {A B : Type} (c : io A) (k : A -> io B) (s : bytes)
  (e : exn) :
  fst (c s) = Raise e -> fst (bind c k s) = Raise e.
Proof.
  unfold bind. destruct (c s) as [[a | e'] s']; cbn [fst]; intros H.
  - discriminate.
  - injection H as ->. reflexivity.
Qed.

(** Truncated input. A fixed-size structure decode (file header, packet
    preamble, full ping header, ping channel sub-header) from a stream or from
    a non-empty bytes object that provides fewer bytes than the size of the
    structure fails: with the decoder's own [RuntimeError] ("XTF file shorter
    than expected") when no byte at all is left, and with the [ValueError] of
    [from_buffer_copy], which names the two sizes, after a partial read. *)
Theorem truncated_decode_fails (buffer : pybuffer) (s : bytes) :
  truthy buffer = true ->
  ((length (available buffer s) < sizeof XTFFileHeader)%nat ->
   fst (XTFFileHeader_call buffer s)
   = Raise (truncation_error XTFFileHeader (available buffer s)))
  /\ ((length (available buffer s) < sizeof XTFPacketStart)%nat ->
      fst (XTFPacketStart_call buffer s)
      = Raise (truncation_error XTFPacketStart (available buffer s)))
  /\ ((length (available buffer s) < sizeof XTFPingHeader)%nat ->
      forall file_header,
        fst (XTFPingHeader_call buffer file_header s)
        = Raise (truncation_error XTFPingHeader (available buffer s)))
  /\ ((length (available buffer s) < sizeof XTFPingChanHeader)%nat ->
      fst (XTFPingChanHeader_call buffer s)
      = Raise (truncation_error XTFPingChanHeader (available buffer s))).
Proof.
  intros Ht. repeat split; intros Hlen.
  - unfold XTFFileHeader_call. apply fst_bind_raise.
    now apply XTFBase_new_truncated.
  - unfold XTFPacketStart_call. apply fst_bind_raise.
    now apply XTFBase_new_truncated.
  - intros file_header. unfold XTFPingHeader_call, XTFPingHeader_new.
    do 2 apply fst_bind_raise. now apply XTFBase_new_truncated.
  - unfold XTFPingChanHeader_call. now apply XTFBase_new_truncated.
Qed.

Lemma truncated_decode_fails_witness :
  truthy PyStream = true
  /\ (length (available PyStream [x01; x02]) < sizeof XTFPacketStart)%nat
  /\ fst (XTFPacketStart_call PyStream [x01; x02])
     = Raise (ValueError
                "Buffer size too small (2 instead of at least 14 bytes)").
Proof.
  split; [reflexivity |]. split; [vm_compute; lia |].
  apply (proj1 (proj2 (truncated_decode_fails PyStream [x01; x02] eq_refl))).
  vm_compute; lia.
Defined.

(** C5 (the code at the failing input). An empty bytes object provides fewer
    bytes than any of the four structures needs, but it is false in
    [if buffer:], so [XTFBase.__new__] never reaches its own check
    [if not header_bytes: raise]: each of the four decodes returns the
    structure that is built without a buffer and leaves the stream alone. The
    sibling path, a stream that is at its end, hits the check and raises the
    decoder's [RuntimeError]. *)
Theorem truncated_decode_empty_bytes_succeeds (s : bytes)
  (file_header : option XTFFileHeader_obj) :
  (length (available (PyBytes []) s) < sizeof XTFPingChanHeader)%nat
  /\ XTFPingChanHeader_call (PyBytes []) s
     = (Ok (repeat x00 (sizeof XTFPingChanHeader)), s)
  /\ XTFPacketStart_call (PyBytes []) s
     = (Ok (with_fields XTFPacketStart
              [("MagicNumber", 0xFACE);
               ("HeaderType", XTFHeaderType.user_defined)]), s)
  /\ XTFPingHeader_call (PyBytes []) file_header s
     = (Ok {| ph_raw := with_fields XTFPingHeader
                          [("MagicNumber", 0xFACE);
                           ("HeaderType", XTFHeaderType.sonar)];
              ping_chan_headers := [];
              data := DataList [] |}, s)
  /\ XTFFileHeader_call (PyBytes []) s = XTFFileHeader_call PyNone s
  /\ (exists header,
        XTFFileHeader_call (PyBytes []) s = (Ok header, s)
        /\ length (fh_raw header) = sizeof XTFFileHeader)
  /\ XTFPingChanHeader_call PyStream []
     = (Raise (shorter_than_expected XTFPingChanHeader), [])
  /\ XTFPacketStart_call PyStream []
     = (Raise (shorter_than_expected XTFPacketStart), [])
  /\ XTFPingHeader_call PyStream file_header []
     = (Raise (shorter_than_expected XTFPingHeader), [])
  /\ XTFFileHeader_call PyStream []
     = (Raise (shorter_than_expected XTFFileHeader), []).
Proof.
  split; [vm_compute; lia |].
  split; [reflexivity |]. split; [reflexivity |].
  split; [destruct file_header; reflexivity |].
  split; [reflexivity |].
  split; [eexists; split; reflexivity |].
  split; [reflexivity |]. split; [reflexivity |].
  split; [destruct file_header; reflexivity | reflexivity].
Qed.

(** ** The packet preamble *)

Lemma XTFBase_new_available (cls : ctypes_class) (buffer : pybuffer)
  (s hdr rest : bytes) :
  available buffer s = hdr ++ rest ->
  length hdr = sizeof cls -> (0 < sizeof cls)%nat ->
  truthy buffer = true
  /\ XTFBase_new cls buffer s
     = (Ok hdr, match buffer with PyStream => rest | _ => s end).
Proof.
  intros Hav Hlen Hpos. destruct buffer as [| b |]; cbn [available] in Hav.
  - destruct hdr; [cbn in Hlen; lia | discriminate].
  - subst b. split.
    + cbn [truthy]. rewrite length_app.
      destruct (Nat.eqb_spec (length hdr + length rest) 0); [lia | reflexivity].
    + now apply XTFBase_new_bytes_ok.
  - subst s. split; [reflexivity |]. now apply XTFBase_new_stream_ok.
Qed.

Lemma MagicNumber_offset (hdr : bytes) :
  field XTFPacketStart "MagicNumber" hdr = le_uint (firstn 2 hdr).
Proof. reflexivity. Qed.

(** C6. Decoding a packet preamble from a byte source that provides its 14
    bytes: when the 16-bit magic field (the first two bytes, little endian)
    is not 0xFACE the constructor raises the "does not start with the correct
    identifier" [RuntimeError]; when it is 0xFACE the check passes and the
    preamble is returned. In both cases exactly the 14 bytes of the preamble
    have been taken from the stream: nothing is skipped to look for the next
    magic number. *)
Theorem preamble_magic_check (buffer : pybuffer) (s hdr rest : bytes) :
  available buffer s = hdr ++ rest ->
  length hdr = sizeof XTFPacketStart ->
  (le_uint (firstn 2 hdr) <> 0xFACE ->
   fst (XTFPacketStart_call buffer s) = Raise bad_magic)
  /\ (le_uint (firstn 2 hdr) = 0xFACE ->
      fst (XTFPacketStart_call buffer s) = Ok hdr)
  /\ (buffer = PyStream -> snd (XTFPacketStart_call buffer s) = rest).
Proof.
  intros Hav Hlen.
  destruct (XTFBase_new_available XTFPacketStart buffer s hdr rest Hav Hlen)
    as [Ht Hnew]; [vm_compute; lia |].
  unfold XTFPacketStart_call, bind. rewrite Hnew.
  unfold lift, XTFPacketStart_init. rewrite Ht, MagicNumber_offset.
  repeat split.
  - intros Hne. destruct (Z.eqb_spec (le_uint (firstn 2 hdr)) 0xFACE);
      [contradiction | reflexivity].
  - intros Heq. rewrite Heq. reflexivity.
  - intros ->. reflexivity.
Qed.

Lemma preamble_magic_check_witness :
  available PyStream (Examples.preamble 0xFACE ++ [x07])
  = Examples.preamble 0xFACE ++ [x07]
  /\ length (Examples.preamble 0xFACE) = sizeof XTFPacketStart
  /\ le_uint (firstn 2 (Examples.preamble 0xFACE)) = 0xFACE
  /\ fst (XTFPacketStart_call PyStream (Examples.preamble 0xFACE ++ [x07]))
     = Ok (Examples.preamble 0xFACE).
Proof.
  split; [reflexivity |]. split; [reflexivity |]. split; [reflexivity |].
  apply (proj1 (proj2 (preamble_magic_check PyStream
                         (Examples.preamble 0xFACE ++ [x07])
                         (Examples.preamble 0xFACE) [x07]
                         eq_refl eq_refl))).
  reflexivity.
Defined.

Example preamble_bad_magic :
  XTFPacketStart_call PyStream (Examples.preamble 0xCAFE ++ [x07])
  = (Raise bad_magic, [x07]).
Proof. reflexivity. Qed.

(** ** Little-endian encoding *)

Lemma byte_to_Z_of_Z (z : Z) : byte_to_Z (byte_of_Z z) = z mod 256.
Proof.
  unfold byte_to_Z, byte_of_Z.
  assert (Hr : 0 <= z mod 256 < 256) by (apply Z.mod_pos_bound; lia).
  destruct (Byte.of_N (Z.to_N (z mod 256))) as [b |] eqn:Hb.
  - apply Byte.to_of_N in Hb. rewrite Hb. lia.
  - apply Byte.of_N_None_iff in Hb. lia.
Qed.

Lemma byte_to_Z_range (b : byte) : 0 <= byte_to_Z b < 256.
Proof.
  unfold byte_to_Z. pose proof (Byte.to_N_bounded b). lia.
Qed.

Lemma le_uint_range (bs : bytes) :
  0 <= le_uint bs < 256 ^ Z.of_nat (length bs).
Proof.
  induction bs as [| b bs IH].
  - cbn. lia.
  - cbn [le_uint length]. rewrite Nat2Z.inj_succ, Z.pow_succ_r by lia.
    pose proof (byte_to_Z_range b). lia.
Qed.

(** ** The raw serial packet *)

(** No raw serial packet is ever decoded from a stream: once the magic number
    has been accepted, [self.StringSize.value] raises. *)
Lemma raw_serial_never_decodes (hdr rest : bytes) :
  length hdr = sizeof XTFRawSerialHeader ->
  field XTFRawSerialHeader "MagicNumber" hdr = 0xFACE ->
  XTFRawSerialHeader_call PyStream (hdr ++ rest)
  = (Raise (AttributeError "value"), rest).
Proof.
  intros Hlen Hmagic. unfold XTFRawSerialHeader_call, bind.
  rewrite XTFBase_new_stream_ok by (assumption || (vm_compute; lia)).
  unfold XTFRawSerialHeader_init, bind, lift, XTFPacketStart_init.
  cbn [truthy]. rewrite Hmagic. reflexivity.
Qed.

(** C2 (the code at the failing input). A well-formed raw serial packet with
    [StringSize = 3], followed by its three bytes "abc": the 30 bytes of
    the fixed prefix are read, the magic number is accepted, and then the
    expression [self.StringSize.value] raises [AttributeError], because a
    [c_uint16] structure field is a plain integer. No payload byte is read
    and [RawAsciiData] is never set. *)
Theorem raw_serial_payload_not_read :
  XTFRawSerialHeader_call PyStream Examples.raw_serial_stream
  = (Raise (AttributeError "value"), list_byte_of_string "abc").
Proof. reflexivity. Qed.

(** ** The file header *)

Lemma channel_count_fields (raw : bytes) :
  channel_count raw
  = le_uint (slice 166 2 raw) + le_uint (slice 168 2 raw)
    + le_uint (slice 170 1 raw) + le_uint (slice 171 1 raw)
    + le_uint (slice 172 2 raw) + le_uint (slice 174 1 raw).
Proof. reflexivity. Qed.

Lemma channel_count_range (raw : bytes) :
  0 <= channel_count raw <= 3 * 65535 + 3 * 255.
Proof.
  rewrite channel_count_fields. unfold slice.
  repeat match goal with
         | |- context [le_uint (firstn ?n ?l)] =>
             let H := fresh "H" in
             pose proof (le_uint_range (firstn n l)) as H;
             assert (length (firstn n l) <= n)%nat
               by (rewrite length_firstn; lia);
             generalize dependent (le_uint (firstn n l)); intros
         end.
  repeat match goal with
         | H : 0 <= ?z < 256 ^ Z.of_nat ?k, H' : (?k <= ?n)%nat |- _ =>
             assert (z < 256 ^ Z.of_nat n)
               by (apply Z.lt_le_trans with (256 ^ Z.of_nat k);
                   [lia | apply Z.pow_le_mono_r; lia]);
             assert (0 <= z) by lia; clear H
         end.
  change (256 ^ Z.of_nat 2) with 65536 in *.
  change (256 ^ Z.of_nat 1) with 256 in *.
  lia.
Qed.

(** A header written with the six counters [a .. f] (each within the range of
    its field) has their sum as channel count. *)
Lemma channel_count_header_counts (a b c d e f : Z) :
  0 <= a < 65536 -> 0 <= b < 65536 -> 0 <= c < 256 -> 0 <= d < 256 ->
  0 <= e < 65536 -> 0 <= f < 256 ->
  channel_count (Examples.header_counts a b c d e f) = a + b + c + d + e + f.
Proof.
  intros Ha Hb Hc Hd He Hf.
  cbv - [byte_of_Z byte_to_Z Z.div Z.add Z.mul].
  rewrite !byte_to_Z_of_Z.
  rewrite (Z.mod_small c), (Z.mod_small d), (Z.mod_small f) by lia.
  pose proof (Z.div_mod a 256 ltac:(lia)).
  pose proof (Z.div_mod b 256 ltac:(lia)).
  pose proof (Z.div_mod e 256 ltac:(lia)).
  rewrite (Z.mod_small (a / 256)), (Z.mod_small (b / 256)),
    (Z.mod_small (e / 256))
    by (split; [apply Z.div_pos; lia | apply Z.div_lt_upper_bound; lia]).
  lia.
Qed.

Lemma mapM_all_ok {A B : Type} (f : A -> result B) (g : A -> B)
  (xs : list A) :
  (forall x, In x xs -> f x = Ok (g x)) -> mapM f xs = Ok (map g xs).
Proof.
  induction xs as [| x xs IH]; intros Hf; cbn.
  - reflexivity.
  - rewrite Hf by now left. cbn. rewrite IH; [reflexivity |].
    intros x' Hin. apply Hf. now right.
Qed.

Lemma mapM_raise {A B : Type} (f : A -> result B) (g : A -> B)
  (l1 l2 : list A) (x : A) (e : exn) :
  (forall x', In x' l1 -> f x' = Ok (g x')) -> f x = Raise e ->
  mapM f (l1 ++ x :: l2) = Raise e.
Proof.
  induction l1 as [| x1 l1 IH]; intros Hf Hx; cbn.
  - rewrite Hx. reflexivity.
  - rewrite Hf by now left. cbn. rewrite IH; [reflexivity | | assumption].
    intros x' Hin. apply Hf. now right.
Qed.

Lemma In_py_range (lo hi x : Z) : In x (py_range lo hi) <-> lo <= x < hi.
Proof.
  unfold py_range. rewrite in_map_iff. split.
  - intros (k & <- & Hk). apply in_seq in Hk. lia.
  - intros Hx. exists (Z.to_nat (x - lo)). split; [lia |].
    apply in_seq. lia.
Qed.

Lemma py_range_split (hi k : Z) :
  0 <= k < hi ->
  exists l2, py_range 0 hi = py_range 0 k ++ k :: l2.
Proof.
  intros Hk. unfold py_range.
  replace (Z.to_nat (hi - 0))
    with (Z.to_nat (k - 0) + S (Z.to_nat (hi - (k + 1))))%nat by lia.
  rewrite seq_app, map_app. cbn [seq map].
  replace (0 + Z.of_nat (0 + Z.to_nat (k - 0))) with k by lia.
  eexists. reflexivity.
Qed.

Lemma ChanInfo_getitem_in_range (raw : bytes) (i : Z) :
  0 <= i < 6 -> ChanInfo_getitem raw i = Ok (chan_slot raw i).
Proof.
  intros Hi. unfold ChanInfo_getitem.
  destruct (Z.ltb_spec i 0); [lia |].
  destruct (Z.leb_spec 0 i); [| lia].
  destruct (Z.ltb_spec i 6); [| lia].
  reflexivity.
Qed.

Lemma ChanInfo_getitem_out_of_range (raw : bytes) (i : Z) :
  6 <= i -> ChanInfo_getitem raw i = Raise IndexError.
Proof.
  intros Hi. unfold ChanInfo_getitem.
  destruct (Z.ltb_spec i 0); [lia |].
  destruct (Z.ltb_spec i 6); [lia |].
  rewrite andb_false_r. reflexivity.
Qed.

(** The channel descriptors [__init__] collects: the first [channel_count()]
    slots when there are at most six, an [IndexError] otherwise. *)
Lemma chan_info_collected (raw : bytes) :
  mapM (ChanInfo_getitem raw) (py_range 0 (channel_count raw))
  = if channel_count raw <=? 6
    then Ok (map (chan_slot raw) (py_range 0 (channel_count raw)))
    else Raise IndexError.
Proof.
  destruct (Z.leb_spec (channel_count raw) 6) as [Hle | Hgt].
  - apply mapM_all_ok. intros x Hx. apply In_py_range in Hx.
    apply ChanInfo_getitem_in_range. lia.
  - destruct (py_range_split (channel_count raw) 6) as [l2 ->]; [lia |].
    apply mapM_raise with (g := chan_slot raw).
    + intros x Hx. apply In_py_range in Hx.
      apply ChanInfo_getitem_in_range. lia.
    + apply ChanInfo_getitem_out_of_range. lia.
Qed.

Lemma XTFFileHeader_init_from_buffer (buffer : pybuffer) (raw : bytes) :
  truthy buffer = true ->
  XTFFileHeader_init buffer raw
  = if channel_count raw <=? 6
    then
      let chan_info := map (chan_slot raw) (py_range 0 (channel_count raw)) in
      Ok {| fh_raw := raw;
            sonar_info :=
              Some (filter
                      (fun x => py_in (field XTFChanInfo "TypeOfChannel" x)
                                  sonar_chan_types) chan_info);
            bathy_info :=
              Some (filter
                      (fun x => field XTFChanInfo "TypeOfChannel" x
                                =? XTFChannelType.bathy) chan_info) |}
    else Raise IndexError.
Proof.
  intros Ht. unfold XTFFileHeader_init. rewrite Ht, chan_info_collected.
  destruct (channel_count raw <=? 6); reflexivity.
Qed.

(** C7 (amended). [channel_count()] is the sum of the six counters of the
    file header: the sum of the six counter fields of any header, and
    [a + b + c + d + e + f] for a header written with the counters [a .. f].
    When that sum is at most 6, parsing the file header from a stream
    succeeds, takes the 1024 bytes of the header and builds the two views from
    exactly the first [channel_count()] descriptor slots. *)
Theorem channel_count_sum_and_parse :
  (forall raw,
     channel_count raw
     = le_uint (slice 166 2 raw) + le_uint (slice 168 2 raw)
       + le_uint (slice 170 1 raw) + le_uint (slice 171 1 raw)
       + le_uint (slice 172 2 raw) + le_uint (slice 174 1 raw))
  /\ (forall a b c d e f,
        0 <= a < 65536 -> 0 <= b < 65536 -> 0 <= c < 256 -> 0 <= d < 256 ->
        0 <= e < 65536 -> 0 <= f < 256 ->
        channel_count (Examples.header_counts a b c d e f)
        = a + b + c + d + e + f)
  /\ (forall hdr rest,
        length hdr = sizeof XTFFileHeader ->
        channel_count hdr <= 6 ->
        let chan_info :=
          map (chan_slot hdr) (py_range 0 (channel_count hdr)) in
        XTFFileHeader_call PyStream (hdr ++ rest)
        = (Ok {| fh_raw := hdr;
                 sonar_info :=
                   Some (filter
                           (fun x =>
                              py_in (field XTFChanInfo "TypeOfChannel" x)
                                sonar_chan_types) chan_info);
                 bathy_info :=
                   Some (filter
                           (fun x => field XTFChanInfo "TypeOfChannel" x
                                     =? XTFChannelType.bathy) chan_info) |},
           rest)).
Proof.
  split; [reflexivity |]. split; [exact channel_count_header_counts |].
  intros hdr rest Hlen Hle chan_info.
  unfold XTFFileHeader_call, bind.
  rewrite XTFBase_new_stream_ok by (assumption || (vm_compute; lia)).
  unfold lift. rewrite XTFFileHeader_init_from_buffer by reflexivity.
  destruct (Z.leb_spec (channel_count hdr) 6); [reflexivity | lia].
Qed.

Lemma channel_count_sum_and_parse_witness :
  length Examples.header_2ch_raw = sizeof XTFFileHeader
  /\ channel_count Examples.header_2ch_raw <= 6
  /\ XTFFileHeader_call PyStream (Examples.header_2ch_raw ++ [x07])
     = (Ok Examples.header_2ch, [x07]).
Proof.
  split; [reflexivity |]. split; [vm_compute; discriminate |].
  rewrite (proj2 (proj2 channel_count_sum_and_parse)
             Examples.header_2ch_raw [x07] eq_refl).
  - reflexivity.
  - vm_compute; discriminate.
Defined.

(** C7 as stated fails: a header whose counters sum to 7 is not parsed with
    the extra channel ignored; [self.ChanInfo[6]] raises [IndexError]. *)
Lemma seven_channels_not_parsed :
  channel_count Examples.header_7ch_raw = 7
  /\ length Examples.header_7ch_raw = sizeof XTFFileHeader
  /\ XTFFileHeader_call PyStream Examples.header_7ch_raw
     = (Raise IndexError, []).
Proof. repeat split. Qed.

(** ** The channel views *)

Lemma filter_subsequence {A : Type} (p : A -> bool) (l : list A) :
  subsequence (filter p l) l.
Proof.
  induction l as [| x l IH]; cbn.
  - constructor.
  - destruct (p x); now constructor.
Qed.

Lemma subsequence_In {A : Type} (l1 l2 : list A) (x : A) :
  subsequence l1 l2 -> In x l1 -> In x l2.
Proof.
  induction 1 as [| y l1 l2 _ IH | y l1 l2 _ IH]; cbn; intros Hin.
  - assumption.
  - right. now apply IH.
  - destruct Hin as [-> | Hin]; [now left | right; now apply IH].
Qed.

Lemma sonar_type_known (t : Z) :
  py_in t sonar_chan_types = true ->
  known_channel_type t = true /\ t <> XTFChannelType.bathy.
Proof.
  intros H. unfold py_in, sonar_chan_types in H. cbn [existsb] in H.
  rewrite !orb_true_iff, !Z.eqb_eq in H.
  destruct H as [-> | [-> | [-> | Hf]]]; try discriminate Hf;
    (split; [reflexivity | discriminate]).
Qed.

Lemma bathy_type_known (t : Z) :
  (t =? XTFChannelType.bathy) = true -> known_channel_type t = true.
Proof.
  unfold known_channel_type. intros ->. now rewrite !orb_true_r.
Qed.

(** C10. In a file header parsed from a buffer, with [chan_info] the first
    [channel_count()] descriptor slots: both views are order-preserving
    sub-lists of [chan_info]; a descriptor whose channel type is none of
    subbottom (0), port (1), stbd (2), bathy (3) is in neither view; and no
    descriptor is in both views. *)
Theorem channel_views (buffer : pybuffer) (raw : bytes)
  (file_header : XTFFileHeader_obj) :
  truthy buffer = true ->
  XTFFileHeader_init buffer raw = Ok file_header ->
  let chan_info := map (chan_slot raw) (py_range 0 (channel_count raw)) in
  exists sonar bathy,
    sonar_info file_header = Some sonar
    /\ bathy_info file_header = Some bathy
    /\ subsequence sonar chan_info
    /\ subsequence bathy chan_info
    /\ (forall x,
          In x chan_info ->
          known_channel_type (field XTFChanInfo "TypeOfChannel" x) = false ->
          ~ In x sonar /\ ~ In x bathy)
    /\ (forall x, In x sonar -> ~ In x bathy).
Proof.
  intros Ht Hinit chan_info.
  rewrite XTFFileHeader_init_from_buffer in Hinit by assumption.
  destruct (channel_count raw <=? 6); [| discriminate].
  injection Hinit as <-. cbn [sonar_info bathy_info].
  fold chan_info. do 2 eexists. split; [reflexivity |].
  split; [reflexivity |].
  split; [apply filter_subsequence |]. split; [apply filter_subsequence |].
  split.
  - intros x _ Hunknown. split; intros Hin; apply filter_In in Hin;
      destruct Hin as [_ Hin].
    + apply sonar_type_known in Hin. destruct Hin as [Hk _]. congruence.
    + apply bathy_type_known in Hin. congruence.
  - intros x Hs Hb. apply filter_In in Hs, Hb.
    destruct Hs as [_ Hs], Hb as [_ Hb].
    apply sonar_type_known in Hs. apply Z.eqb_eq in Hb. tauto.
Qed.

Lemma channel_views_witness :
  truthy PyStream = true
  /\ (exists file_header,
        XTFFileHeader_init PyStream Examples.header_mixed_raw = Ok file_header
        /\ option_map (map (field XTFChanInfo "TypeOfChannel"))
             (sonar_info file_header)
           = Some [XTFChannelType.port; XTFChannelType.stbd]
        /\ option_map (map (field XTFChanInfo "TypeOfChannel"))
             (bathy_info file_header)
           = Some [XTFChannelType.bathy]
        /\ exists sonar bathy,
             sonar_info file_header = Some sonar
             /\ bathy_info file_header = Some bathy
             /\ forall x, In x sonar -> ~ In x bathy).
Proof.
  split; [reflexivity |].
  destruct (XTFFileHeader_init PyStream Examples.header_mixed_raw)
    as [file_header |] eqn:Hinit; [| vm_compute in Hinit; discriminate].
  exists file_header. split; [reflexivity |].
  assert (Hfh : Ok file_header
                = XTFFileHeader_init PyStream Examples.header_mixed_raw)
    by (symmetry; exact Hinit).
  vm_compute in Hfh. injection Hfh as ->.
  split; [reflexivity |]. split; [reflexivity |].
  destruct (channel_views PyStream Examples.header_mixed_raw _ eq_refl Hinit)
    as (sonar & bathy & Hs & Hb & _ & _ & _ & Hdisj).
  exists sonar, bathy. repeat split; assumption.
Defined.

(** ** Time stamps *)

Lemma getint_hasattr (cls : ctypes_class) (raw : bytes) (name : string)
  (z : Z) :
  getint cls raw name = Ok z -> hasattr cls name = true.
Proof.
  unfold getint, getattr, hasattr.
  destruct (field_lookup name (_fields_ cls) 0) as [[off t] |];
    [reflexivity | discriminate].
Qed.

(** C9. A packet whose [SourceEpoch] field exists and is not zero, and whose
    [EpochMicroseconds] field does not exist or is zero: [get_time] returns
    the epoch seconds, in the unit of seconds. The result is a function of
    [SourceEpoch] alone: the calendar fields and any [HSeconds],
    [Millisecond] or [Microsecond] field of the packet are not read. *)
Theorem epoch_seconds_only (cls : ctypes_class) (self : bytes) (epoch : Z) :
  getint cls self "SourceEpoch" = Ok epoch ->
  epoch <> 0 ->
  hasattr cls "EpochMicroseconds" = false
  \/ getint cls self "EpochMicroseconds" = Ok 0 ->
  get_time cls self = Ok {| np.dt_unit := np.s; np.dt_value := epoch |}.
Proof.
  intros Hepoch Hnz Hmicro. unfold get_time, has_nonzero.
  rewrite (getint_hasattr _ _ _ _ Hepoch), Hepoch. cbn [rbind].
  destruct (Z.eqb_spec epoch 0) as [| _]; [contradiction |]. cbn [negb].
  destruct Hmicro as [Hno | Hzero].
  - rewrite Hno. reflexivity.
  - rewrite (getint_hasattr _ _ _ _ Hzero), Hzero. reflexivity.
Qed.

Lemma epoch_seconds_only_witness :
  getint XTFHeaderNavigation Examples.navigation_epoch "SourceEpoch"
  = Ok 1583020800
  /\ 1583020800 <> 0
  /\ hasattr XTFHeaderNavigation "EpochMicroseconds" = false
  /\ field XTFHeaderNavigation "Microsecond" Examples.navigation_epoch
     = 123456
  /\ get_time XTFHeaderNavigation Examples.navigation_epoch
     = Ok {| np.dt_unit := np.s; np.dt_value := 1583020800 |}.
Proof.
  split; [reflexivity |]. split; [discriminate |]. split; [reflexivity |].
  split; [reflexivity |].
  apply (epoch_seconds_only XTFHeaderNavigation Examples.navigation_epoch
           1583020800 eq_refl).
  - discriminate.
  - left. reflexivity.
Defined.

Lemma add_Y_D (y n : Z) :
  np.add {| np.dt_unit := np.Y; np.dt_value := y |}
    {| np.td_unit := np.D; np.td_value := n |}
  = Ok {| np.dt_unit := np.D;
          np.dt_value := np.year_start_days (1970 + y) + n |}.
Proof.
  unfold np.add, np.timedelta_as, np.datetime_as.
  cbn [np.dt_unit np.td_unit np.dt_value np.td_value np.finer np.rank
       Nat.ltb Nat.leb rbind np.per_day].
  change (1 / 1) with 1. do 2 f_equal. lia.
Qed.

Lemma add_D_h (v n : Z) :
  np.add {| np.dt_unit := np.D; np.dt_value := v |}
    {| np.td_unit := np.h; np.td_value := n |}
  = Ok {| np.dt_unit := np.h; np.dt_value := v * 24 + n |}.
Proof.
  unfold np.add, np.timedelta_as, np.datetime_as.
  cbn [np.dt_unit np.td_unit np.dt_value np.td_value np.finer np.rank
       Nat.ltb Nat.leb rbind np.per_day].
  change (24 / 1) with 24. change (24 / 24) with 1. do 2 f_equal. lia.
Qed.

Lemma add_h_m (v n : Z) :
  np.add {| np.dt_unit := np.h; np.dt_value := v |}
    {| np.td_unit := np.m; np.td_value := n |}
  = Ok {| np.dt_unit := np.m; np.dt_value := v * 60 + n |}.
Proof.
  unfold np.add, np.timedelta_as, np.datetime_as.
  cbn [np.dt_unit np.td_unit np.dt_value np.td_value np.finer np.rank
       Nat.ltb Nat.leb rbind np.per_day].
  change (1440 / 24) with 60. change (1440 / 1440) with 1.
  do 2 f_equal. lia.
Qed.

Lemma add_m_s (v n : Z) :
  np.add {| np.dt_unit := np.m; np.dt_value := v |}
    {| np.td_unit := np.s; np.td_value := n |}
  = Ok {| np.dt_unit := np.s; np.dt_value := v * 60 + n |}.
Proof.
  unfold np.add, np.timedelta_as, np.datetime_as.
  cbn [np.dt_unit np.td_unit np.dt_value np.td_value np.finer np.rank
       Nat.ltb Nat.leb rbind np.per_day].
  change (86400 / 1440) with 60. change (86400 / 86400) with 1.
  do 2 f_equal. lia.
Qed.

Lemma add_s_ms (v n : Z) :
  np.add {| np.dt_unit := np.s; np.dt_value := v |}
    {| np.td_unit := np.ms; np.td_value := n |}
  = Ok {| np.dt_unit := np.ms; np.dt_value := v * 1000 + n |}.
Proof.
  unfold np.add, np.timedelta_as, np.datetime_as.
  cbn [np.dt_unit np.td_unit np.dt_value np.td_value np.finer np.rank
       Nat.ltb Nat.leb rbind np.per_day].
  change (86400000 / 86400) with 1000. change (86400000 / 86400000) with 1.
  do 2 f_equal. lia.
Qed.

Lemma add_s_us (v n : Z) :
  np.add {| np.dt_unit := np.s; np.dt_value := v |}
    {| np.td_unit := np.us; np.td_value := n |}
  = Ok {| np.dt_unit := np.us; np.dt_value := v * 1000000 + n |}.
Proof.
  unfold np.add, np.timedelta_as, np.datetime_as.
  cbn [np.dt_unit np.td_unit np.dt_value np.td_value np.finer np.rank
       Nat.ltb Nat.leb rbind np.per_day].
  change (86400000000 / 86400) with 1000000.
  change (86400000000 / 86400000000) with 1.
  do 2 f_equal. lia.
Qed.

Lemma add_ms_us (v n : Z) :
  np.add {| np.dt_unit := np.ms; np.dt_value := v |}
    {| np.td_unit := np.us; np.td_value := n |}
  = Ok {| np.dt_unit := np.us; np.dt_value := v * 1000 + n |}.
Proof.
  unfold np.add, np.timedelta_as, np.datetime_as.
  cbn [np.dt_unit np.td_unit np.dt_value np.td_value np.finer np.rank
       Nat.ltb Nat.leb rbind np.per_day].
  change (86400000000 / 86400000) with 1000.
  change (86400000000 / 86400000000) with 1.
  do 2 f_equal. lia.
Qed.

(** *** Python's and numpy's day counts against the calendar *)

Lemma month_cases (m : Z) :
  1 <= m <= 12 ->
  m = 1 \/ m = 2 \/ m = 3 \/ m = 4 \/ m = 5 \/ m = 6 \/ m = 7 \/ m = 8
  \/ m = 9 \/ m = 10 \/ m = 11 \/ m = 12.
Proof. lia. Qed.

Lemma days_in_month_calendar (y m : Z) :
  1 <= m <= 12 ->
  datetime._days_in_month y m = Gregorian.month_length y m.
Proof.
  intros Hm. unfold datetime._days_in_month, Gregorian.month_length.
  change (datetime._is_leap y) with (Gregorian.leap y).
  destruct (month_cases m Hm)
    as [-> | [-> | [-> | [-> | [-> | [-> | [-> | [-> | [-> | [-> | [-> | ->]]]]]]]]]]];
    cbn [Z.eqb Pos.eqb andb]; reflexivity.
Qed.

Lemma days_before_month_calendar (y m : Z) :
  1 <= m <= 12 ->
  datetime._days_before_month y m
  = Gregorian.days_in_months y (Z.to_nat (m - 1)).
Proof.
  intros Hm. unfold datetime._days_before_month.
  change (datetime._is_leap y) with (Gregorian.leap y).
  destruct (month_cases m Hm)
    as [-> | [-> | [-> | [-> | [-> | [-> | [-> | [-> | [-> | [-> | [-> | ->]]]]]]]]]]];
    cbv - [Gregorian.leap]; destruct (Gregorian.leap y); reflexivity.
Qed.

Lemma date_valid (y m d : Z) :
  Gregorian.valid y m d ->
  datetime.date y m d
  = Ok {| datetime.year := y; datetime.month := m; datetime.day := d |}.
Proof.
  intros (Hy & Hm & Hd). unfold datetime.date.
  rewrite days_in_month_calendar by assumption.
  unfold datetime.MINYEAR, datetime.MAXYEAR.
  destruct (Z.leb_spec 1 y); [| lia]. destruct (Z.leb_spec y 9999); [| lia].
  destruct (Z.leb_spec 1 m); [| lia]. destruct (Z.leb_spec m 12); [| lia].
  destruct (Z.leb_spec 1 d); [| lia].
  destruct (Z.leb_spec d (Gregorian.month_length y m)); [| lia].
  reflexivity.
Qed.

Lemma date_invalid (y m d : Z) :
  ~ Gregorian.valid y m d -> 1 <= m <= 12 ->
  exists msg, datetime.date y m d = Raise (ValueError msg).
Proof.
  intros Hinv Hm. unfold datetime.date.
  rewrite days_in_month_calendar by assumption.
  unfold datetime.MINYEAR, datetime.MAXYEAR, Gregorian.valid in *.
  destruct (Z.leb_spec 1 y); cbn [andb negb]; [| eexists; reflexivity].
  destruct (Z.leb_spec y 9999); cbn [andb negb]; [| eexists; reflexivity].
  destruct (Z.leb_spec 1 m); [| lia]. destruct (Z.leb_spec m 12); [| lia].
  cbn [andb negb].
  destruct (Z.leb_spec 1 d); cbn [andb negb]; [| eexists; reflexivity].
  destruct (Z.leb_spec d (Gregorian.month_length y m)); cbn [andb negb];
    [lia | eexists; reflexivity].
Qed.

(** numpy's count of the days before a year advances by the length of the
    year, for all the years a Python date can have. *)
Lemma year_start_days_steps :
  forallb
    (fun k => np.year_start_days (k + 1)
              =? np.year_start_days k + Gregorian.year_length k)
    (map Z.of_nat (seq 1 (Z.to_nat 9998))) = true.
Proof. vm_compute. reflexivity. Qed.

Lemma year_start_days_step (k : Z) :
  1 <= k <= 9998 ->
  np.year_start_days (k + 1)
  = np.year_start_days k + Gregorian.year_length k.
Proof.
  intros Hk. pose proof year_start_days_steps as Hall.
  rewrite forallb_forall in Hall. apply Z.eqb_eq, Hall.
  apply in_map_iff. exists (Z.to_nat k). split; [lia |].
  apply in_seq. lia.
Qed.

Lemma year_start_days_calendar_nat (n : nat) :
  Z.of_nat n <= 9998 ->
  np.year_start_days (Z.of_nat (S n))
  = Gregorian.days_in_years n - Gregorian.days_in_years 1969.
Proof.
  induction n as [| n IH]; intros Hn.
  - vm_compute. reflexivity.
  - change (Gregorian.days_in_years (S n))
      with (Gregorian.days_in_years n
            + Gregorian.year_length (Z.of_nat (S n))).
    rewrite (Nat2Z.inj_succ (S n)), <- Z.add_1_r.
    rewrite year_start_days_step, IH by lia. lia.
Qed.

Lemma year_start_days_calendar (y : Z) :
  1 <= y <= 9999 ->
  np.year_start_days y
  = Gregorian.days_in_years (Z.to_nat (y - 1)) - Gregorian.days_in_years 1969.
Proof.
  intros Hy. rewrite <- year_start_days_calendar_nat by lia.
  f_equal. lia.
Qed.

(** The day count [get_time] builds from [np.datetime64(str(Year), 'Y')] and
    the difference of the two Python dates is the calendar's. *)
Lemma day_count_calendar (y m d : Z) :
  Gregorian.valid y m d ->
  np.year_start_days (1970 + (y - 1970))
  + datetime.sub_days
      {| datetime.year := y; datetime.month := m; datetime.day := d |}
      {| datetime.year := y; datetime.month := 1; datetime.day := 1 |}
  = Gregorian.days_since_epoch y m d.
Proof.
  intros (Hy & Hm & Hd).
  unfold datetime.sub_days, datetime.toordinal, datetime._ymd2ord.
  cbn [datetime.year datetime.month datetime.day].
  rewrite (days_before_month_calendar y m), (days_before_month_calendar y 1)
    by lia.
  replace (1970 + (y - 1970)) with y by lia.
  rewrite year_start_days_calendar by assumption.
  unfold Gregorian.days_since_epoch.
  change (Gregorian.days_in_months y (Z.to_nat (1 - 1))) with 0. lia.
Qed.

(** *** [get_time] on the calendar path *)

Lemma instant_us_s (v : Z) :
  instant_us {| np.dt_unit := np.s; np.dt_value := v |} = v * 1000000.
Proof. reflexivity. Qed.

Lemma instant_us_ms (v : Z) :
  instant_us {| np.dt_unit := np.ms; np.dt_value := v |} = v * 1000.
Proof. reflexivity. Qed.

Lemma instant_us_us (v : Z) :
  instant_us {| np.dt_unit := np.us; np.dt_value := v |} = v.
Proof.
  unfold instant_us, np.datetime_as. cbn [np.dt_unit np.dt_value np.per_day].
  change (86400000000 / 86400000000) with 1. lia.
Qed.

Lemma rbind_Ok_r {A : Type} (c : result A) : (let? x := c in Ok x) = c.
Proof. destruct c; reflexivity. Qed.

(** What [get_time] computes when the epoch is not used and the calendar
    fields hold a valid date: the calendar time in seconds, refined by the
    sub-second fields the class has. *)
Lemma get_time_calendar (cls : ctypes_class) (self : bytes)
  (y mo d hh mi ss : Z) :
  has_nonzero cls self "SourceEpoch" = Ok false ->
  getint cls self "Year" = Ok y ->
  getint cls self "Month" = Ok mo ->
  getint cls self "Day" = Ok d ->
  getint cls self "Hour" = Ok hh ->
  getint cls self "Minute" = Ok mi ->
  getint cls self "Second" = Ok ss ->
  Gregorian.valid y mo d ->
  let secs :=
    ((Gregorian.days_since_epoch y mo d * 24 + hh) * 60 + mi) * 60 + ss in
  get_time cls self
  = if hasattr cls "HSeconds" then
      let? HSeconds := getint cls self "HSeconds" in
      Ok {| np.dt_unit := np.ms; np.dt_value := secs * 1000 + HSeconds * 10 |}
    else
      let? p_time :=
        if hasattr cls "Millisecond" then
          let? Millisecond := getint cls self "Millisecond" in
          Ok {| np.dt_unit := np.ms;
                np.dt_value := secs * 1000 + Millisecond |}
        else Ok {| np.dt_unit := np.s; np.dt_value := secs |} in
      if hasattr cls "Microsecond" then
        let? Microsecond := getint cls self "Microsecond" in
        np.add p_time {| np.td_unit := np.us; np.td_value := Microsecond |}
      else Ok p_time.
Proof.
  intros Hepoch Hy Hmo Hd Hhh Hmi Hss Hvalid secs.
  assert (Hjan : Gregorian.valid y 1 1).
  { destruct Hvalid as (Hyr & _ & _). repeat split; try lia.
    cbn. lia. }
  unfold get_time. rewrite Hepoch. cbn [rbind].
  rewrite Hy, Hmo, Hd. cbn [rbind].
  rewrite (date_valid _ _ _ Hvalid), (date_valid _ _ _ Hjan). cbn [rbind].
  unfold np.datetime64_of_year. rewrite add_Y_D. cbn [rbind].
  rewrite (day_count_calendar _ _ _ Hvalid).
  rewrite Hhh. cbn [rbind]. rewrite add_D_h. cbn [rbind].
  rewrite Hmi. cbn [rbind]. rewrite add_h_m. cbn [rbind].
  rewrite Hss. cbn [rbind]. rewrite add_m_s. cbn [rbind].
  fold secs.
  destruct (hasattr cls "HSeconds").
  - destruct (getint cls self "HSeconds") as [hs |]; cbn [rbind];
      [apply add_s_ms | reflexivity].
  - destruct (hasattr cls "Millisecond").
    + destruct (getint cls self "Millisecond") as [ms |]; cbn [rbind];
        [rewrite add_s_ms | reflexivity]. cbn [rbind].
      destruct (hasattr cls "Microsecond"); [apply rbind_Ok_r | reflexivity].
    + cbn [rbind].
      destruct (hasattr cls "Microsecond"); [apply rbind_Ok_r | reflexivity].
Qed.

Ltac eval_hasattr :=
  repeat match goal with
         | |- context [hasattr ?c ?n] =>
             let b := eval vm_compute in (hasattr c n) in
             change (hasattr c n) with b
         end.

(** C8. For every packet of the classes of the module, without a nonzero
    [SourceEpoch] field and with calendar fields that hold a valid date:
    [get_time] returns the proleptic Gregorian calendar time of
    (Year, Month, Day, Hour, Minute, Second), plus the sub-second part of
    exactly one field: [HSeconds] times 10 ms if the class has it, else
    [Millisecond], else [Microsecond] (nothing if the class has none). *)
Theorem calendar_time_stamp (cls : ctypes_class) (self : bytes) :
  In cls packet_classes ->
  has_nonzero cls self "SourceEpoch" = Ok false ->
  Gregorian.valid (field cls "Year" self) (field cls "Month" self)
    (field cls "Day" self) ->
  exists t,
    get_time cls self = Ok t
    /\ np.dt_unit t = subsecond_unit cls
    /\ instant_us t
       = Gregorian.micros (field cls "Year" self) (field cls "Month" self)
           (field cls "Day" self) (field cls "Hour" self)
           (field cls "Minute" self) (field cls "Second" self)
         + subsecond_us cls self.
Proof.
  intros Hin Hepoch Hvalid.
  unfold packet_classes in Hin. cbn [In] in Hin.
  repeat destruct Hin as [<- | Hin]; try contradiction;
    match goal with
    | |- context [get_time ?c self] =>
        rewrite (get_time_calendar c self
                   (field c "Year" self) (field c "Month" self)
                   (field c "Day" self) (field c "Hour" self)
                   (field c "Minute" self) (field c "Second" self) Hepoch
                   eq_refl eq_refl eq_refl eq_refl eq_refl eq_refl Hvalid)
    end;
    unfold subsecond_unit, subsecond_us; eval_hasattr; cbv iota;
    repeat match goal with
           | |- context [getint ?c self ?n] =>
               change (getint c self n) with (Ok (field c n self))
           end;
    cbn [rbind]; try rewrite add_s_us; try rewrite add_ms_us;
    eexists; (split; [reflexivity |]); (split; [reflexivity |]);
    rewrite ?instant_us_s, ?instant_us_ms, ?instant_us_us;
    unfold Gregorian.micros; lia.
Qed.

Lemma calendar_time_stamp_witness :
  In XTFPingHeader packet_classes
  /\ has_nonzero XTFPingHeader Examples.ping_2020_03_01 "SourceEpoch"
     = Ok false
  /\ Gregorian.valid
       (field XTFPingHeader "Year" Examples.ping_2020_03_01)
       (field XTFPingHeader "Month" Examples.ping_2020_03_01)
       (field XTFPingHeader "Day" Examples.ping_2020_03_01)
  /\ exists t,
       get_time XTFPingHeader Examples.ping_2020_03_01 = Ok t
       /\ np.dt_unit t = np.ms
       /\ instant_us t = Gregorian.micros 2020 3 1 0 0 0 + 500000.
Proof.
  assert (Hin : In XTFPingHeader packet_classes) by (left; reflexivity).
  assert (Hvalid : Gregorian.valid
                     (field XTFPingHeader "Year" Examples.ping_2020_03_01)
                     (field XTFPingHeader "Month" Examples.ping_2020_03_01)
                     (field XTFPingHeader "Day" Examples.ping_2020_03_01))
    by (vm_compute; repeat split; discriminate).
  split; [exact Hin |]. split; [reflexivity |]. split; [exact Hvalid |].
  destruct (calendar_time_stamp XTFPingHeader Examples.ping_2020_03_01
              Hin eq_refl Hvalid) as (t & Ht & Hunit & Hinstant).
  exists t. split; [exact Ht |]. split; [exact Hunit |].
  rewrite Hinstant. vm_compute. reflexivity.
Defined.

(** The example of the specification: 2020-03-01T00:00:00 with 50 hundredths
    of a second is 1583020800500 ms after the epoch, that is
    2020-03-01T00:00:00.500Z. *)
Example time_stamp_2020_03_01 :
  get_time XTFPingHeader Examples.ping_2020_03_01
  = Ok {| np.dt_unit := np.ms; np.dt_value := 1583020800500 |}
  /\ Gregorian.micros 2020 3 1 0 0 0 + 500000 = 1583020800500 * 1000
  /\ Gregorian.valid 2020 2 29
  /\ ~ Gregorian.valid 2021 2 29.
Proof.
  split; [reflexivity |]. split; [vm_compute; reflexivity |]. split.
  - vm_compute. repeat split; discriminate.
  - intros (_ & _ & _ & H). vm_compute in H. apply H. reflexivity.
Qed.

(** ** How much a decoder takes from the stream *)

Lemma takes_ret {A : Type} (a : A) : takes_at_most (ret a) 0.
Proof. intros s. exists []. cbn. split; [reflexivity | lia]. Qed.

Lemma takes_raise {A : Type} (e : exn) : takes_at_most (@raise A e) 0.
Proof. intros s. exists []. cbn. split; [reflexivity | lia]. Qed.

Lemma takes_lift {A : Type} (r : result A) : takes_at_most (lift r) 0.
Proof. intros s. exists []. cbn. split; [reflexivity | lia]. Qed.

Lemma takes_weaken {A : Type} (c : io A) (b1 b2 : Z) :
  b1 <= b2 -> takes_at_most c b1 -> takes_at_most c b2.
Proof.
  intros Hle Hc s. destruct (Hc s) as (got & Hs & Hlen).
  exists got. split; [assumption | lia].
Qed.

Lemma takes_bind {A B : Type} (c : io A) (k : A -> io B) (b1 b2 : Z) :
  0 <= b2 ->
  takes_at_most c b1 ->
  (forall a s, fst (c s) = Ok a -> takes_at_most (k a) b2) ->
  takes_at_most (bind c k) (b1 + b2).
Proof.
  intros Hb2 Hc Hk s. unfold bind.
  destruct (Hc s) as (got & Hs & Hlen).
  destruct (c s) as [[a | e] s'] eqn:Hcs; cbn [snd] in Hs.
  - destruct (Hk a s (f_equal fst Hcs) s') as (got' & Hs' & Hlen').
    exists (got ++ got'). split.
    + rewrite <- app_assoc, <- Hs'. exact Hs.
    + rewrite length_app. lia.
  - exists got. cbn [snd]. split; [assumption | lia].
Qed.

Lemma takes_bind_lift {A B : Type} (r : result A) (k : A -> io B) (b : Z) :
  0 <= b ->
  (forall a, r = Ok a -> takes_at_most (k a) b) ->
  takes_at_most (bind (lift r) k) b.
Proof.
  intros Hb Hk. replace b with (0 + b) by lia.
  apply takes_bind; [assumption | apply takes_lift |].
  intros a s Hfst. apply Hk. exact Hfst.
Qed.

Lemma takes_buffer_read (buffer : pybuffer) (n : Z) :
  0 <= n -> takes_at_most (buffer_read buffer n) n.
Proof.
  intros Hn. destruct buffer; cbn [buffer_read];
    try (apply takes_weaken with 0; [assumption | apply takes_raise]).
  intros s. destruct (BytesIO_read_length n s) as (got & _ & Hs & Hlen).
  exists got. split; [assumption | now apply Hlen].
Qed.

Lemma takes_XTFBase_new (cls : ctypes_class) (buffer : pybuffer) :
  takes_at_most (XTFBase_new cls buffer) (Z.of_nat (sizeof cls)).
Proof.
  intros s. destruct (XTFBase_new_consumed cls buffer s) as (got & Hs & Hlen).
  exists got. split; [assumption | lia].
Qed.

Lemma field_BytesPerSample_nonneg (chan : bytes) :
  0 <= field XTFChanInfo "BytesPerSample" chan.
Proof. apply (le_uint_range (slice 6 2 chan)). Qed.

Lemma n_samples_of_nonneg (file_header : XTFFileHeader_obj)
  (p_chan : bytes) (i n : Z) :
  n_samples_of file_header p_chan i = Ok n -> 0 <= n.
Proof.
  unfold n_samples_of.
  destruct (Z.gtb_spec (field XTFPingChanHeader "NumSamples" p_chan) 0)
    as [Hpos | Hzero].
  - intros Heq. injection Heq as <-. lia.
  - destruct (getattr_opt "sonar_info" (sonar_info file_header))
      as [info |]; [| discriminate]. cbn [rbind].
    destruct (list_getitem info i) as [chan |]; [| discriminate].
    cbn [rbind]. intros Heq. injection Heq as <-.
    apply (le_uint_range (slice 8 4 chan)).
Qed.

(** One iteration of the channel loop takes the 64 bytes of a sub-header and
    at most [NumBytesThisRecord - 256 - 64] bytes of samples. *)
Lemma takes_ping_channel (buffer : pybuffer) (file_header : XTFFileHeader_obj)
  (p_header : bytes) (i : Z) (acc : list bytes * list ndarray) :
  takes_at_most (ping_channel buffer file_header p_header i acc)
    (Z.of_nat (sizeof XTFPingChanHeader)
     + Z.max 0 (n_bytes_remaining_of p_header)).
Proof.
  unfold ping_channel.
  apply takes_bind; [lia | apply takes_XTFBase_new |].
  intros p_chan _ _.
  apply takes_bind_lift; [lia |]. intros n_samples Hn.
  apply takes_bind_lift; [lia |]. intros info _.
  apply takes_bind_lift; [lia |]. intros chan _.
  pose proof (n_samples_of_nonneg _ _ _ _ Hn).
  pose proof (field_BytesPerSample_nonneg chan).
  destruct (Z.gtb_spec (n_samples * field XTFChanInfo "BytesPerSample" chan)
              (n_bytes_remaining_of p_header)) as [Hgt | Hle].
  - apply takes_weaken with 0; [lia | apply takes_raise].
  - replace (Z.max 0 (n_bytes_remaining_of p_header))
      with (Z.max 0 (n_bytes_remaining_of p_header) + 0) by lia.
    apply takes_bind; [lia | |].
    + apply takes_weaken
        with (n_samples * field XTFChanInfo "BytesPerSample" chan);
        [lia | apply takes_buffer_read; nia].
    + intros samples _ _.
      destruct (length samples =? 0)%nat; [apply takes_raise |].
      apply takes_bind_lift; [lia |]. intros dtype _.
      apply takes_bind_lift; [lia |]. intros arr _.
      apply takes_ret.
Qed.

Lemma takes_for_each {A St : Type} (xs : list A) (body : A -> St -> io St)
  (acc : St) (b : Z) :
  0 <= b ->
  (forall x acc', takes_at_most (body x acc') b) ->
  takes_at_most (for_each xs body acc) (Z.of_nat (length xs) * b).
Proof.
  intros Hb Hbody. revert acc.
  induction xs as [| x xs IH]; intros acc; cbn [for_each length].
  - apply takes_ret.
  - replace (Z.of_nat (S (length xs)) * b)
      with (b + Z.of_nat (length xs) * b) by lia.
    apply takes_bind; [nia | apply Hbody |]. intros acc' _ _. apply IH.
Qed.

Lemma length_py_range (lo hi : Z) :
  length (py_range lo hi) = Z.to_nat (hi - lo).
Proof. unfold py_range. now rewrite length_map, length_seq. Qed.

Lemma bind_ok {A B : Type} (c : io A) (k : A -> io B) (s s' : bytes) (a : A) :
  c s = (Ok a, s') -> bind c k s = k a s'.
Proof. unfold bind. now intros ->. Qed.

Lemma bind_bind {A B C : Type} (c : io A) (k1 : A -> io B) (k2 : B -> io C)
  (s : bytes) :
  bind (bind c k1) k2 s = bind c (fun a => bind (k1 a) k2) s.
Proof.
  unfold bind. destruct (c s) as [[a | e] s']; reflexivity.
Qed.

(** The part of [XTFPingHeader(buffer, file_header)] that runs once the 256
    bytes of the ping header have been read from the stream. *)
Lemma XTFPingHeader_call_stream (file_header : XTFFileHeader_obj)
  (hdr rest : bytes) :
  length hdr = sizeof XTFPingHeader ->
  XTFPingHeader_call PyStream (Some file_header) (hdr ++ rest)
  = bind
      (let HeaderType := field XTFPingHeader "HeaderType" hdr in
       if HeaderType =? XTFHeaderType.sonar then
         acc <- for_each
                  (py_range 0 (field XTFPingHeader "NumChansToFollow" hdr))
                  (ping_channel PyStream file_header hdr) ([], []) ;;
         ret {| ph_raw := hdr;
                ping_chan_headers := fst acc;
                data := DataList (snd acc) |}
       else if py_in HeaderType _bathy_header_types then
         let n_bytes := field XTFPingHeader "NumBytesThisRecord" hdr
                        - Z.of_nat (sizeof XTFPingHeader) in
         samples <- buffer_read PyStream n_bytes ;;
         if (length samples =? 0)%nat then raise packets_missing
         else if HeaderType =? XTFHeaderType.bathy_xyza then
           xyza <- lift (xyza_array n_bytes samples) ;;
           ret {| ph_raw := hdr; ping_chan_headers := []; data := xyza |}
         else
           raw_bathy <- lift (np_frombuffer samples 1) ;;
           ret {| ph_raw := hdr; ping_chan_headers := [];
                  data := DataList [raw_bathy] |}
       else raise (RuntimeError "Unknown XTFPingHeader type encountered."))
      (fun self => lift (XTFPingHeader_init PyStream self))
      rest.
Proof.
  intros Hlen. unfold XTFPingHeader_call, XTFPingHeader_new.
  rewrite bind_bind.
  rewrite (bind_ok _ _ _ _ _
             (XTFBase_new_stream_ok XTFPingHeader hdr rest Hlen
                ltac:(vm_compute; lia))).
  reflexivity.
Qed.

Lemma XTFPingChanHeader_call_stream (sub rest : bytes) :
  length sub = sizeof XTFPingChanHeader ->
  XTFPingChanHeader_call PyStream (sub ++ rest) = (Ok sub, rest).
Proof.
  intros Hlen. apply XTFBase_new_stream_ok; [assumption | vm_compute; lia].
Qed.

(** The guard of the channel loop and what it bounds. In each channel
    iteration of a sonar ping the decoder compares the sample bytes
    [n_bytes] with
    [NumBytesThisRecord - sizeof(XTFPingHeader) - sizeof(XTFPingChanHeader)]
    (the same bound in every iteration) and raises the "exceeds the number of
    bytes remaining" [RuntimeError] when [n_bytes] is larger, without reading
    any sample byte. Hence an iteration takes at most the 64 bytes of its
    sub-header and [NumBytesThisRecord - 320] sample bytes from the stream,
    a ping with [NumChansToFollow] channels takes at most
    [256 + NumChansToFollow * (64 + max 0 (NumBytesThisRecord - 320))] bytes,
    and a ping with at most one channel never reads sample bytes past the
    frame boundary given by [NumBytesThisRecord]. *)
Theorem ping_sample_bytes_bounded :
  (forall buffer file_header p_header i acc s p_chan s1 info chan n_samples,
     XTFPingChanHeader_call buffer s = (Ok p_chan, s1) ->
     sonar_info file_header = Some info ->
     list_getitem info i = Ok chan ->
     n_samples_of file_header p_chan i = Ok n_samples ->
     n_samples * field XTFChanInfo "BytesPerSample" chan
     > field XTFPingHeader "NumBytesThisRecord" p_header
       - Z.of_nat (sizeof XTFPingHeader)
       - Z.of_nat (sizeof XTFPingChanHeader) ->
     ping_channel buffer file_header p_header i acc s
     = (Raise exceeds_remaining, s1))
  /\ (forall file_header hdr rest,
        length hdr = sizeof XTFPingHeader ->
        field XTFPingHeader "HeaderType" hdr = XTFHeaderType.sonar ->
        consumed (hdr ++ rest)
          (snd (XTFPingHeader_call PyStream (Some file_header) (hdr ++ rest)))
        <= 256
           + field XTFPingHeader "NumChansToFollow" hdr
             * (64 + Z.max 0 (field XTFPingHeader "NumBytesThisRecord" hdr
                              - 320)))
  /\ (forall file_header hdr rest,
        length hdr = sizeof XTFPingHeader ->
        field XTFPingHeader "HeaderType" hdr = XTFHeaderType.sonar ->
        field XTFPingHeader "NumChansToFollow" hdr <= 1 ->
        consumed (hdr ++ rest)
          (snd (XTFPingHeader_call PyStream (Some file_header) (hdr ++ rest)))
        <= Z.max 320 (field XTFPingHeader "NumBytesThisRecord" hdr)).
Proof.
  assert (Hbound :
    forall file_header hdr rest,
      length hdr = sizeof XTFPingHeader ->
      field XTFPingHeader "HeaderType" hdr = XTFHeaderType.sonar ->
      consumed (hdr ++ rest)
        (snd (XTFPingHeader_call PyStream (Some file_header) (hdr ++ rest)))
      <= 256
         + field XTFPingHeader "NumChansToFollow" hdr
           * (64 + Z.max 0 (field XTFPingHeader "NumBytesThisRecord" hdr
                            - 320))).
  { intros file_header hdr rest Hlen Htype.
    rewrite XTFPingHeader_call_stream by assumption.
    cbv zeta. rewrite Htype. cbn [Z.eqb XTFHeaderType.sonar].
    set (k := field XTFPingHeader "NumChansToFollow" hdr).
    set (b := 64 + Z.max 0 (field XTFPingHeader "NumBytesThisRecord" hdr
                            - 320)).
    assert (Hk : 0 <= k) by apply (le_uint_range (slice 4 2 hdr)).
    match goal with
    | |- consumed _ (snd (?c rest)) <= _ =>
        assert (Htakes : takes_at_most c (k * b + 0 + 0))
    end.
    { apply takes_bind; [lia | | intros; apply takes_lift].
      apply takes_bind; [lia | | intros; apply takes_ret].
      apply takes_weaken with (Z.of_nat (length (py_range 0 k)) * b).
      { rewrite length_py_range.
        replace (Z.of_nat (Z.to_nat (k - 0))) with k by lia. lia. }
      apply takes_for_each; [subst b; lia |].
      intros i acc. subst b.
      apply takes_weaken
        with (Z.of_nat (sizeof XTFPingChanHeader)
              + Z.max 0 (n_bytes_remaining_of hdr));
        [| apply takes_ping_channel].
      unfold n_bytes_remaining_of.
      change (Z.of_nat (sizeof XTFPingChanHeader)) with 64.
      change (Z.of_nat (sizeof XTFPingHeader)) with 256. lia. }
    destruct (Htakes rest) as (got & Hrest & Hgot).
    unfold consumed. rewrite length_app, Hlen.
    rewrite Hrest at 1. rewrite length_app.
    change (sizeof XTFPingHeader) with 256%nat. lia. }
  split; [| split; [exact Hbound |]].
  - intros buffer file_header p_header i acc s p_chan s1 info chan n_samples
      Hsub Hinfo Hchan Hn Hgt.
    unfold ping_channel.
    rewrite (bind_ok _ _ _ _ _ Hsub).
    unfold bind, lift. rewrite Hn, Hinfo. cbn [getattr_opt]. rewrite Hchan.
    unfold n_bytes_remaining_of.
    destruct (Z.gtb_spec
                (n_samples * field XTFChanInfo "BytesPerSample" chan)
                (field XTFPingHeader "NumBytesThisRecord" p_header
                 - Z.of_nat (sizeof XTFPingHeader)
                 - Z.of_nat (sizeof XTFPingChanHeader))); [reflexivity | lia].
  - intros file_header hdr rest Hlen Htype Hk.
    pose proof (Hbound file_header hdr rest Hlen Htype) as H.
    assert (H0 : 0 <= field XTFPingHeader "NumChansToFollow" hdr)
      by apply (le_uint_range (slice 4 2 hdr)).
    nia.
Qed.

Lemma ping_sample_bytes_bounded_witness :
  XTFPingChanHeader_call PyStream
    (Examples.ping_chan_header 2 ++ Examples.payload 4)
  = (Ok (Examples.ping_chan_header 2), Examples.payload 4)
  /\ n_samples_of Examples.header_2ch (Examples.ping_chan_header 2) 0 = Ok 2
  /\ 2 * field XTFChanInfo "BytesPerSample"
           (Examples.chan_info XTFChannelType.port 2 3)
     > field XTFPingHeader "NumBytesThisRecord"
         (Examples.ping_header XTFHeaderType.sonar 1 322)
       - Z.of_nat (sizeof XTFPingHeader)
       - Z.of_nat (sizeof XTFPingChanHeader)
  /\ ping_channel PyStream Examples.header_2ch
       (Examples.ping_header XTFHeaderType.sonar 1 322) 0 ([], [])
       (Examples.ping_chan_header 2 ++ Examples.payload 4)
     = (Raise exceeds_remaining, Examples.payload 4)
  /\ field XTFPingHeader "NumChansToFollow"
       (Examples.ping_header XTFHeaderType.sonar 1 326) <= 1
  /\ consumed Examples.ping_legacy_stream
       (snd (XTFPingHeader_call PyStream (Some Examples.header_2ch)
               Examples.ping_legacy_stream))
     <= Z.max 320 326.
Proof.
  split; [reflexivity |]. split; [reflexivity |].
  split; [vm_compute; reflexivity |].
  split.
  - apply (proj1 ping_sample_bytes_bounded PyStream Examples.header_2ch
             (Examples.ping_header XTFHeaderType.sonar 1 322) 0 ([], [])
             (Examples.ping_chan_header 2 ++ Examples.payload 4)
             (Examples.ping_chan_header 2) (Examples.payload 4)
             [Examples.chan_info XTFChannelType.port 2 3;
              Examples.chan_info XTFChannelType.stbd 2 3]
             (Examples.chan_info XTFChannelType.port 2 3) 2);
      try reflexivity.
  - split; [vm_compute; discriminate |].
    apply (proj2 (proj2 ping_sample_bytes_bounded) Examples.header_2ch
             (Examples.ping_header XTFHeaderType.sonar 1 326)
             (Examples.ping_chan_header 0 ++ Examples.payload 6));
      [reflexivity | reflexivity | vm_compute; discriminate].
Defined.

(** C1 (the code at the failing input). The guard of the channel loop is
    meant to keep the reads inside the frame ("exceeds the number of bytes
    remaining in packet"), but the bytes of earlier channels are not deducted
    from its bound: a sonar ping that declares a frame of 324 bytes and two
    channels of 4 sample bytes each passes the check in both iterations
    (4 <= 324 - 320) and is decoded; the decoder has then read 392 bytes, the
    second sub-header and the sample bytes of the second channel lying past
    the frame boundary. *)
Theorem two_channels_read_past_frame :
  field XTFPingHeader "NumBytesThisRecord"
    (firstn 256 Examples.ping_2ch_stream) = 324
  /\ XTFFileHeader_call PyStream Examples.header_2ch_raw
     = (Ok Examples.header_2ch, [])
  /\ exists p,
       XTFPingHeader_call PyStream (Some Examples.header_2ch)
         Examples.ping_2ch_stream
       = (Ok p, Examples.payload 8)
       /\ data p = DataList [ {| itemsize := 2; items := [257; 257] |};
                              {| itemsize := 2; items := [257; 257] |} ]
       /\ consumed Examples.ping_2ch_stream (Examples.payload 8) = 392.
Proof.
  split; [reflexivity |]. split; [reflexivity |].
  eexists. split; [vm_compute; reflexivity |].
  split; reflexivity.
Qed.

(** ** Sample arrays and beam records *)

Lemma length_chunks (w k : nat) :
  (0 < w)%nat ->
  forall (n : nat) (bs : bytes),
    length bs = (k * w)%nat -> (k <= n)%nat -> length (chunks n w bs) = k.
Proof.
  intros Hw. induction k as [| k IH]; intros n bs Hlen Hn.
  - destruct bs; [| discriminate]. destruct n; reflexivity.
  - destruct n as [| n]; [lia |].
    destruct bs as [| b bs]; [cbn in Hlen; lia |].
    cbn [chunks length]. f_equal. apply IH; [| lia].
    rewrite length_skipn, Hlen. cbn [Nat.mul]. lia.
Qed.

Lemma xtf_dtype_ok (n : Z) :
  xtf_dtype n = Ok n -> n = 1 \/ n = 2 \/ n = 4 \/ n = 8.
Proof.
  unfold xtf_dtype.
  destruct (Z.eqb_spec n 1); [tauto |]. destruct (Z.eqb_spec n 2); [tauto |].
  destruct (Z.eqb_spec n 4); [tauto |]. destruct (Z.eqb_spec n 8); [tauto |].
  discriminate.
Qed.

Lemma np_frombuffer_whole (samples : bytes) (dtype n : Z) :
  0 < dtype -> 0 <= n ->
  Z.of_nat (length samples) = n * dtype ->
  exists arr,
    np_frombuffer samples dtype = Ok arr
    /\ itemsize arr = dtype
    /\ Z.of_nat (length (items arr)) = n.
Proof.
  intros Hd Hn Hlen. unfold np_frombuffer.
  rewrite Hlen, Z.mod_mul by lia. cbn [Z.eqb].
  eexists. split; [reflexivity |]. split; [reflexivity |].
  cbn [items]. rewrite length_map.
  rewrite (length_chunks (Z.to_nat dtype) (Z.to_nat n)); [lia | lia | | nia].
  apply Nat2Z.inj. rewrite Nat2Z.inj_mul, !Z2Nat.id by lia. exact Hlen.
Qed.

Lemma np_frombuffer_decode (samples : bytes) (dtype n : Z) :
  0 < dtype ->
  Z.of_nat (length samples) = n * dtype ->
  np_frombuffer samples dtype = Ok (decode_samples dtype samples).
Proof.
  intros Hd Hlen. unfold np_frombuffer.
  rewrite Hlen, Z.mod_mul by lia. reflexivity.
Qed.

Lemma xtf_dtype_positive (n : Z) : xtf_dtype n = Ok n -> 0 < n.
Proof.
  intros H. destruct (xtf_dtype_ok n H) as [-> | [-> | [-> | ->]]]; lia.
Qed.

Lemma list_getitem_nth {A : Type} (xs : list A) (i : nat) (x : A) :
  nth_error xs i = Some x -> list_getitem xs (Z.of_nat i) = Ok x.
Proof.
  intros Hnth. unfold list_getitem.
  destruct (Z.ltb_spec (Z.of_nat i) 0); [lia |].
  now rewrite Nat2Z.id, Hnth.
Qed.

(** One iteration of the channel loop on a channel that fits. *)
Lemma ping_channel_decodes (file_header : XTFFileHeader_obj)
  (info : list bytes) (chan p_header : bytes) (channel : bytes * bytes)
  (rest : bytes) (i : nat) (acc : list bytes * list ndarray) :
  sonar_info file_header = Some info ->
  nth_error info i = Some chan ->
  channel_fits p_header chan channel ->
  ping_channel PyStream file_header p_header (Z.of_nat i) acc
    (channel_bytes channel ++ rest)
  = (Ok (fst acc ++ [fst channel],
         snd acc
         ++ [decode_samples (field XTFChanInfo "BytesPerSample" chan)
               (snd channel)]),
     rest).
Proof.
  intros Hinfo Hnth (Hsub & Hdtype & Hpos & Hfits & Hlen).
  destruct channel as [sub samples]. cbn [fst snd] in *.
  unfold channel_bytes, resolved_samples in *. cbn [fst snd].
  rewrite <- app_assoc. unfold ping_channel.
  rewrite (bind_ok _ _ _ _ _ (XTFPingChanHeader_call_stream sub _ Hsub)).
  assert (Hget := list_getitem_nth _ _ _ Hnth).
  assert (Hn : n_samples_of file_header sub (Z.of_nat i)
               = Ok (if field XTFPingChanHeader "NumSamples" sub >? 0
                     then field XTFPingChanHeader "NumSamples" sub
                     else field XTFChanInfo "Reserved" chan)).
  { unfold n_samples_of.
    destruct (field XTFPingChanHeader "NumSamples" sub >? 0);
      [reflexivity |].
    rewrite Hinfo. cbn [getattr_opt rbind]. rewrite Hget. reflexivity. }
  unfold bind at 1. unfold lift at 1. rewrite Hn.
  unfold bind at 1. unfold lift at 1. rewrite Hinfo. cbn [getattr_opt].
  unfold bind at 1. unfold lift at 1. rewrite Hget.
  match goal with
  | |- context [?a >? n_bytes_remaining_of p_header] =>
      destruct (Z.gtb_spec a (n_bytes_remaining_of p_header)); [lia |]
  end.
  unfold bind at 1. cbn [buffer_read]. rewrite <- Hlen.
  rewrite BytesIO_read_app by reflexivity.
  pose proof (xtf_dtype_positive _ Hdtype) as Hwidth.
  destruct (Nat.eqb_spec (length samples) 0); [nia |].
  unfold bind, lift. rewrite Hdtype.
  rewrite (np_frombuffer_decode samples _ _ Hwidth Hlen). reflexivity.
Qed.

Lemma for_each_channels (file_header : XTFFileHeader_obj) (p_header : bytes)
  (rest : bytes) (used : list bytes) (channels : list (bytes * bytes)) :
  Forall2 (channel_fits p_header) used channels ->
  forall (before later : list bytes) (acc : list bytes * list ndarray),
    sonar_info file_header = Some (before ++ used ++ later) ->
    for_each
      (map (fun k => 0 + Z.of_nat k) (seq (length before) (length channels)))
      (ping_channel PyStream file_header p_header) acc
      (flat_map channel_bytes channels ++ rest)
    = (Ok (fst acc ++ map fst channels,
           snd acc ++ decode_channels used channels), rest).
Proof.
  induction 1 as [| chan channel used channels Hfits _ IH];
    intros before later acc Hinfo.
  - cbn. unfold ret. now rewrite !app_nil_r, <- surjective_pairing.
  - cbn [length seq map flat_map for_each]. rewrite <- app_assoc.
    assert (Hnth : nth_error (before ++ (chan :: used) ++ later)
                     (length before) = Some chan).
    { rewrite nth_error_app2, Nat.sub_diag by lia. reflexivity. }
    rewrite (bind_ok _ _ _ _ _
               (ping_channel_decodes file_header _ chan p_header channel _
                  (length before) acc Hinfo Hnth Hfits)).
    replace (S (length before)) with (length (before ++ [chan]))
      by (rewrite length_app; cbn; lia).
    rewrite (IH (before ++ [chan]) later).
    + cbn [fst snd]. unfold decode_channels. cbn [combine map fst snd].
      now rewrite <- !app_assoc.
    + rewrite Hinfo. now rewrite <- !app_assoc.
Qed.

Lemma decode_samples_length (samples : bytes) (dtype n : Z) :
  0 < dtype -> 0 <= n ->
  Z.of_nat (length samples) = n * dtype ->
  Z.of_nat (length (items (decode_samples dtype samples))) = n.
Proof.
  intros Hd Hn Hlen. unfold decode_samples. cbn [items].
  rewrite length_map.
  rewrite (length_chunks (Z.to_nat dtype) (Z.to_nat n)); [lia | lia | | nia].
  apply Nat2Z.inj. rewrite Nat2Z.inj_mul, !Z2Nat.id by lia. exact Hlen.
Qed.

(** The array at position [i] is decoded from the samples of channel [i]
    with the descriptor at position [i]. *)
Lemma decode_channels_nth (p_header : bytes) (used : list bytes)
  (channels : list (bytes * bytes)) :
  Forall2 (channel_fits p_header) used channels ->
  forall (i : nat) (channel : bytes * bytes),
    nth_error channels i = Some channel ->
    exists chan,
      nth_error used i = Some chan
      /\ channel_fits p_header chan channel
      /\ nth_error (decode_channels used channels) i
         = Some (decode_samples (field XTFChanInfo "BytesPerSample" chan)
                   (snd channel)).
Proof.
  induction 1 as [| chan0 channel0 used channels Hfit _ IH];
    intros i channel Hnth.
  - destruct i; discriminate.
  - destruct i as [| i].
    + injection Hnth as <-. exists chan0.
      split; [reflexivity |]. split; [exact Hfit | reflexivity].
    + destruct (IH i channel Hnth) as (chan & Hchan & Hfits & Harr).
      exists chan. split; [exact Hchan |]. split; [exact Hfits | exact Harr].
Qed.

(** C4. A sonar ping decoded by [XTFPingHeader(buffer, file_header)]: the
    sub-header at position [i] of the stream is bound to the descriptor at
    the same position [i] of [file_header.sonar_info]. Its sample count is
    its own [NumSamples] when that is greater than 0, whatever the old count
    of the descriptor is, and the old field [Reserved] of [sonar_info[i]]
    otherwise; the decoder takes that many samples of the [BytesPerSample] of
    [sonar_info[i]] from the stream, and the array at position [i] of [data]
    has exactly that many items of that size. *)
Theorem sample_count_resolution (file_header : XTFFileHeader_obj)
  (used later : list bytes) (hdr rest : bytes)
  (channels : list (bytes * bytes)) :
  length hdr = sizeof XTFPingHeader ->
  field XTFPingHeader "MagicNumber" hdr = 0xFACE ->
  field XTFPingHeader "HeaderType" hdr = XTFHeaderType.sonar ->
  field XTFPingHeader "NumChansToFollow" hdr = Z.of_nat (length channels) ->
  sonar_info file_header = Some (used ++ later) ->
  Forall2 (channel_fits hdr) used channels ->
  exists arrays,
    XTFPingHeader_call PyStream (Some file_header)
      (hdr ++ flat_map channel_bytes channels ++ rest)
    = (Ok {| ph_raw := hdr;
             ping_chan_headers := map fst channels;
             data := DataList arrays |},
       rest)
    /\ forall (i : nat) (sub samples : bytes),
         nth_error channels i = Some (sub, samples) ->
         exists chan arr,
           nth_error (used ++ later) i = Some chan
           /\ nth_error arrays i = Some arr
           /\ let NumSamples := field XTFPingChanHeader "NumSamples" sub in
              let n_samples :=
                if NumSamples >? 0 then NumSamples
                else field XTFChanInfo "Reserved" chan in
              let BytesPerSample := field XTFChanInfo "BytesPerSample" chan in
              n_samples_of file_header sub (Z.of_nat i) = Ok n_samples
              /\ Z.of_nat (length samples) = n_samples * BytesPerSample
              /\ Z.of_nat (length (items arr)) = n_samples
              /\ itemsize arr = BytesPerSample.
Proof.
  intros Hlen Hmagic Htype Hcount Hinfo Hfits.
  exists (decode_channels used channels). split.
  - rewrite XTFPingHeader_call_stream by assumption.
    cbv zeta. rewrite Htype, Hcount.
    change (XTFHeaderType.sonar =? XTFHeaderType.sonar) with true. cbv iota.
    unfold py_range. rewrite Z.sub_0_r, Nat2Z.id.
    rewrite bind_bind.
    rewrite (bind_ok _ _ _ _ _
               (for_each_channels file_header hdr rest used channels Hfits
                  [] later ([], []) Hinfo)).
    unfold bind, ret, lift, XTFPingHeader_init, XTFPacketStart_init.
    cbn [truthy fst snd app ph_raw ping_chan_headers data rbind].
    rewrite Hmagic. reflexivity.
  - intros i sub samples Hnth.
    destruct (decode_channels_nth hdr used channels Hfits i _ Hnth)
      as (chan & Hchan & (Hsub & Hdtype & Hpos & Hbound & Hsamples) & Harr).
    cbn [fst snd] in *. unfold resolved_samples in *.
    assert (Hget : nth_error (used ++ later) i = Some chan).
    { rewrite nth_error_app1; [exact Hchan |].
      apply nth_error_Some. congruence. }
    exists chan,
      (decode_samples (field XTFChanInfo "BytesPerSample" chan) samples).
    split; [exact Hget |]. split; [exact Harr |]. cbv zeta.
    pose proof (xtf_dtype_positive _ Hdtype) as Hwidth.
    repeat split.
    + unfold n_samples_of.
      destruct (field XTFPingChanHeader "NumSamples" sub >? 0);
        [reflexivity |].
      rewrite Hinfo. cbn [getattr_opt rbind].
      now rewrite (list_getitem_nth _ _ _ Hget).
    + exact Hsamples.
    + apply decode_samples_length; [exact Hwidth | lia | exact Hsamples].
Qed.

Lemma sample_count_resolution_witness :
  XTFFileHeader_call PyStream Examples.header_mixed_widths_raw
  = (Ok Examples.header_mixed_widths, [])
  /\ Forall2 (channel_fits (Examples.ping_header XTFHeaderType.sonar 2 400))
       [Examples.chan_info XTFChannelType.port 2 3;
        Examples.chan_info XTFChannelType.stbd 1 7]
       [(Examples.ping_chan_header 5, Examples.payload 10);
        (Examples.ping_chan_header 0, Examples.payload 7)]
  /\ exists arrays,
       XTFPingHeader_call PyStream (Some Examples.header_mixed_widths)
         Examples.ping_mixed_stream
       = (Ok {| ph_raw := Examples.ping_header XTFHeaderType.sonar 2 400;
                ping_chan_headers :=
                  [Examples.ping_chan_header 5; Examples.ping_chan_header 0];
                data := DataList arrays |},
          Examples.payload 3)
       /\ (exists arr,
             nth_error arrays 0 = Some arr
             /\ Z.of_nat (length (items arr)) = 5 /\ itemsize arr = 2)
       /\ (exists arr,
             nth_error arrays 1 = Some arr
             /\ Z.of_nat (length (items arr)) = 7 /\ itemsize arr = 1).
Proof.
  assert (Hfit0 : channel_fits
                    (Examples.ping_header XTFHeaderType.sonar 2 400)
                    (Examples.chan_info XTFChannelType.port 2 3)
                    (Examples.ping_chan_header 5, Examples.payload 10)).
  { repeat split; vm_compute; congruence. }
  assert (Hfit1 : channel_fits
                    (Examples.ping_header XTFHeaderType.sonar 2 400)
                    (Examples.chan_info XTFChannelType.stbd 1 7)
                    (Examples.ping_chan_header 0, Examples.payload 7)).
  { repeat split; vm_compute; congruence. }
  assert (Hall : Forall2
                   (channel_fits
                      (Examples.ping_header XTFHeaderType.sonar 2 400))
                   [Examples.chan_info XTFChannelType.port 2 3;
                    Examples.chan_info XTFChannelType.stbd 1 7]
                   [(Examples.ping_chan_header 5, Examples.payload 10);
                    (Examples.ping_chan_header 0, Examples.payload 7)])
    by (apply Forall2_cons;
        [exact Hfit0 | apply Forall2_cons; [exact Hfit1 | apply Forall2_nil]]).
  split; [reflexivity |]. split; [exact Hall |].
  destruct (sample_count_resolution Examples.header_mixed_widths
              [Examples.chan_info XTFChannelType.port 2 3;
               Examples.chan_info XTFChannelType.stbd 1 7] []
              (Examples.ping_header XTFHeaderType.sonar 2 400)
              (Examples.payload 3)
              [(Examples.ping_chan_header 5, Examples.payload 10);
               (Examples.ping_chan_header 0, Examples.payload 7)]
              eq_refl eq_refl eq_refl eq_refl eq_refl Hall)
    as (arrays & Hcall & Hchannels).
  exists arrays. split; [exact Hcall |]. split.
  - destruct (Hchannels 0%nat _ _ eq_refl)
      as (chan & arr & Hchan & Harr & _ & _ & Hitems & Hsize).
    injection Hchan as <-.
    exists arr. split; [exact Harr |]. split; [exact Hitems | exact Hsize].
  - destruct (Hchannels 1%nat _ _ eq_refl)
      as (chan & arr & Hchan & Harr & _ & _ & Hitems & Hsize).
    injection Hchan as <-.
    exists arr. split; [exact Harr |]. split; [exact Hitems | exact Hsize].
Defined.

Example legacy_and_explicit_sample_counts :
  (exists p,
     XTFPingHeader_call PyStream (Some Examples.header_2ch)
       Examples.ping_legacy_stream = (Ok p, [])
     /\ data p = DataList [ {| itemsize := 2; items := [257; 257; 257] |} ])
  /\ (exists p,
        XTFPingHeader_call PyStream (Some Examples.header_2ch)
          Examples.ping_5_stream = (Ok p, [])
        /\ data p
           = DataList
               [ {| itemsize := 2; items := [257; 257; 257; 257; 257] |} ]).
Proof.
  split; eexists; (split; [vm_compute; reflexivity | reflexivity]).
Qed.

(** C3 (amended). A processed bathymetry record ([HeaderType] bathy_xyza)
    whose payload block of [n = NumBytesThisRecord - 256 > 0] bytes is in the
    stream is decoded for every [n]: the block is read whole, the first
    [n // 31] beam records of 31 bytes are copied out of it, and the
    [n mod 31] bytes left at its end are dropped without any error. *)
Theorem xyza_block_floor (file_header : XTFFileHeader_obj)
  (hdr block rest : bytes) (n : Z) :
  length hdr = sizeof XTFPingHeader ->
  field XTFPingHeader "MagicNumber" hdr = 0xFACE ->
  field XTFPingHeader "HeaderType" hdr = XTFHeaderType.bathy_xyza ->
  field XTFPingHeader "NumBytesThisRecord" hdr
  = Z.of_nat (sizeof XTFPingHeader) + n ->
  0 < n ->
  Z.of_nat (length block) = n ->
  let beams :=
    chunks (Z.to_nat (n / 31)) 31 (firstn (Z.to_nat (n / 31) * 31) block) in
  XTFPingHeader_call PyStream (Some file_header) (hdr ++ block ++ rest)
  = (Ok {| ph_raw := hdr; ping_chan_headers := []; data := DataXYZA beams |},
     rest)
  /\ Z.of_nat (length beams) = n / 31.
Proof.
  intros Hlen Hmagic Htype Hrecord Hn Hblock beams.
  assert (Hdiv : 0 <= n / 31) by (apply Z.div_pos; lia).
  assert (Hfloor : 31 * (n / 31) <= n)
    by (apply Z.mul_div_le; lia).
  split.
  - rewrite XTFPingHeader_call_stream by assumption.
    cbv zeta. rewrite Htype, Hrecord.
    change (XTFHeaderType.bathy_xyza =? XTFHeaderType.sonar) with false.
    change (py_in XTFHeaderType.bathy_xyza _bathy_header_types) with true.
    change (XTFHeaderType.bathy_xyza =? XTFHeaderType.bathy_xyza) with true.
    cbv iota.
    replace (Z.of_nat (sizeof XTFPingHeader) + n
             - Z.of_nat (sizeof XTFPingHeader)) with n by lia.
    rewrite bind_bind. cbn [buffer_read].
    assert (Hread : BytesIO_read n (block ++ rest) = (Ok block, rest)).
    { rewrite <- Hblock. now apply BytesIO_read_app. }
    rewrite (bind_ok _ _ _ _ _ Hread).
    destruct (Nat.eqb_spec (length block) 0); [lia |].
    unfold xyza_array.
    change (Z.of_nat (sizeof XTFBeamXYZA)) with 31.
    change (sizeof XTFBeamXYZA) with 31%nat.
    destruct (Z.ltb_spec (n / 31) 0); [lia |].
    unfold from_buffer_copy.
    destruct (Nat.ltb_spec (length block) (Z.to_nat (n / 31) * 31));
      [lia |].
    unfold bind, lift, ret, XTFPingHeader_init, XTFPacketStart_init.
    cbn [rbind truthy ph_raw ping_chan_headers data].
    rewrite Hmagic. reflexivity.
  - subst beams. rewrite (length_chunks 31 (Z.to_nat (n / 31))); try lia.
    rewrite length_firstn. lia.
Qed.

Lemma xyza_block_floor_witness :
  length (Examples.ping_header XTFHeaderType.bathy_xyza 0 (256 + 32))
  = sizeof XTFPingHeader
  /\ 0 < 32
  /\ 32 mod 31 = 1
  /\ exists beam,
       XTFPingHeader_call PyStream (Some Examples.header_2ch)
         (Examples.ping_header XTFHeaderType.bathy_xyza 0 (256 + 32)
            ++ Examples.payload 32 ++ [x07])
       = (Ok {| ph_raw :=
                  Examples.ping_header XTFHeaderType.bathy_xyza 0 (256 + 32);
                ping_chan_headers := [];
                data := DataXYZA [beam] |},
          [x07]).
Proof.
  split; [reflexivity |]. split; [lia |]. split; [reflexivity |].
  exists (Examples.payload 31).
  apply (xyza_block_floor Examples.header_2ch
           (Examples.ping_header XTFHeaderType.bathy_xyza 0 (256 + 32))
           (Examples.payload 32) [x07] 32);
    first [reflexivity | lia].
Defined.

(** C3 as stated fails: a processed bathymetry record whose block of 32
    bytes is not a multiple of the 31 bytes of a beam record is decoded
    without an error, into one beam record. *)
Lemma xyza_remainder_ignored :
  field XTFPingHeader "NumBytesThisRecord"
    (firstn 256 Examples.xyza_32_stream) - Z.of_nat (sizeof XTFPingHeader)
  = 32
  /\ 32 mod Z.of_nat (sizeof XTFBeamXYZA) <> 0
  /\ exists p,
       XTFPingHeader_call PyStream (Some Examples.header_2ch)
         Examples.xyza_32_stream = (Ok p, [])
       /\ data p = DataXYZA [Examples.payload 31].
Proof.
  split; [reflexivity |]. split; [vm_compute; discriminate |].
  eexists. split; [vm_compute; reflexivity | reflexivity].
Qed.

(** * Further properties of the module *)

(** ** Structures built by [XTFBase.__new__] *)

Lemma from_buffer_copy_length (size : nat) (header_bytes raw : bytes) :
  from_buffer_copy size header_bytes = Ok raw -> length raw = size.
Proof.
  unfold from_buffer_copy.
  destruct (Nat.ltb_spec (length header_bytes) size) as [Hlt | Hge];
    [discriminate |].
  intros Heq. injection Heq as <-. rewrite length_firstn. lia.
Qed.

Lemma XTFBase_new_length (cls : ctypes_class) (buffer : pybuffer)
  (s raw s' : bytes) :
  XTFBase_new cls buffer s = (Ok raw, s') -> length raw = sizeof cls.
Proof.
  unfold XTFBase_new, bind.
  destruct (truthy buffer).
  - match goal with
    | |- context [let (_, _) := ?c s in _] =>
        destruct (c s) as [[header_bytes | e] s0]; [| discriminate]
    end.
    destruct (length header_bytes =? 0)%nat; [discriminate |].
    unfold lift. intros Heq.
    destruct (from_buffer_copy (sizeof cls) header_bytes)
      as [raw0 | e] eqn:Hcopy; [| discriminate].
    injection Heq as <- _. exact (from_buffer_copy_length _ _ _ Hcopy).
  - unfold ret. intros Heq. injection Heq as <- _. apply repeat_length.
Qed.

(** Every structure [XTFBase.__new__] returns has exactly the size of its
    class. From a stream it is the prefix that was removed from the stream;
    a bytes object or [None] leaves the stream as it was, the structure being
    the first bytes of the object, or zero filled when the object is empty or
    there is no buffer. *)
Theorem XTFBase_new_result (cls : ctypes_class) (buffer : pybuffer)
  (s raw s' : bytes) :
  XTFBase_new cls buffer s = (Ok raw, s') ->
  length raw = sizeof cls
  /\ match buffer with
     | PyStream => s = raw ++ s'
     | PyBytes b =>
         s' = s
         /\ raw = if Nat.eqb (length b) 0 then repeat x00 (sizeof cls)
                  else firstn (sizeof cls) b
     | PyNone => s' = s /\ raw = repeat x00 (sizeof cls)
     end.
Proof.
  unfold XTFBase_new, bind. destruct buffer as [| b |]; cbn [truthy].
  - unfold ret. intros Heq. injection Heq as <- <-.
    rewrite repeat_length. repeat split.
  - destruct (Nat.eqb_spec (length b) 0) as [H0 | Hne]; cbn [negb].
    + unfold ret. intros Heq. injection Heq as <- <-.
      rewrite repeat_length. repeat split.
    + unfold lift at 1. unfold BytesIO_read.
      destruct (Z.ltb_spec (Z.of_nat (sizeof cls)) 0); [lia |]. cbn [fst].
      rewrite Nat2Z.id.
      destruct (length (firstn (sizeof cls) b) =? 0)%nat;
        [unfold raise; discriminate |].
      unfold lift, from_buffer_copy.
      destruct (Nat.ltb_spec (length (firstn (sizeof cls) b)) (sizeof cls))
        as [Hlt | Hge]; [discriminate |].
      intros Heq. injection Heq as <- <-.
      rewrite firstn_firstn, Nat.min_id.
      rewrite length_firstn in *. repeat split. lia.
  - cbn [buffer_read]. unfold BytesIO_read.
    destruct (Z.ltb_spec (Z.of_nat (sizeof cls)) 0); [lia |].
    rewrite Nat2Z.id.
    destruct (length (firstn (sizeof cls) s) =? 0)%nat;
      [unfold raise; discriminate |].
    unfold lift, from_buffer_copy.
    destruct (Nat.ltb_spec (length (firstn (sizeof cls) s)) (sizeof cls))
      as [Hlt | Hge]; [discriminate |].
    intros Heq. injection Heq as <- <-.
    rewrite firstn_firstn, Nat.min_id.
    rewrite length_firstn in *. split; [lia |].
    symmetry. apply firstn_skipn.
Qed.

Lemma XTFBase_new_result_witness :
  XTFBase_new XTFPacketStart PyStream (Examples.preamble 0xFACE ++ [x07])
  = (Ok (Examples.preamble 0xFACE), [x07])
  /\ length (Examples.preamble 0xFACE) = sizeof XTFPacketStart
  /\ Examples.preamble 0xFACE ++ [x07] = Examples.preamble 0xFACE ++ [x07].
Proof.
  split; [reflexivity |].
  exact (XTFBase_new_result XTFPacketStart PyStream
           (Examples.preamble 0xFACE ++ [x07]) (Examples.preamble 0xFACE)
           [x07] eq_refl).
Defined.

(** Whatever its outcome, [XTFBase.__new__] takes at most [sizeof(cls)] bytes
    from the stream and leaves a suffix of it; with a bytes object or without
    a buffer the stream is not touched. *)
Theorem XTFBase_new_takes_at_most_its_size (cls : ctypes_class)
  (buffer : pybuffer) (s : bytes) :
  (exists got,
     s = got ++ snd (XTFBase_new cls buffer s)
     /\ (length got <= sizeof cls)%nat)
  /\ 0 <= consumed s (snd (XTFBase_new cls buffer s)) <= Z.of_nat (sizeof cls)
  /\ (buffer <> PyStream -> snd (XTFBase_new cls buffer s) = s).
Proof.
  destruct (XTFBase_new_consumed cls buffer s) as (got & Hs & Hlen).
  split; [exists got; split; assumption |]. split.
  - pose proof (f_equal (@length byte) Hs) as Hl.
    rewrite length_app in Hl. unfold consumed. lia.
  - intros Hbuf. unfold XTFBase_new, bind.
    destruct buffer as [| b |]; cbn [truthy]; [reflexivity | | congruence].
    destruct (negb (length b =? 0)%nat); [| reflexivity].
    unfold lift at 1.
    destruct (fst (BytesIO_read (Z.of_nat (sizeof cls)) b)) as [hb | e];
      [| reflexivity].
    destruct (length hb =? 0)%nat; reflexivity.
Qed.

Lemma XTFBase_new_takes_at_most_its_size_witness :
  PyBytes (Examples.preamble 0xFACE) <> PyStream
  /\ snd (XTFBase_new XTFPacketStart (PyBytes (Examples.preamble 0xFACE))
            [x07; x08])
     = [x07; x08].
Proof.
  assert (Hbuf : PyBytes (Examples.preamble 0xFACE) <> PyStream)
    by discriminate.
  split; [exact Hbuf |].
  exact (proj2 (proj2 (XTFBase_new_takes_at_most_its_size XTFPacketStart
                         (PyBytes (Examples.preamble 0xFACE)) [x07; x08]))
           Hbuf).
Defined.

(** Two structures decoded one after the other: a stream yields consecutive
    structures, a bytes object yields its first structure twice (each call
    wraps the object in a new [BytesIO]). *)
Theorem XTFBase_new_twice (cls : ctypes_class) (first second rest s : bytes) :
  length first = sizeof cls -> length second = sizeof cls ->
  (0 < sizeof cls)%nat ->
  (a <- XTFBase_new cls PyStream ;;
   b <- XTFBase_new cls PyStream ;; ret (a, b)) (first ++ second ++ rest)
  = (Ok (first, second), rest)
  /\ (a <- XTFBase_new cls (PyBytes (first ++ second ++ rest)) ;;
      b <- XTFBase_new cls (PyBytes (first ++ second ++ rest)) ;;
      ret (a, b)) s
     = (Ok (first, first), s).
Proof.
  intros H1 H2 Hpos. split.
  - rewrite (bind_ok _ _ _ _ _ (XTFBase_new_stream_ok cls first _ H1 Hpos)).
    rewrite (bind_ok _ _ _ _ _ (XTFBase_new_stream_ok cls second _ H2 Hpos)).
    reflexivity.
  - rewrite (bind_ok _ _ _ _ _
               (XTFBase_new_bytes_ok cls first (second ++ rest) s H1 Hpos)).
    rewrite (bind_ok _ _ _ _ _
               (XTFBase_new_bytes_ok cls first (second ++ rest) s H1 Hpos)).
    reflexivity.
Qed.

Lemma XTFBase_new_twice_witness :
  length (Examples.preamble 0xFACE) = sizeof XTFPacketStart
  /\ length (Examples.preamble 0xCAFE) = sizeof XTFPacketStart
  /\ (0 < sizeof XTFPacketStart)%nat
  /\ (a <- XTFBase_new XTFPacketStart PyStream ;;
      b <- XTFBase_new XTFPacketStart PyStream ;; ret (a, b))
       (Examples.preamble 0xFACE ++ Examples.preamble 0xCAFE ++ [])
     = (Ok (Examples.preamble 0xFACE, Examples.preamble 0xCAFE), []).
Proof.
  split; [reflexivity |]. split; [reflexivity |].
  split; [vm_compute; lia |].
  apply (XTFBase_new_twice XTFPacketStart (Examples.preamble 0xFACE)
           (Examples.preamble 0xCAFE) [] []); try reflexivity.
  vm_compute; lia.
Defined.

(** ** Reading and writing structure fields *)

Lemma field_lookup_bounds (name : string) (flds : list (string * ctype))
  (off o : nat) (t : ctype) :
  field_lookup name flds off = Some (o, t) ->
  (off <= o /\ o + ctypes_sizeof t <= off + fields_size flds)%nat.
Proof.
  revert off. induction flds as [| [f t'] flds IH]; intros off; cbn.
  - discriminate.
  - destruct (String.eqb f name).
    + intros H. injection H as <- <-. lia.
    + intros H. apply IH in H. lia.
Qed.

Lemma field_lookup_disjoint (n1 n2 : string) (flds : list (string * ctype))
  (off o1 o2 : nat) (t1 t2 : ctype) :
  n1 <> n2 ->
  field_lookup n1 flds off = Some (o1, t1) ->
  field_lookup n2 flds off = Some (o2, t2) ->
  (o1 + ctypes_sizeof t1 <= o2 \/ o2 + ctypes_sizeof t2 <= o1)%nat.
Proof.
  intros Hne. revert off.
  induction flds as [| [f t'] flds IH]; intros off; cbn.
  - discriminate.
  - destruct (String.eqb_spec f n1) as [-> | Hf1];
      destruct (String.eqb_spec n1 n2) as [-> | _]; try congruence.
    + destruct (String.eqb_spec n1 n2); [congruence |].
      intros H1 H2. injection H1 as <- <-.
      apply field_lookup_bounds in H2. lia.
    + destruct (String.eqb_spec f n2) as [-> | Hf2].
      * intros H1 H2. injection H2 as <- <-.
        apply field_lookup_bounds in H1. lia.
      * apply IH.
Qed.

Lemma length_set_slice (off len : nat) (new raw : bytes) :
  (off + len <= length raw)%nat ->
  length (set_slice off len new raw) = length raw.
Proof.
  intros Hlen. unfold set_slice.
  rewrite !length_app, !length_firstn, length_skipn, length_app,
    repeat_length. lia.
Qed.

Lemma slice_set_slice_same (off len : nat) (new raw : bytes) :
  (off + len <= length raw)%nat ->
  slice off len (set_slice off len new raw)
  = firstn len (new ++ repeat x00 len).
Proof.
  intros Hlen. unfold slice, set_slice.
  assert (Hoff : length (firstn off raw) = off)
    by (rewrite length_firstn; lia).
  assert (Hnew : length (firstn len (new ++ repeat x00 len)) = len)
    by (rewrite length_firstn, length_app, repeat_length; lia).
  rewrite skipn_app, Hoff, Nat.sub_diag, skipn_O.
  rewrite (skipn_all2 (firstn off raw)) by lia. cbn [app].
  rewrite firstn_app, Hnew, Nat.sub_diag, firstn_O, app_nil_r.
  apply firstn_all2. lia.
Qed.

Lemma slice_app_front (off len : nat) (front back : bytes) :
  (off + len <= length front)%nat ->
  slice off len (front ++ back) = slice off len front.
Proof.
  intros Hlen. unfold slice.
  rewrite skipn_app, firstn_app, length_skipn.
  replace (len - (length front - off))%nat with 0%nat by lia.
  rewrite firstn_O. apply app_nil_r.
Qed.

Lemma slice_set_slice_other (o1 l1 o2 l2 : nat) (new raw : bytes) :
  (o1 + l1 <= length raw)%nat ->
  (o1 + l1 <= o2 \/ o2 + l2 <= o1)%nat ->
  slice o2 l2 (set_slice o1 l1 new raw) = slice o2 l2 raw.
Proof.
  intros Hlen Hdisj. unfold slice, set_slice.
  set (mid := firstn l1 (new ++ repeat x00 l1)).
  assert (Hoff : length (firstn o1 raw) = o1)
    by (rewrite length_firstn; lia).
  assert (Hmid : length mid = l1)
    by (subst mid; rewrite length_firstn, length_app, repeat_length; lia).
  destruct Hdisj as [Hafter | Hbefore].
  - rewrite !skipn_app, Hoff, Hmid.
    rewrite (skipn_all2 (firstn o1 raw)), (skipn_all2 mid) by lia.
    cbn [app]. rewrite skipn_skipn. do 2 f_equal. lia.
  - fold (slice o2 l2 (firstn o1 raw ++ mid ++ skipn (o1 + l1) raw)).
    fold (slice o2 l2 raw).
    rewrite slice_app_front by lia.
    rewrite <- (firstn_skipn o1 raw) at 2.
    now rewrite slice_app_front by lia.
Qed.

Lemma length_le_encode (w : nat) (z : Z) : length (le_encode w z) = w.
Proof.
  revert z. induction w as [| w IH]; intros z; cbn; [| rewrite IH];
    reflexivity.
Qed.

Lemma le_uint_le_encode (w : nat) (z : Z) :
  le_uint (le_encode w z) = z mod 256 ^ Z.of_nat w.
Proof.
  revert z. induction w as [| w IH]; intros z.
  - cbn. now rewrite Z.mod_1_r.
  - cbn [le_encode le_uint]. rewrite IH, byte_to_Z_of_Z.
    rewrite Nat2Z.inj_succ, Z.pow_succ_r by lia.
    rewrite (Z.rem_mul_r z 256 (256 ^ Z.of_nat w)) by lia.
    reflexivity.
Qed.

(** Reading an unsigned integer field after assigning it gives the assigned
    value modulo the range of the field. *)
Lemma field_setattr_int_same (cls : ctypes_class) (raw : bytes)
  (name : string) (off : nat) (t : ctype) (v : Z) :
  field_lookup name (_fields_ cls) 0 = Some (off, t) ->
  t = c_uint8 \/ t = c_uint16 \/ t = c_uint32 ->
  length raw = sizeof cls ->
  field cls name (setattr_int cls raw name v)
  = v mod 256 ^ Z.of_nat (ctypes_sizeof t).
Proof.
  intros Hlook Ht Hlen.
  pose proof (field_lookup_bounds _ _ _ _ _ Hlook) as Hb.
  unfold field, getint, getattr, setattr_int, setattr_bytes.
  rewrite Hlook. cbn [rbind].
  rewrite slice_set_slice_same by (unfold sizeof in Hlen; lia).
  rewrite firstn_app, length_le_encode, Nat.sub_diag, firstn_O, app_nil_r.
  rewrite firstn_all2 by (rewrite length_le_encode; lia).
  destruct Ht as [-> | [-> | ->]]; cbn [field_value];
    apply le_uint_le_encode.
Qed.

(** Assigning a field changes no other field, and not the size. *)
Lemma field_setattr_int_other (cls : ctypes_class) (raw : bytes)
  (name other : string) (v : Z) :
  name <> other ->
  length raw = sizeof cls ->
  field cls other (setattr_int cls raw name v) = field cls other raw
  /\ length (setattr_int cls raw name v) = length raw.
Proof.
  intros Hne Hlen. unfold setattr_int, setattr_bytes.
  destruct (field_lookup name (_fields_ cls) 0) as [[o1 t1] |] eqn:H1;
    [| split; reflexivity].
  pose proof (field_lookup_bounds _ _ _ _ _ H1) as Hb1.
  split; [| apply length_set_slice; unfold sizeof in Hlen; lia].
  unfold field, getint, getattr.
  destruct (field_lookup other (_fields_ cls) 0) as [[o2 t2] |] eqn:H2;
    [| reflexivity].
  rewrite slice_set_slice_other; [reflexivity | |].
  - unfold sizeof in Hlen. lia.
  - exact (field_lookup_disjoint _ _ _ _ _ _ _ _ Hne H1 H2).
Qed.

(** Assigning an integer field changes the value of no other attribute,
    whatever its type. *)
Lemma getattr_setattr_int_other (cls : ctypes_class) (raw : bytes)
  (name other : string) (v : Z) :
  name <> other ->
  length raw = sizeof cls ->
  getattr cls (setattr_int cls raw name v) other = getattr cls raw other.
Proof.
  intros Hne Hlen. unfold setattr_int, setattr_bytes.
  destruct (field_lookup name (_fields_ cls) 0) as [[o1 t1] |] eqn:H1;
    [| reflexivity].
  pose proof (field_lookup_bounds _ _ _ _ _ H1) as Hb1.
  unfold getattr.
  destruct (field_lookup other (_fields_ cls) 0) as [[o2 t2] |] eqn:H2;
    [| reflexivity].
  rewrite slice_set_slice_other; [reflexivity | |].
  - unfold sizeof in Hlen. lia.
  - exact (field_lookup_disjoint _ _ _ _ _ _ _ _ Hne H1 H2).
Qed.

(** [SerialPort] of a raw serial header is its [SubChannelNumber] byte:
    reading it after the setter gives the value modulo 256, and it is the
    byte at offset 3. The setter changes nothing else: not the size of the
    structure, none of the bytes before and after offset 3, and so the value
    of no other attribute, integer or array. *)
Theorem SerialPort_round_trip (self : bytes) (value : Z) :
  length self = sizeof XTFRawSerialHeader ->
  SerialPort (SerialPort_setter self value) = value mod 256
  /\ SerialPort self = le_uint (slice 3 1 self)
  /\ length (SerialPort_setter self value) = sizeof XTFRawSerialHeader
  /\ (forall other,
        other <> "SubChannelNumber" ->
        field XTFRawSerialHeader other (SerialPort_setter self value)
        = field XTFRawSerialHeader other self)
  /\ firstn 3 (SerialPort_setter self value) = firstn 3 self
  /\ skipn 4 (SerialPort_setter self value) = skipn 4 self
  /\ (forall other,
        other <> "SubChannelNumber" ->
        getattr XTFRawSerialHeader (SerialPort_setter self value) other
        = getattr XTFRawSerialHeader self other).
Proof.
  intros Hlen. unfold SerialPort, SerialPort_setter.
  assert (Hlen30 : length self = 30%nat) by exact Hlen.
  split.
  { apply (field_setattr_int_same XTFRawSerialHeader self "SubChannelNumber"
             3 c_uint8 value eq_refl); [tauto | assumption]. }
  split; [reflexivity |]. split.
  { rewrite <- Hlen.
    apply (field_setattr_int_other XTFRawSerialHeader self "SubChannelNumber"
             "MagicNumber" value); [discriminate | assumption]. }
  split.
  { intros other Hne.
    apply (field_setattr_int_other XTFRawSerialHeader self "SubChannelNumber"
             other value); [congruence | assumption]. }
  split.
  { change (setattr_int XTFRawSerialHeader self "SubChannelNumber" value)
      with (set_slice 3 1 (le_encode 1 value) self).
    unfold set_slice. rewrite firstn_app, firstn_firstn, length_firstn.
    replace (3 - Nat.min 3 (length self))%nat with 0%nat by lia.
    cbn [Nat.min firstn]. apply app_nil_r. }
  split.
  { change (setattr_int XTFRawSerialHeader self "SubChannelNumber" value)
      with (set_slice 3 1 (le_encode 1 value) self).
    unfold set_slice. rewrite app_assoc, skipn_app.
    rewrite skipn_all2
      by (rewrite length_app, !length_firstn, length_app, length_le_encode;
          cbn [repeat length]; lia).
    rewrite length_app, !length_firstn, length_app, length_le_encode.
    cbn [repeat length app].
    replace (4 - (Nat.min 3 (length self) + Nat.min 1 (1 + 1)))%nat
      with 0%nat by lia.
    reflexivity. }
  intros other Hne.
  apply getattr_setattr_int_other; [congruence | assumption].
Qed.

Lemma SerialPort_round_trip_witness :
  length (firstn 30 Examples.raw_serial_stream) = sizeof XTFRawSerialHeader
  /\ SerialPort (SerialPort_setter (firstn 30 Examples.raw_serial_stream) 300)
     = 44
  /\ field XTFRawSerialHeader "StringSize"
       (SerialPort_setter (firstn 30 Examples.raw_serial_stream) 300) = 3
  /\ getattr XTFRawSerialHeader
       (SerialPort_setter (firstn 30 Examples.raw_serial_stream) 300)
       "Reserved1"
     = getattr XTFRawSerialHeader (firstn 30 Examples.raw_serial_stream)
         "Reserved1".
Proof.
  split; [reflexivity |].
  destruct (SerialPort_round_trip (firstn 30 Examples.raw_serial_stream) 300
              eq_refl) as (Hget & _ & _ & Hother & _ & _ & Hattr).
  split; [exact Hget |]. split.
  - rewrite (Hother "StringSize"); [reflexivity | discriminate].
  - apply Hattr. discriminate.
Defined.

(** ** The packets without a variable part *)

(** Decoding a packet of one of the eight fixed-size packet classes from a
    stream that holds its bytes: the structure is returned when its first two
    bytes are the magic number 0xFACE, the identifier [RuntimeError] is
    raised otherwise; in both cases exactly the bytes of the structure have
    been taken from the stream. Nothing else is checked: in particular not
    that the header type of the bytes is the one of the class. *)
Theorem fixed_packet_decode (cls : ctypes_class) (header_type : Z)
  (init : pybuffer -> bytes -> result bytes) (hdr rest : bytes) :
  In (cls, header_type, init) fixed_packets ->
  length hdr = sizeof cls ->
  construct cls init PyStream (hdr ++ rest)
  = (if le_uint (firstn 2 hdr) =? 0xFACE then Ok hdr else Raise bad_magic,
     rest).
Proof.
  intros Hin Hlen. unfold fixed_packets in Hin. cbn [In] in Hin.
  repeat destruct Hin as [Hin | Hin]; try contradiction;
    injection Hin as <- <- <-;
    unfold construct;
    rewrite (bind_ok _ _ _ _ _
               (XTFBase_new_stream_ok _ hdr rest Hlen
                  ltac:(vm_compute; lia)));
    unfold lift, XTFAttitudeData_init, XTFNotesHeader_init,
      XTFPosRawNavigation_init, XTFQPSSingleBeam_init,
      XTFHighSpeedSensor_init, XTFRawCustomHeader_init,
      XTFHeaderNavigation_init, XTFHeaderGyro_init,
      packet_start_subclass_init, own_magic_init, XTFPacketStart_init;
    cbn [truthy];
    match goal with
    | |- context [field ?c "MagicNumber" hdr] =>
        change (field c "MagicNumber" hdr) with (le_uint (firstn 2 hdr))
    end;
    destruct (le_uint (firstn 2 hdr) =? 0xFACE); reflexivity.
Qed.

Lemma fixed_packet_decode_witness :
  In (XTFNotesHeader, XTFHeaderType.notes, XTFNotesHeader_init) fixed_packets
  /\ length (with_fields XTFNotesHeader
               [("MagicNumber", 0xFACE);
                ("HeaderType", XTFHeaderType.attitude)])
     = sizeof XTFNotesHeader
  /\ construct XTFNotesHeader XTFNotesHeader_init PyStream
       (with_fields XTFNotesHeader
          [("MagicNumber", 0xFACE); ("HeaderType", XTFHeaderType.attitude)]
        ++ [x07])
     = (Ok (with_fields XTFNotesHeader
              [("MagicNumber", 0xFACE);
               ("HeaderType", XTFHeaderType.attitude)]),
        [x07]).
Proof.
  assert (Hin : In (XTFNotesHeader, XTFHeaderType.notes, XTFNotesHeader_init)
                  fixed_packets) by (right; left; reflexivity).
  split; [exact Hin |]. split; [reflexivity |].
  exact (fixed_packet_decode _ _ _
           (with_fields XTFNotesHeader
              [("MagicNumber", 0xFACE);
               ("HeaderType", XTFHeaderType.attitude)])
           [x07] Hin eq_refl).
Defined.

(** A packet of a fixed-size class built without a buffer carries the magic
    number and the header type of its class and is zero elsewhere; the table
    [XTFPacketClasses] maps that header type back to the class; and decoding
    the bytes of the new packet from a stream returns the same packet. An
    empty bytes object as buffer builds the same packet as no buffer. *)
Theorem fixed_packet_default_round_trip (cls : ctypes_class)
  (header_type : Z) (init : pybuffer -> bytes -> result bytes)
  (s rest : bytes) :
  In (cls, header_type, init) fixed_packets ->
  let new :=
    with_fields cls [("MagicNumber", 0xFACE); ("HeaderType", header_type)] in
  construct cls init PyNone s = (Ok new, s)
  /\ construct cls init (PyBytes []) s = (Ok new, s)
  /\ length new = sizeof cls
  /\ XTFPacketClasses header_type = Ok cls
  /\ construct cls init PyStream (new ++ rest) = (Ok new, rest).
Proof.
  intros Hin new. subst new. unfold fixed_packets in Hin. cbn [In] in Hin.
  repeat destruct Hin as [Hin | Hin]; try contradiction;
    injection Hin as <- <- <-;
    (split; [reflexivity |]); (split; [reflexivity |]);
    (split; [reflexivity |]); (split; [reflexivity |]);
    match goal with
    | |- construct ?c ?i PyStream (?n ++ rest) = _ =>
        unfold construct;
        rewrite (bind_ok _ _ _ _ _
                   (XTFBase_new_stream_ok c n rest eq_refl
                      ltac:(vm_compute; lia)))
    end;
    reflexivity.
Qed.

Lemma fixed_packet_default_round_trip_witness :
  In (XTFHeaderGyro, XTFHeaderType.gyro, XTFHeaderGyro_init) fixed_packets
  /\ field XTFHeaderGyro "HeaderType"
       (with_fields XTFHeaderGyro
          [("MagicNumber", 0xFACE); ("HeaderType", XTFHeaderType.gyro)]) = 23
  /\ construct XTFHeaderGyro XTFHeaderGyro_init PyNone []
     = (Ok (with_fields XTFHeaderGyro
              [("MagicNumber", 0xFACE); ("HeaderType", XTFHeaderType.gyro)]),
        []).
Proof.
  assert (Hin : In (XTFHeaderGyro, XTFHeaderType.gyro, XTFHeaderGyro_init)
                  fixed_packets) by (do 7 right; left; reflexivity).
  split; [exact Hin |]. split; [reflexivity |].
  exact (proj1 (fixed_packet_default_round_trip _ _ _ [] [] Hin)).
Defined.

(** The table routes exactly thirteen header types; every class it names
    for a header type is the ping header, the raw serial header or one of
    the fixed-size packets; any other header type is a missing key. *)
Theorem XTFPacketClasses_keys (header_type : Z) :
  (In header_type [0; 2; 17; 3; 1; 6; 107; 26; 199; 42; 23; 84; 15] ->
   exists cls,
     XTFPacketClasses header_type = Ok cls
     /\ (cls = XTFPingHeader \/ cls = XTFRawSerialHeader
         \/ exists tag init, In (cls, tag, init) fixed_packets))
  /\ (~ In header_type [0; 2; 17; 3; 1; 6; 107; 26; 199; 42; 23; 84; 15] ->
      XTFPacketClasses header_type = Raise KeyError).
Proof.
  split.
  - cbn [In]. intros Hin.
    repeat destruct Hin as [<- | Hin]; try contradiction;
      eexists; (split; [reflexivity |]);
      first [ left; reflexivity
            | right; left; reflexivity
            | right; right; do 2 eexists; cbn [fixed_packets In];
              first [ left; reflexivity
                    | right; left; reflexivity
                    | do 2 right; left; reflexivity
                    | do 3 right; left; reflexivity
                    | do 4 right; left; reflexivity
                    | do 5 right; left; reflexivity
                    | do 6 right; left; reflexivity
                    | do 7 right; left; reflexivity ] ].
  - cbn [In]. intros Hnot. unfold XTFPacketClasses.
    repeat match goal with
           | |- context [header_type =? ?v] =>
               destruct (Z.eqb_spec header_type v) as [-> | _];
               [exfalso; apply Hnot; cbv; tauto |]
           end.
    reflexivity.
Qed.

Lemma XTFPacketClasses_keys_witness :
  In 84 [0; 2; 17; 3; 1; 6; 107; 26; 199; 42; 23; 84; 15]
  /\ ~ In 74 [0; 2; 17; 3; 1; 6; 107; 26; 199; 42; 23; 84; 15]
  /\ XTFPacketClasses 74 = Raise KeyError
  /\ exists cls, XTFPacketClasses 84 = Ok cls.
Proof.
  assert (H84 : In 84 [0; 2; 17; 3; 1; 6; 107; 26; 199; 42; 23; 84; 15])
    by (cbn; tauto).
  assert (H74 : ~ In 74 [0; 2; 17; 3; 1; 6; 107; 26; 199; 42; 23; 84; 15])
    by (cbn; intros H; repeat destruct H as [H | H]; discriminate || exact H).
  split; [exact H84 |]. split; [exact H74 |]. split.
  - exact (proj2 (XTFPacketClasses_keys 74) H74).
  - destruct (proj1 (XTFPacketClasses_keys 84) H84) as (cls & Hcls & _).
    exists cls. exact Hcls.
Defined.

(** ** Structure sizes and snippet headers *)

(** The size assertions of the module all hold: each listed structure has
    the listed size, the fields being packed without padding; and the common
    packet start takes the first 14 bytes of every packet class that derives
    from it. *)
Theorem header_sizes_hold :
  (forall cls n, In (cls, n) header_sizes_main -> sizeof cls = n)
  /\ sizeof XTFPacketStart = 14%nat
  /\ (forall cls,
        In cls [XTFAttitudeData; XTFNotesHeader; XTFRawSerialHeader;
                XTFPingHeader; XTFPosRawNavigation; XTFQPSSingleBeam;
                XTFHighSpeedSensor] ->
        firstn 6 (_fields_ cls) = _fields_ XTFPacketStart).
Proof.
  split; [| split; [reflexivity |]].
  - intros cls n Hin. unfold header_sizes_main, header_sizes in Hin.
    cbn [app In] in Hin.
    repeat destruct Hin as [Hin | Hin]; try contradiction;
      injection Hin as <- <-; reflexivity.
  - intros cls Hin. cbn [In] in Hin.
    repeat destruct Hin as [<- | Hin]; try contradiction; reflexivity.
Qed.

Lemma header_sizes_hold_witness :
  In (SNP0, 74%nat) header_sizes_main /\ sizeof SNP0 = 74%nat.
Proof.
  assert (Hin : In (SNP0, 74%nat) header_sizes_main)
    by (unfold header_sizes_main; apply in_or_app; right; left; reflexivity).
  split; [exact Hin |]. exact (proj1 header_sizes_hold SNP0 74%nat Hin).
Defined.

(** A snippet header is accepted from a stream exactly when its first four
    bytes are the identifier of its kind in little-endian order ("0PNS" for
    SNP0, "1PNS" for SNP1); exactly its 74 or 24 bytes are taken; and no
    bytes are accepted as both kinds. *)
Theorem snippet_identifier_check (hdr rest : bytes) :
  (length hdr = sizeof SNP0 ->
   SNP0_call PyStream (hdr ++ rest)
   = (if le_uint (firstn 4 hdr) =? 0x534E5030 then Ok hdr
      else Raise bad_magic, rest))
  /\ (length hdr = sizeof SNP1 ->
      SNP1_call PyStream (hdr ++ rest)
      = (if le_uint (firstn 4 hdr) =? 0x534E5031 then Ok hdr
         else Raise bad_magic, rest))
  /\ (forall s,
        fst (SNP0_call PyStream s) = Ok hdr ->
        forall s' obj, fst (SNP1_call PyStream (hdr ++ s')) <> Ok obj).
Proof.
  assert (H0 : length hdr = sizeof SNP0 ->
               SNP0_call PyStream (hdr ++ rest)
               = (if le_uint (firstn 4 hdr) =? 0x534E5030 then Ok hdr
                  else Raise bad_magic, rest)).
  { intros Hlen. unfold SNP0_call.
    rewrite (bind_ok _ _ _ _ _
               (XTFBase_new_stream_ok SNP0 hdr rest Hlen
                  ltac:(vm_compute; lia))).
    unfold lift, SNP_init. cbn [truthy].
    change (field SNP0 "ID" hdr) with (le_uint (firstn 4 hdr)).
    destruct (le_uint (firstn 4 hdr) =? 0x534E5030); reflexivity. }
  split; [exact H0 |]. split.
  - intros Hlen. unfold SNP1_call.
    rewrite (bind_ok _ _ _ _ _
               (XTFBase_new_stream_ok SNP1 hdr rest Hlen
                  ltac:(vm_compute; lia))).
    unfold lift, SNP_init. cbn [truthy].
    change (field SNP1 "ID" hdr) with (le_uint (firstn 4 hdr)).
    destruct (le_uint (firstn 4 hdr) =? 0x534E5031); reflexivity.
  - intros s Hok s' obj Hobj.
    unfold SNP0_call, bind in Hok.
    destruct (XTFBase_new SNP0 PyStream s) as [[raw | e] s0] eqn:Hnew;
      [| discriminate].
    pose proof (XTFBase_new_length _ _ _ _ _ Hnew) as Hlen.
    unfold lift, SNP_init in Hok. cbn [truthy fst] in Hok.
    change (field SNP0 "ID" raw) with (le_uint (firstn 4 raw)) in Hok.
    destruct (Z.eqb_spec (le_uint (firstn 4 raw)) 0x534E5030) as [Hid |];
      [| discriminate].
    cbn [negb] in Hok. injection Hok as ->.
    replace (hdr ++ s')
      with (firstn 24 hdr ++ (skipn 24 hdr ++ s')) in Hobj
      by (rewrite app_assoc, firstn_skipn; reflexivity).
    unfold SNP1_call in Hobj.
    rewrite (bind_ok _ _ _ _ _
               (XTFBase_new_stream_ok SNP1 (firstn 24 hdr) _
                  ltac:(rewrite length_firstn, Hlen; reflexivity)
                  ltac:(vm_compute; lia))) in Hobj.
    unfold lift, SNP_init in Hobj. cbn [truthy fst] in Hobj.
    change (field SNP1 "ID" (firstn 24 hdr))
      with (le_uint (firstn 4 (firstn 24 hdr))) in Hobj.
    rewrite firstn_firstn in Hobj. cbn [Nat.min] in Hobj.
    rewrite Hid in Hobj. discriminate.
Qed.

Lemma snippet_identifier_check_witness :
  length (with_fields SNP1 [("ID", 0x534E5031); ("Beam", 7)]) = sizeof SNP1
  /\ SNP1_call PyStream (with_fields SNP1 [("ID", 0x534E5031); ("Beam", 7)]
                         ++ [x07])
     = (Ok (with_fields SNP1 [("ID", 0x534E5031); ("Beam", 7)]), [x07]).
Proof.
  split; [reflexivity |].
  exact (proj1 (proj2 (snippet_identifier_check
                         (with_fields SNP1 [("ID", 0x534E5031); ("Beam", 7)])
                         [x07])) eq_refl).
Defined.

(** ** [AutoIntEnum] *)

Lemma AutoIntEnum_fold (names : list string) (members : list auto_member) :
  let cls :=
    fold_left (fun members name => members ++ [AutoIntEnum_new members name])
      names members in
  map member_name cls = map member_name members ++ names
  /\ map _value_ cls
     = map _value_ members
       ++ map Z.of_nat (seq (length members) (length names))
  /\ map int_value cls
     = map int_value members ++ repeat 0 (length names).
Proof.
  revert members. induction names as [| name names IH]; intros members.
  - cbn. now rewrite !app_nil_r.
  - cbn [fold_left]. destruct (IH (members ++ [AutoIntEnum_new members name]))
      as (Hn & Hv & Hi).
    cbv zeta. rewrite Hn, Hv, Hi.
    rewrite !map_app, length_app, <- !app_assoc. cbn [map length app seq repeat].
    cbn [AutoIntEnum_new member_name _value_ int_value].
    rewrite Nat.add_1_r. repeat split.
Qed.

(** The members of an [AutoIntEnum] class: [value] of the k-th member is k
    (the number of members declared before it), while every member is the
    integer 0. So the channel types have the values 0 to 3 that the file
    header code compares with, [XTFSonarType.fsi_hms6x5.value] is 69, and the
    assertion [XTFSonarType.fsi_hms6x5 != 69], which compares the integer,
    holds. *)
Theorem AutoIntEnum_values (names : list string) :
  map member_name (AutoIntEnum names) = names
  /\ map _value_ (AutoIntEnum names)
     = map Z.of_nat (seq 0 (length names))
  /\ map int_value (AutoIntEnum names) = repeat 0 (length names)
  /\ map _value_ XTFChannelType_enum
     = [XTFChannelType.subbottom; XTFChannelType.port; XTFChannelType.stbd;
        XTFChannelType.bathy]
  /\ option_map _value_
       (find (fun m => String.eqb (member_name m) "fsi_hms6x5")
          XTFSonarType_enum) = Some 69
  /\ sonar_type_assertion = Ok true.
Proof.
  destruct (AutoIntEnum_fold names []) as (Hn & Hv & Hi).
  repeat split; try reflexivity; assumption.
Qed.

(** ** More on the file header *)

(** A file header whose six counters sum to more than 6 is never parsed:
    once its 1024 bytes have been read, collecting the descriptors raises
    [IndexError] at slot 6. *)
Theorem too_many_channels_raise (hdr rest : bytes) :
  length hdr = sizeof XTFFileHeader ->
  6 < channel_count hdr ->
  XTFFileHeader_call PyStream (hdr ++ rest) = (Raise IndexError, rest).
Proof.
  intros Hlen Hmany. unfold XTFFileHeader_call.
  rewrite (bind_ok _ _ _ _ _
             (XTFBase_new_stream_ok XTFFileHeader hdr rest Hlen
                ltac:(vm_compute; lia))).
  unfold lift. rewrite XTFFileHeader_init_from_buffer by reflexivity.
  destruct (Z.leb_spec (channel_count hdr) 6); [lia | reflexivity].
Qed.

Lemma too_many_channels_raise_witness :
  length (Examples.header_counts 2 2 1 1 1 0) = sizeof XTFFileHeader
  /\ 6 < channel_count (Examples.header_counts 2 2 1 1 1 0)
  /\ XTFFileHeader_call PyStream (Examples.header_counts 2 2 1 1 1 0 ++ [x07])
     = (Raise IndexError, [x07]).
Proof.
  split; [reflexivity |]. split; [reflexivity |].
  apply too_many_channels_raise; reflexivity.
Defined.

Lemma filter_partition3 {A : Type} (p q r : A -> bool) (l : list A) :
  (forall x, (p x = true /\ q x = false /\ r x = false)
             \/ (p x = false /\ q x = true /\ r x = false)
             \/ (p x = false /\ q x = false /\ r x = true)) ->
  (length (filter p l) + length (filter q l) + length (filter r l))%nat
  = length l.
Proof.
  intros Hpart. induction l as [| x l IH]; [reflexivity |].
  cbn [filter length].
  destruct (Hpart x) as [(-> & -> & ->) | [(-> & -> & ->) | (-> & -> & ->)]];
    cbn [length]; lia.
Qed.

Lemma channel_type_partition (x : bytes) :
  let t := field XTFChanInfo "TypeOfChannel" x in
  (py_in t sonar_chan_types = true /\ (t =? XTFChannelType.bathy) = false
   /\ negb (known_channel_type t) = false)
  \/ (py_in t sonar_chan_types = false /\ (t =? XTFChannelType.bathy) = true
      /\ negb (known_channel_type t) = false)
  \/ (py_in t sonar_chan_types = false /\ (t =? XTFChannelType.bathy) = false
      /\ negb (known_channel_type t) = true).
Proof.
  cbv zeta. generalize (field XTFChanInfo "TypeOfChannel" x). intros t.
  unfold py_in, sonar_chan_types, known_channel_type, XTFChannelType.port,
    XTFChannelType.stbd, XTFChannelType.subbottom, XTFChannelType.bathy.
  cbn [existsb].
  destruct (Z.eqb_spec t 0) as [-> | H0]; [left; repeat split |].
  destruct (Z.eqb_spec t 1) as [-> | H1]; [left; repeat split |].
  destruct (Z.eqb_spec t 2) as [-> | H2]; [left; repeat split |].
  destruct (Z.eqb_spec t 3) as [-> | H3];
    [right; left; repeat split | right; right; repeat split].
Qed.

(** In a file header parsed from a buffer there are at most six descriptors
    in use; each of them is in the sonar view exactly when its channel type
    is subbottom, port or stbd, and in the bathymetry view exactly when it is
    bathy; so the two views together hold [channel_count()] descriptors
    minus those of an unknown type. *)
Theorem channel_views_complete (buffer : pybuffer) (raw : bytes)
  (file_header : XTFFileHeader_obj) :
  truthy buffer = true ->
  XTFFileHeader_init buffer raw = Ok file_header ->
  let chan_info := map (chan_slot raw) (py_range 0 (channel_count raw)) in
  exists sonar bathy,
    fh_raw file_header = raw
    /\ sonar_info file_header = Some sonar
    /\ bathy_info file_header = Some bathy
    /\ 0 <= channel_count raw <= 6
    /\ Z.of_nat (length chan_info) = channel_count raw
    /\ (forall x,
          In x sonar
          <-> In x chan_info
              /\ In (field XTFChanInfo "TypeOfChannel" x) [0; 1; 2])
    /\ (forall x,
          In x bathy
          <-> In x chan_info /\ field XTFChanInfo "TypeOfChannel" x = 3)
    /\ Z.of_nat (length sonar) + Z.of_nat (length bathy)
       + Z.of_nat
           (length
              (filter
                 (fun x =>
                    negb (known_channel_type
                            (field XTFChanInfo "TypeOfChannel" x)))
                 chan_info))
       = channel_count raw.
Proof.
  intros Ht Hinit chan_info.
  rewrite XTFFileHeader_init_from_buffer in Hinit by assumption.
  destruct (Z.leb_spec (channel_count raw) 6) as [Hle |]; [| discriminate].
  injection Hinit as <-. cbn [sonar_info bathy_info fh_raw].
  fold chan_info. do 2 eexists.
  split; [reflexivity |]. split; [reflexivity |]. split; [reflexivity |].
  pose proof (channel_count_range raw) as Hrange.
  assert (Hlen : Z.of_nat (length chan_info) = channel_count raw).
  { subst chan_info. rewrite length_map, length_py_range. lia. }
  split; [lia |]. split; [exact Hlen |]. split; [| split].
  - intros x. rewrite filter_In. unfold py_in, sonar_chan_types.
    cbn [existsb In]. rewrite !orb_true_iff, !Z.eqb_eq.
    unfold XTFChannelType.port, XTFChannelType.stbd,
      XTFChannelType.subbottom.
    intuition (try discriminate; auto).
  - intros x. rewrite filter_In, Z.eqb_eq. reflexivity.
  - pose proof (filter_partition3
                  (fun x => py_in (field XTFChanInfo "TypeOfChannel" x)
                              sonar_chan_types)
                  (fun x => field XTFChanInfo "TypeOfChannel" x
                            =? XTFChannelType.bathy)
                  (fun x => negb (known_channel_type
                                    (field XTFChanInfo "TypeOfChannel" x)))
                  chan_info channel_type_partition) as Hpart.
    unfold py_in, sonar_chan_types in Hpart. cbn [existsb] in Hpart. lia.
Qed.

Lemma channel_views_complete_witness :
  truthy PyStream = true
  /\ exists file_header sonar bathy,
       XTFFileHeader_init PyStream Examples.header_mixed_raw = Ok file_header
       /\ sonar_info file_header = Some sonar
       /\ bathy_info file_header = Some bathy
       /\ channel_count Examples.header_mixed_raw = 4
       /\ Z.of_nat (length sonar) + Z.of_nat (length bathy) + 1 = 4.
Proof.
  split; [reflexivity |].
  destruct (XTFFileHeader_init PyStream Examples.header_mixed_raw)
    as [file_header |] eqn:Hinit; [| vm_compute in Hinit; discriminate].
  destruct (channel_views_complete PyStream Examples.header_mixed_raw
              file_header eq_refl Hinit)
    as (sonar & bathy & _ & Hs & Hb & _ & _ & _ & _ & Hcount).
  exists file_header, sonar, bathy.
  split; [reflexivity |]. split; [exact Hs |]. split; [exact Hb |].
  split; [reflexivity |].
  exact Hcount.
Defined.

(** The file header built without a buffer: file format 0x7B, system type 1,
    the old sample count 1024 in all six descriptors, the program name
    "pyxtf" and version "223", no channel announced, and 1024 bytes. It has
    no [sonar_info] and [bathy_info] attributes. Parsing its bytes from a
    stream succeeds, with two empty views. *)
Theorem default_file_header_round_trip (rest : bytes) :
  exists file_header,
    XTFFileHeader_call PyNone rest = (Ok file_header, rest)
    /\ length (fh_raw file_header) = sizeof XTFFileHeader
    /\ field XTFFileHeader "FileFormat" (fh_raw file_header) = 0x7B
    /\ field XTFFileHeader "SystemType" (fh_raw file_header) = 1
    /\ (forall i, 0 <= i < 6 ->
          field XTFChanInfo "Reserved" (chan_slot (fh_raw file_header) i)
          = 1024)
    /\ slice 2 16 (fh_raw file_header)
       = list_byte_of_string "pyxtf" ++ repeat x00 3
         ++ list_byte_of_string "223" ++ repeat x00 5
    /\ channel_count (fh_raw file_header) = 0
    /\ sonar_info file_header = None
    /\ bathy_info file_header = None
    /\ XTFFileHeader_call PyStream (fh_raw file_header ++ rest)
       = (Ok {| fh_raw := fh_raw file_header;
                sonar_info := Some [];
                bathy_info := Some [] |}, rest).
Proof.
  eexists. split; [reflexivity |].
  cbn [fh_raw sonar_info bathy_info].
  split; [reflexivity |]. split; [reflexivity |]. split; [reflexivity |].
  split.
  { intros i Hi.
    assert (Hcases : i = 0 \/ i = 1 \/ i = 2 \/ i = 3 \/ i = 4 \/ i = 5)
      by lia.
    destruct Hcases as [-> | [-> | [-> | [-> | [-> | ->]]]]]; reflexivity. }
  split; [reflexivity |]. split; [reflexivity |].
  split; [reflexivity |]. split; [reflexivity |].
  unfold XTFFileHeader_call.
  match goal with
  | |- bind _ _ (?h ++ rest) = _ =>
      rewrite (bind_ok _ _ _ _ _
                 (XTFBase_new_stream_ok XTFFileHeader h rest eq_refl
                    ltac:(vm_compute; lia)))
  end.
  reflexivity.
Qed.

Lemma default_file_header_round_trip_witness :
  0 <= 3 < 6
  /\ exists file_header,
       XTFFileHeader_call PyNone [x07] = (Ok file_header, [x07])
       /\ field XTFChanInfo "Reserved" (chan_slot (fh_raw file_header) 3)
          = 1024.
Proof.
  assert (Hi : 0 <= 3 < 6) by lia.
  split; [exact Hi |].
  destruct (default_file_header_round_trip [x07])
    as (file_header & Hcall & _ & _ & _ & Hreserved & _).
  exists file_header. split; [exact Hcall | exact (Hreserved 3 Hi)].
Defined.

(** ** Sonar pings: whole records *)

(** A whole sonar ping. When the stream holds the ping header (with the
    magic number), and after it, for each of its [NumChansToFollow] channels
    in turn, a sub-header and the sample bytes that fit the descriptor at the
    same position of [sonar_info], the ping is decoded: the sub-headers and
    the sample arrays come out in the order of the stream, each array with
    the item size of its descriptor, and exactly the bytes of the header and
    of the channels have been taken from the stream. *)
Theorem sonar_ping_decode (file_header : XTFFileHeader_obj)
  (used later : list bytes) (hdr rest : bytes)
  (channels : list (bytes * bytes)) :
  length hdr = sizeof XTFPingHeader ->
  field XTFPingHeader "MagicNumber" hdr = 0xFACE ->
  field XTFPingHeader "HeaderType" hdr = XTFHeaderType.sonar ->
  field XTFPingHeader "NumChansToFollow" hdr = Z.of_nat (length channels) ->
  sonar_info file_header = Some (used ++ later) ->
  Forall2 (channel_fits hdr) used channels ->
  XTFPingHeader_call PyStream (Some file_header)
    (hdr ++ flat_map channel_bytes channels ++ rest)
  = (Ok {| ph_raw := hdr;
           ping_chan_headers := map fst channels;
           data := DataList (decode_channels used channels) |},
     rest).
Proof.
  intros Hlen Hmagic Htype Hcount Hinfo Hfits.
  rewrite XTFPingHeader_call_stream by assumption.
  cbv zeta. rewrite Htype, Hcount.
  change (XTFHeaderType.sonar =? XTFHeaderType.sonar) with true. cbv iota.
  unfold py_range. rewrite Z.sub_0_r, Nat2Z.id.
  rewrite bind_bind.
  rewrite (bind_ok _ _ _ _ _
             (for_each_channels file_header hdr rest used channels Hfits
                [] later ([], []) Hinfo)).
  unfold bind, ret, lift, XTFPingHeader_init, XTFPacketStart_init.
  cbn [truthy fst snd app ph_raw ping_chan_headers data rbind].
  rewrite Hmagic. reflexivity.
Qed.

Lemma sonar_ping_decode_witness :
  Forall2
    (channel_fits (Examples.ping_header XTFHeaderType.sonar 2 324))
    [Examples.chan_info XTFChannelType.port 2 3;
     Examples.chan_info XTFChannelType.stbd 2 3]
    [(Examples.ping_chan_header 2, Examples.payload 4);
     (Examples.ping_chan_header 2, Examples.payload 4)]
  /\ XTFPingHeader_call PyStream (Some Examples.header_2ch)
       Examples.ping_2ch_stream
     = (Ok {| ph_raw := Examples.ping_header XTFHeaderType.sonar 2 324;
              ping_chan_headers :=
                [Examples.ping_chan_header 2; Examples.ping_chan_header 2];
              data :=
                DataList [ {| itemsize := 2; items := [257; 257] |};
                           {| itemsize := 2; items := [257; 257] |} ] |},
        Examples.payload 8).
Proof.
  assert (Hfit : channel_fits (Examples.ping_header XTFHeaderType.sonar 2 324)
                   (Examples.chan_info XTFChannelType.port 2 3)
                   (Examples.ping_chan_header 2, Examples.payload 4)).
  { repeat split; vm_compute; congruence. }
  assert (Hfit' : channel_fits
                    (Examples.ping_header XTFHeaderType.sonar 2 324)
                    (Examples.chan_info XTFChannelType.stbd 2 3)
                    (Examples.ping_chan_header 2, Examples.payload 4)).
  { repeat split; vm_compute; congruence. }
  assert (Hall : Forall2
                   (channel_fits
                      (Examples.ping_header XTFHeaderType.sonar 2 324))
                   [Examples.chan_info XTFChannelType.port 2 3;
                    Examples.chan_info XTFChannelType.stbd 2 3]
                   [(Examples.ping_chan_header 2, Examples.payload 4);
                    (Examples.ping_chan_header 2, Examples.payload 4)])
    by (apply Forall2_cons;
        [exact Hfit | apply Forall2_cons; [exact Hfit' | apply Forall2_nil]]).
  split; [exact Hall |].
  exact (sonar_ping_decode Examples.header_2ch
           [Examples.chan_info XTFChannelType.port 2 3;
            Examples.chan_info XTFChannelType.stbd 2 3] []
           (Examples.ping_header XTFHeaderType.sonar 2 324)
           (Examples.payload 8)
           [(Examples.ping_chan_header 2, Examples.payload 4);
            (Examples.ping_chan_header 2, Examples.payload 4)]
           eq_refl eq_refl eq_refl eq_refl eq_refl Hall).
Defined.

(** ** Sonar pings: what stops a channel *)

Lemma ping_channel_after_sub (file_header : XTFFileHeader_obj)
  (p_header sub rest : bytes) (i : Z)
  (acc : list bytes * list ndarray) :
  length sub = sizeof XTFPingChanHeader ->
  ping_channel PyStream file_header p_header i acc (sub ++ rest)
  = (n_samples <- lift (n_samples_of file_header sub i) ;;
     info <- lift (getattr_opt "sonar_info" (sonar_info file_header)) ;;
     chan <- lift (list_getitem info i) ;;
     let n_bytes := n_samples * field XTFChanInfo "BytesPerSample" chan in
     if n_bytes >? n_bytes_remaining_of p_header then raise exceeds_remaining
     else
       samples <- buffer_read PyStream
                    (n_samples * field XTFChanInfo "BytesPerSample" chan) ;;
       if (length samples =? 0)%nat then raise file_ended
       else
         dtype <- lift (xtf_dtype (field XTFChanInfo "BytesPerSample" chan)) ;;
         samples <- lift (np_frombuffer samples dtype) ;;
         ret (fst acc ++ [sub], snd acc ++ [samples])) rest.
Proof.
  intros Hsub. unfold ping_channel.
  now rewrite (bind_ok _ _ _ _ _ (XTFPingChanHeader_call_stream sub _ Hsub)).
Qed.

Lemma n_samples_of_resolved (file_header : XTFFileHeader_obj)
  (info : list bytes) (sub chan : bytes) (i : Z) :
  sonar_info file_header = Some info ->
  list_getitem info i = Ok chan ->
  n_samples_of file_header sub i = Ok (resolved_samples sub chan).
Proof.
  intros Hinfo Hget. unfold n_samples_of, resolved_samples.
  destruct (field XTFPingChanHeader "NumSamples" sub >? 0); [reflexivity |].
  rewrite Hinfo. cbn [getattr_opt rbind]. now rewrite Hget.
Qed.

(** A channel without sample bytes stops the ping: when the resolved sample
    count times the sample width is zero (no [NumSamples], and an old count
    or a width of zero) and the bound of the loop is not negative, the
    iteration raises "File ended while reading data packets" once the
    sub-header is read, whatever the stream still holds. *)
Theorem empty_channel_raises (file_header : XTFFileHeader_obj)
  (info : list bytes) (chan p_header sub rest : bytes) (i : Z)
  (acc : list bytes * list ndarray) :
  sonar_info file_header = Some info ->
  list_getitem info i = Ok chan ->
  length sub = sizeof XTFPingChanHeader ->
  resolved_samples sub chan * field XTFChanInfo "BytesPerSample" chan = 0 ->
  0 <= n_bytes_remaining_of p_header ->
  ping_channel PyStream file_header p_header i acc (sub ++ rest)
  = (Raise file_ended, rest).
Proof.
  intros Hinfo Hget Hsub Hzero Hrem.
  rewrite ping_channel_after_sub by assumption.
  unfold bind, lift.
  rewrite (n_samples_of_resolved _ _ _ _ _ Hinfo Hget), Hinfo.
  cbn [getattr_opt]. rewrite Hget, Hzero.
  destruct (Z.gtb_spec 0 (n_bytes_remaining_of p_header)); [lia |].
  reflexivity.
Qed.

Lemma empty_channel_raises_witness :
  sonar_info Examples.header_2ch
  = Some [Examples.chan_info XTFChannelType.port 2 3;
          Examples.chan_info XTFChannelType.stbd 2 3]
  /\ resolved_samples (Examples.ping_chan_header 0)
       (Examples.chan_info XTFChannelType.port 0 3)
     * field XTFChanInfo "BytesPerSample"
         (Examples.chan_info XTFChannelType.port 0 3) = 0
  /\ ping_channel PyStream
       {| fh_raw := Examples.header_2ch_raw;
          sonar_info := Some [Examples.chan_info XTFChannelType.port 0 3];
          bathy_info := Some [] |}
       (Examples.ping_header XTFHeaderType.sonar 1 400) 0 ([], [])
       (Examples.ping_chan_header 0 ++ Examples.payload 6)
     = (Raise file_ended, Examples.payload 6).
Proof.
  split; [reflexivity |]. split; [reflexivity |].
  apply (empty_channel_raises _
           [Examples.chan_info XTFChannelType.port 0 3]
           (Examples.chan_info XTFChannelType.port 0 3));
    try reflexivity; try (vm_compute; discriminate).
Defined.

(** A channel beyond the sonar view stops the ping: in the iteration [i]
    of a ping that announces more channels than [sonar_info] holds, the
    sub-header is read and the lookup [sonar_info[i]] raises [IndexError],
    with or without a sample count in the sub-header. *)
Theorem channel_beyond_sonar_info_raises (file_header : XTFFileHeader_obj)
  (info : list bytes) (p_header sub rest : bytes) (i : Z)
  (acc : list bytes * list ndarray) :
  sonar_info file_header = Some info ->
  Z.of_nat (length info) <= i ->
  length sub = sizeof XTFPingChanHeader ->
  ping_channel PyStream file_header p_header i acc (sub ++ rest)
  = (Raise IndexError, rest).
Proof.
  intros Hinfo Hi Hsub.
  rewrite ping_channel_after_sub by assumption.
  assert (Hget : list_getitem info i = Raise IndexError).
  { unfold list_getitem. destruct (Z.ltb_spec i 0); [reflexivity |].
    destruct (nth_error info (Z.to_nat i)) eqn:Hnth; [| reflexivity].
    assert (Hsome : nth_error info (Z.to_nat i) <> None) by congruence.
    apply nth_error_Some in Hsome. lia. }
  unfold bind, lift, n_samples_of. rewrite Hinfo. cbn [getattr_opt rbind].
  rewrite Hget.
  destruct (field XTFPingChanHeader "NumSamples" sub >? 0); reflexivity.
Qed.

Lemma channel_beyond_sonar_info_raises_witness :
  sonar_info Examples.header_2ch
  = Some [Examples.chan_info XTFChannelType.port 2 3;
          Examples.chan_info XTFChannelType.stbd 2 3]
  /\ ping_channel PyStream Examples.header_2ch
       (Examples.ping_header XTFHeaderType.sonar 3 400) 2 ([], [])
       (Examples.ping_chan_header 5 ++ Examples.payload 10)
     = (Raise IndexError, Examples.payload 10).
Proof.
  split; [reflexivity |].
  apply (channel_beyond_sonar_info_raises Examples.header_2ch
           [Examples.chan_info XTFChannelType.port 2 3;
            Examples.chan_info XTFChannelType.stbd 2 3]);
    try reflexivity; try (vm_compute; discriminate).
Defined.

(** A sample width other than 1, 2, 4 or 8 is found late: when the channel
    has sample bytes within the bound and the stream holds them, they are
    read from the stream first, and only then does the lookup of the numpy
    type raise [KeyError]. *)
Theorem unsupported_width_raises (file_header : XTFFileHeader_obj)
  (info : list bytes) (chan p_header sub samples rest : bytes) (i : Z)
  (acc : list bytes * list ndarray) :
  sonar_info file_header = Some info ->
  list_getitem info i = Ok chan ->
  length sub = sizeof XTFPingChanHeader ->
  ~ In (field XTFChanInfo "BytesPerSample" chan) [1; 2; 4; 8] ->
  0 < resolved_samples sub chan * field XTFChanInfo "BytesPerSample" chan
      <= n_bytes_remaining_of p_header ->
  Z.of_nat (length samples)
  = resolved_samples sub chan * field XTFChanInfo "BytesPerSample" chan ->
  ping_channel PyStream file_header p_header i acc (sub ++ samples ++ rest)
  = (Raise KeyError, rest).
Proof.
  intros Hinfo Hget Hsub Hwidth Hbytes Hlen.
  rewrite ping_channel_after_sub by assumption.
  unfold bind at 1. unfold lift at 1.
  rewrite (n_samples_of_resolved _ _ _ _ _ Hinfo Hget).
  unfold bind at 1. unfold lift at 1. rewrite Hinfo. cbn [getattr_opt].
  unfold bind at 1. unfold lift at 1. rewrite Hget.
  match goal with
  | |- context [?a >? n_bytes_remaining_of p_header] =>
      destruct (Z.gtb_spec a (n_bytes_remaining_of p_header)); [lia |]
  end.
  unfold bind at 1. cbn [buffer_read]. rewrite <- Hlen.
  rewrite BytesIO_read_app by reflexivity.
  destruct (Nat.eqb_spec (length samples) 0); [lia |].
  unfold bind, lift, xtf_dtype.
  cbn [In] in Hwidth.
  destruct (Z.eqb_spec (field XTFChanInfo "BytesPerSample" chan) 1)
    as [Heq | _]; [symmetry in Heq; tauto |].
  destruct (Z.eqb_spec (field XTFChanInfo "BytesPerSample" chan) 2)
    as [Heq | _]; [symmetry in Heq; tauto |].
  destruct (Z.eqb_spec (field XTFChanInfo "BytesPerSample" chan) 4)
    as [Heq | _]; [symmetry in Heq; tauto |].
  destruct (Z.eqb_spec (field XTFChanInfo "BytesPerSample" chan) 8)
    as [Heq | _]; [symmetry in Heq; tauto |].
  reflexivity.
Qed.

Lemma unsupported_width_raises_witness :
  ~ In (field XTFChanInfo "BytesPerSample"
          (Examples.chan_info XTFChannelType.port 3 0)) [1; 2; 4; 8]
  /\ ping_channel PyStream
       {| fh_raw := Examples.header_2ch_raw;
          sonar_info := Some [Examples.chan_info XTFChannelType.port 3 0];
          bathy_info := Some [] |}
       (Examples.ping_header XTFHeaderType.sonar 1 400) 0 ([], [])
       (Examples.ping_chan_header 2 ++ Examples.payload 6 ++ [x07])
     = (Raise KeyError, [x07]).
Proof.
  assert (Hw : ~ In (field XTFChanInfo "BytesPerSample"
                       (Examples.chan_info XTFChannelType.port 3 0))
                 [1; 2; 4; 8]).
  { vm_compute. intros H. repeat destruct H as [H | H];
      discriminate || exact H. }
  split; [exact Hw |].
  apply (unsupported_width_raises _
           [Examples.chan_info XTFChannelType.port 3 0]
           (Examples.chan_info XTFChannelType.port 3 0));
    try reflexivity; try exact Hw.
  vm_compute. split; [reflexivity | discriminate].
Defined.

(** The samples are not required to be complete: when the stream ends inside
    the sample bytes of a channel, after a positive number of whole samples,
    the iteration succeeds and the array simply holds the samples that were
    there; when it ends inside a sample, [np.frombuffer] raises
    [ValueError]. *)
Theorem truncated_samples_accepted (file_header : XTFFileHeader_obj)
  (info : list bytes) (chan p_header sub avail : bytes) (i : Z)
  (acc : list bytes * list ndarray) :
  sonar_info file_header = Some info ->
  list_getitem info i = Ok chan ->
  length sub = sizeof XTFPingChanHeader ->
  xtf_dtype (field XTFChanInfo "BytesPerSample" chan)
  = Ok (field XTFChanInfo "BytesPerSample" chan) ->
  resolved_samples sub chan * field XTFChanInfo "BytesPerSample" chan
  <= n_bytes_remaining_of p_header ->
  0 < Z.of_nat (length avail)
    < resolved_samples sub chan * field XTFChanInfo "BytesPerSample" chan ->
  ping_channel PyStream file_header p_header i acc (sub ++ avail)
  = (if Z.of_nat (length avail) mod field XTFChanInfo "BytesPerSample" chan
        =? 0
     then Ok (fst acc ++ [sub],
              snd acc
              ++ [decode_samples (field XTFChanInfo "BytesPerSample" chan)
                    avail])
     else Raise (ValueError "buffer size must be a multiple of element size"),
     []).
Proof.
  intros Hinfo Hget Hsub Hdtype Hfits Havail.
  rewrite ping_channel_after_sub by assumption.
  unfold bind at 1. unfold lift at 1.
  rewrite (n_samples_of_resolved _ _ _ _ _ Hinfo Hget).
  unfold bind at 1. unfold lift at 1. rewrite Hinfo. cbn [getattr_opt].
  unfold bind at 1. unfold lift at 1. rewrite Hget.
  match goal with
  | |- context [?a >? n_bytes_remaining_of p_header] =>
      destruct (Z.gtb_spec a (n_bytes_remaining_of p_header)); [lia |]
  end.
  unfold bind at 1. cbn [buffer_read].
  assert (Hread :
    BytesIO_read
      (resolved_samples sub chan * field XTFChanInfo "BytesPerSample" chan)
      avail = (Ok avail, [])).
  { unfold BytesIO_read.
    match goal with
    | |- context [?n <? 0] => destruct (Z.ltb_spec n 0); [lia |]
    end.
    rewrite firstn_all2, skipn_all2 by lia. reflexivity. }
  rewrite Hread.
  destruct (Nat.eqb_spec (length avail) 0); [lia |].
  unfold bind, lift. rewrite Hdtype. unfold np_frombuffer.
  destruct (Z.of_nat (length avail)
            mod field XTFChanInfo "BytesPerSample" chan =? 0);
    reflexivity.
Qed.

Lemma truncated_samples_accepted_witness :
  0 < Z.of_nat (length (Examples.payload 4))
    < resolved_samples (Examples.ping_chan_header 5)
        (Examples.chan_info XTFChannelType.port 2 3)
      * field XTFChanInfo "BytesPerSample"
          (Examples.chan_info XTFChannelType.port 2 3)
  /\ ping_channel PyStream Examples.header_2ch
       (Examples.ping_header XTFHeaderType.sonar 1 400) 0 ([], [])
       (Examples.ping_chan_header 5 ++ Examples.payload 4)
     = (Ok ([Examples.ping_chan_header 5],
            [ {| itemsize := 2; items := [257; 257] |} ]), []).
Proof.
  assert (Hav : 0 < Z.of_nat (length (Examples.payload 4))
                < resolved_samples (Examples.ping_chan_header 5)
                    (Examples.chan_info XTFChannelType.port 2 3)
                  * field XTFChanInfo "BytesPerSample"
                      (Examples.chan_info XTFChannelType.port 2 3))
    by (vm_compute; split; reflexivity).
  split; [exact Hav |].
  exact (truncated_samples_accepted Examples.header_2ch
           [Examples.chan_info XTFChannelType.port 2 3;
            Examples.chan_info XTFChannelType.stbd 2 3]
           (Examples.chan_info XTFChannelType.port 2 3)
           (Examples.ping_header XTFHeaderType.sonar 1 400)
           (Examples.ping_chan_header 5) (Examples.payload 4) 0 ([], [])
           eq_refl eq_refl eq_refl eq_refl
           ltac:(vm_compute; discriminate) Hav).
Defined.

(** ** Pings: header types, bathymetry and the magic number *)

Lemma chunks_single (bs : bytes) (n : nat) :
  (length bs <= n)%nat ->
  map le_uint (chunks n 1 bs) = map byte_to_Z bs.
Proof.
  revert n. induction bs as [| b bs IH]; intros n Hn.
  - destruct n; reflexivity.
  - destruct n as [| n]; [cbn in Hn; lia |].
    cbn [chunks firstn skipn map le_uint]. f_equal; [lia |].
    apply IH. cbn in Hn. lia.
Qed.

(** Raw bathymetry ([HeaderType] bathy or multibeam_raw_beam_angle): when the
    block of [n = NumBytesThisRecord - 256 > 0] bytes is in the stream, the
    record is decoded, [data] is a list with one array of item size 1 whose
    items are the [n] bytes of the block, unchanged and in order, and
    exactly [256 + n] bytes have been taken. The channel table is not
    used. *)
Theorem raw_bathy_block (file_header : XTFFileHeader_obj)
  (hdr block rest : bytes) (n : Z) :
  length hdr = sizeof XTFPingHeader ->
  field XTFPingHeader "MagicNumber" hdr = 0xFACE ->
  field XTFPingHeader "HeaderType" hdr = XTFHeaderType.bathy
  \/ field XTFPingHeader "HeaderType" hdr
     = XTFHeaderType.multibeam_raw_beam_angle ->
  field XTFPingHeader "NumBytesThisRecord" hdr
  = Z.of_nat (sizeof XTFPingHeader) + n ->
  0 < n ->
  Z.of_nat (length block) = n ->
  XTFPingHeader_call PyStream (Some file_header) (hdr ++ block ++ rest)
  = (Ok {| ph_raw := hdr;
           ping_chan_headers := [];
           data := DataList [ {| itemsize := 1;
                                 items := map byte_to_Z block |} ] |},
     rest).
Proof.
  intros Hlen Hmagic Htype Hrecord Hn Hblock.
  rewrite XTFPingHeader_call_stream by assumption.
  cbv zeta. rewrite Hrecord.
  replace (Z.of_nat (sizeof XTFPingHeader) + n
           - Z.of_nat (sizeof XTFPingHeader)) with n by lia.
  assert (Hread : BytesIO_read n (block ++ rest) = (Ok block, rest)).
  { rewrite <- Hblock. now apply BytesIO_read_app. }
  destruct Htype as [-> | ->];
    match goal with
    | |- context [?t =? XTFHeaderType.sonar] =>
        change (t =? XTFHeaderType.sonar) with false;
        change (py_in t _bathy_header_types) with true;
        change (t =? XTFHeaderType.bathy_xyza) with false
    end;
    cbv iota; rewrite bind_bind; cbn [buffer_read];
    rewrite (bind_ok _ _ _ _ _ Hread);
    (destruct (Nat.eqb_spec (length block) 0); [lia |]);
    unfold np_frombuffer; rewrite Z.mod_1_r; cbn [Z.eqb];
    change (Z.to_nat 1) with 1%nat;
    rewrite chunks_single by lia;
    unfold bind, lift, ret, XTFPingHeader_init, XTFPacketStart_init;
    cbn [rbind truthy ph_raw ping_chan_headers data];
    rewrite Hmagic; reflexivity.
Qed.

Lemma raw_bathy_block_witness :
  length (Examples.ping_header XTFHeaderType.bathy 0 259)
  = sizeof XTFPingHeader
  /\ 0 < 3
  /\ XTFPingHeader_call PyStream (Some Examples.header_2ch)
       (Examples.ping_header XTFHeaderType.bathy 0 259
        ++ [x0a; x0b; xff] ++ [x07])
     = (Ok {| ph_raw := Examples.ping_header XTFHeaderType.bathy 0 259;
              ping_chan_headers := [];
              data := DataList [ {| itemsize := 1;
                                    items := [10; 11; 255] |} ] |},
        [x07]).
Proof.
  split; [reflexivity |]. split; [lia |].
  exact (raw_bathy_block Examples.header_2ch
           (Examples.ping_header XTFHeaderType.bathy 0 259)
           [x0a; x0b; xff] [x07] 3 eq_refl eq_refl (or_introl eq_refl)
           eq_refl ltac:(lia) eq_refl).
Defined.

(** What [XTFPingHeader] rejects before it reads anything after the ping
    header, and before it looks at the magic number: a missing file header;
    a header type that is none of sonar (0), bathy (2), bathy_xyza (17) and
    multibeam_raw_beam_angle (74); and a bathymetry record of exactly 256
    bytes, whose empty payload is reported as missing data even when the
    stream goes on. In each case exactly the 256 header bytes have been
    taken. *)
Theorem ping_header_rejections (hdr rest : bytes) :
  length hdr = sizeof XTFPingHeader ->
  XTFPingHeader_call PyStream None (hdr ++ rest)
  = (Raise (RuntimeError "Initialization of XTFPingHeader from buffer requires file_header to be passed."),
     rest)
  /\ (forall file_header,
        ~ In (field XTFPingHeader "HeaderType" hdr) [0; 2; 17; 74] ->
        XTFPingHeader_call PyStream (Some file_header) (hdr ++ rest)
        = (Raise (RuntimeError "Unknown XTFPingHeader type encountered."),
           rest))
  /\ (forall file_header,
        In (field XTFPingHeader "HeaderType" hdr) [2; 17; 74] ->
        field XTFPingHeader "NumBytesThisRecord" hdr
        = Z.of_nat (sizeof XTFPingHeader) ->
        XTFPingHeader_call PyStream (Some file_header) (hdr ++ rest)
        = (Raise packets_missing, rest)).
Proof.
  intros Hlen. split; [| split].
  - unfold XTFPingHeader_call, XTFPingHeader_new. rewrite bind_bind.
    rewrite (bind_ok _ _ _ _ _
               (XTFBase_new_stream_ok XTFPingHeader hdr rest Hlen
                  ltac:(vm_compute; lia))).
    reflexivity.
  - intros file_header Htype.
    rewrite XTFPingHeader_call_stream by assumption. cbv zeta.
    cbn [In] in Htype.
    unfold XTFHeaderType.sonar, py_in, _bathy_header_types,
      XTFHeaderType.bathy_xyza, XTFHeaderType.bathy,
      XTFHeaderType.multibeam_raw_beam_angle.
    cbn [existsb].
    destruct (Z.eqb_spec (field XTFPingHeader "HeaderType" hdr) 0)
      as [Heq | _]; [symmetry in Heq; tauto |].
    destruct (Z.eqb_spec (field XTFPingHeader "HeaderType" hdr) 17)
      as [Heq | _]; [symmetry in Heq; tauto |].
    destruct (Z.eqb_spec (field XTFPingHeader "HeaderType" hdr) 2)
      as [Heq | _]; [symmetry in Heq; tauto |].
    destruct (Z.eqb_spec (field XTFPingHeader "HeaderType" hdr) 74)
      as [Heq | _]; [symmetry in Heq; tauto |].
    reflexivity.
  - intros file_header Htype Hrecord.
    rewrite XTFPingHeader_call_stream by assumption. cbv zeta.
    rewrite Hrecord, Z.sub_diag. cbn [In] in Htype.
    destruct Htype as [Ht | [Ht | [Ht | []]]]; rewrite <- Ht; reflexivity.
Qed.

Lemma ping_header_rejections_witness :
  length (Examples.ping_header XTFHeaderType.notes 0 256)
  = sizeof XTFPingHeader
  /\ ~ In (field XTFPingHeader "HeaderType"
             (Examples.ping_header XTFHeaderType.notes 0 256)) [0; 2; 17; 74]
  /\ XTFPingHeader_call PyStream (Some Examples.header_2ch)
       (Examples.ping_header XTFHeaderType.notes 0 256 ++ [x07])
     = (Raise (RuntimeError "Unknown XTFPingHeader type encountered."),
        [x07]).
Proof.
  assert (Ht : ~ In (field XTFPingHeader "HeaderType"
                       (Examples.ping_header XTFHeaderType.notes 0 256))
                 [0; 2; 17; 74]).
  { vm_compute. intros H. repeat destruct H as [H | H];
      discriminate || exact H. }
  split; [reflexivity |]. split; [exact Ht |].
  exact (proj1 (proj2 (ping_header_rejections
                         (Examples.ping_header XTFHeaderType.notes 0 256)
                         [x07] eq_refl))
           Examples.header_2ch Ht).
Defined.

(** The magic number of a ping is checked last. A bathymetry record with a
    wrong magic number is read in full, header and payload block of
    [NumBytesThisRecord - 256] bytes, before the identifier error is
    raised. *)
Theorem ping_magic_checked_last (file_header : XTFFileHeader_obj)
  (hdr block rest : bytes) (n : Z) :
  length hdr = sizeof XTFPingHeader ->
  field XTFPingHeader "MagicNumber" hdr <> 0xFACE ->
  In (field XTFPingHeader "HeaderType" hdr) [2; 17; 74] ->
  field XTFPingHeader "NumBytesThisRecord" hdr
  = Z.of_nat (sizeof XTFPingHeader) + n ->
  0 < n ->
  Z.of_nat (length block) = n ->
  XTFPingHeader_call PyStream (Some file_header) (hdr ++ block ++ rest)
  = (Raise bad_magic, rest).
Proof.
  intros Hlen Hmagic Htype Hrecord Hn Hblock.
  rewrite XTFPingHeader_call_stream by assumption.
  cbv zeta. rewrite Hrecord.
  replace (Z.of_nat (sizeof XTFPingHeader) + n
           - Z.of_nat (sizeof XTFPingHeader)) with n by lia.
  assert (Hread : BytesIO_read n (block ++ rest) = (Ok block, rest)).
  { rewrite <- Hblock. now apply BytesIO_read_app. }
  assert (Hdiv : 0 <= n / 31) by (apply Z.div_pos; lia).
  assert (Hfloor : 31 * (n / 31) <= n) by (apply Z.mul_div_le; lia).
  cbn [In] in Htype.
  destruct Htype as [Ht | [Ht | [Ht | []]]]; rewrite <- Ht;
    match goal with
    | |- context [?t =? XTFHeaderType.sonar] =>
        change (t =? XTFHeaderType.sonar) with false;
        change (py_in t _bathy_header_types) with true
    end;
    cbv iota; rewrite bind_bind; cbn [buffer_read];
    rewrite (bind_ok _ _ _ _ _ Hread);
    (destruct (Nat.eqb_spec (length block) 0); [lia |]).
  - change (2 =? XTFHeaderType.bathy_xyza) with false. cbv iota.
    unfold np_frombuffer. rewrite Z.mod_1_r. cbn [Z.eqb].
    unfold bind, lift, ret, XTFPingHeader_init, XTFPacketStart_init.
    cbn [rbind truthy ph_raw ping_chan_headers data].
    destruct (Z.eqb_spec (field XTFPingHeader "MagicNumber" hdr) 0xFACE);
      [contradiction | reflexivity].
  - change (17 =? XTFHeaderType.bathy_xyza) with true. cbv iota.
    unfold xyza_array.
    change (Z.of_nat (sizeof XTFBeamXYZA)) with 31.
    change (sizeof XTFBeamXYZA) with 31%nat.
    destruct (Z.ltb_spec (n / 31) 0); [lia |].
    unfold from_buffer_copy.
    destruct (Nat.ltb_spec (length block) (Z.to_nat (n / 31) * 31));
      [lia |].
    unfold bind, lift, ret, XTFPingHeader_init, XTFPacketStart_init.
    cbn [rbind truthy ph_raw ping_chan_headers data].
    destruct (Z.eqb_spec (field XTFPingHeader "MagicNumber" hdr) 0xFACE);
      [contradiction | reflexivity].
  - change (74 =? XTFHeaderType.bathy_xyza) with false. cbv iota.
    unfold np_frombuffer. rewrite Z.mod_1_r. cbn [Z.eqb].
    unfold bind, lift, ret, XTFPingHeader_init, XTFPacketStart_init.
    cbn [rbind truthy ph_raw ping_chan_headers data].
    destruct (Z.eqb_spec (field XTFPingHeader "MagicNumber" hdr) 0xFACE);
      [contradiction | reflexivity].
Qed.

Lemma ping_magic_checked_last_witness :
  field XTFPingHeader "MagicNumber"
    (with_fields XTFPingHeader
       [("MagicNumber", 0xCAFE); ("HeaderType", 2);
        ("NumBytesThisRecord", 259)]) <> 0xFACE
  /\ XTFPingHeader_call PyStream (Some Examples.header_2ch)
       (with_fields XTFPingHeader
          [("MagicNumber", 0xCAFE); ("HeaderType", 2);
           ("NumBytesThisRecord", 259)]
        ++ Examples.payload 3 ++ [x07])
     = (Raise bad_magic, [x07]).
Proof.
  assert (Hm : field XTFPingHeader "MagicNumber"
                 (with_fields XTFPingHeader
                    [("MagicNumber", 0xCAFE); ("HeaderType", 2);
                     ("NumBytesThisRecord", 259)]) <> 0xFACE)
    by (vm_compute; discriminate).
  split; [exact Hm |].
  exact (ping_magic_checked_last Examples.header_2ch
           (with_fields XTFPingHeader
              [("MagicNumber", 0xCAFE); ("HeaderType", 2);
               ("NumBytesThisRecord", 259)])
           (Examples.payload 3) [x07] 3 eq_refl Hm
           (or_introl eq_refl) eq_refl ltac:(lia) eq_refl).
Defined.

(** A bathymetry record cannot be decoded from a bytes object. The ping
    header itself is built from the first 256 bytes of the object, but the
    payload is read with [buffer.read], which a bytes object does not have:
    the constructor ends in [AttributeError], whatever the record holds. *)
Theorem ping_from_bytes_object_raises (file_header : XTFFileHeader_obj)
  (hdr rest s : bytes) :
  length hdr = sizeof XTFPingHeader ->
  In (field XTFPingHeader "HeaderType" hdr) [2; 17; 74] ->
  XTFPingHeader_call (PyBytes (hdr ++ rest)) (Some file_header) s
  = (Raise (AttributeError "read"), s).
Proof.
  intros Hlen Htype. unfold XTFPingHeader_call, XTFPingHeader_new.
  rewrite bind_bind.
  rewrite (bind_ok _ _ _ _ _
             (XTFBase_new_bytes_ok XTFPingHeader hdr rest s Hlen
                ltac:(vm_compute; lia))).
  assert (Htruthy : truthy (PyBytes (hdr ++ rest)) = true).
  { cbn [truthy]. rewrite length_app, Hlen. reflexivity. }
  rewrite Htruthy. cbn [In] in Htype.
  destruct Htype as [Ht | [Ht | [Ht | []]]]; rewrite <- Ht; reflexivity.
Qed.

Lemma ping_from_bytes_object_raises_witness :
  length (Examples.ping_header XTFHeaderType.bathy_xyza 0 (256 + 32))
  = sizeof XTFPingHeader
  /\ XTFPingHeader_call (PyBytes Examples.xyza_32_stream)
       (Some Examples.header_2ch) []
     = (Raise (AttributeError "read"), []).
Proof.
  split; [reflexivity |].
  exact (ping_from_bytes_object_raises Examples.header_2ch
           (Examples.ping_header XTFHeaderType.bathy_xyza 0 (256 + 32))
           (Examples.payload 32) [] eq_refl
           (or_intror (or_introl eq_refl))).
Defined.

(** ** More on time stamps *)

(** A packet whose [SourceEpoch] and [EpochMicroseconds] fields both exist
    and are not zero: [get_time] returns the epoch seconds plus the
    microseconds, in the unit of microseconds, and reads no other field. *)
Theorem epoch_with_microseconds (cls : ctypes_class) (self : bytes)
  (epoch micro : Z) :
  getint cls self "SourceEpoch" = Ok epoch ->
  epoch <> 0 ->
  getint cls self "EpochMicroseconds" = Ok micro ->
  micro <> 0 ->
  get_time cls self
  = Ok {| np.dt_unit := np.us; np.dt_value := epoch * 1000000 + micro |}.
Proof.
  intros Hepoch Hnz Hmicro Hmz. unfold get_time, has_nonzero.
  rewrite (getint_hasattr _ _ _ _ Hepoch), Hepoch. cbn [rbind].
  destruct (Z.eqb_spec epoch 0); [contradiction |]. cbn [negb].
  rewrite (getint_hasattr _ _ _ _ Hmicro), Hmicro. cbn [rbind].
  destruct (Z.eqb_spec micro 0); [contradiction |]. cbn [negb].
  apply add_s_us.
Qed.

Lemma epoch_with_microseconds_witness :
  getint XTFAttitudeData
    (with_fields XTFAttitudeData
       [("SourceEpoch", 1583020800); ("EpochMicroseconds", 250000);
        ("Year", 1999); ("Millisecond", 7)]) "SourceEpoch" = Ok 1583020800
  /\ get_time XTFAttitudeData
       (with_fields XTFAttitudeData
          [("SourceEpoch", 1583020800); ("EpochMicroseconds", 250000);
           ("Year", 1999); ("Millisecond", 7)])
     = Ok {| np.dt_unit := np.us; np.dt_value := 1583020800250000 |}.
Proof.
  split; [reflexivity |].
  exact (epoch_with_microseconds XTFAttitudeData
           (with_fields XTFAttitudeData
              [("SourceEpoch", 1583020800); ("EpochMicroseconds", 250000);
               ("Year", 1999); ("Millisecond", 7)])
           1583020800 250000 eq_refl ltac:(discriminate) eq_refl
           ltac:(discriminate)).
Defined.

Lemma date_not_valid (y m d : Z) :
  ~ Gregorian.valid y m d ->
  exists msg, datetime.date y m d = Raise (ValueError msg).
Proof.
  intros Hinv. unfold datetime.date, datetime.MINYEAR, datetime.MAXYEAR.
  destruct (Z.leb_spec 1 y); cbn [andb negb]; [| eexists; reflexivity].
  destruct (Z.leb_spec y 9999); cbn [andb negb]; [| eexists; reflexivity].
  destruct (Z.leb_spec 1 m); cbn [andb negb]; [| eexists; reflexivity].
  destruct (Z.leb_spec m 12); cbn [andb negb]; [| eexists; reflexivity].
  rewrite days_in_month_calendar by lia.
  destruct (Z.leb_spec 1 d); cbn [andb negb]; [| eexists; reflexivity].
  destruct (Z.leb_spec d (Gregorian.month_length y m)); cbn [andb negb];
    [| eexists; reflexivity].
  exfalso. apply Hinv. unfold Gregorian.valid. lia.
Qed.

(** A packet of the classes of the module without a nonzero [SourceEpoch],
    whose Year, Month and Day are not a date of the calendar (year outside
    1..9999, month outside 1..12, or a day the month does not have):
    [get_time] raises [ValueError]. In particular a packet built without a
    buffer, all of whose time fields are zero, has no time stamp. *)
Theorem invalid_date_raises (cls : ctypes_class) (self : bytes) :
  In cls packet_classes ->
  has_nonzero cls self "SourceEpoch" = Ok false ->
  ~ Gregorian.valid (field cls "Year" self) (field cls "Month" self)
      (field cls "Day" self) ->
  exists msg, get_time cls self = Raise (ValueError msg).
Proof.
  intros Hin Hepoch Hinv.
  destruct (date_not_valid _ _ _ Hinv) as (msg & Hdate).
  exists msg. unfold get_time. rewrite Hepoch. cbn [rbind].
  unfold packet_classes in Hin. cbn [In] in Hin.
  repeat destruct Hin as [<- | Hin]; try contradiction;
    repeat match goal with
           | |- context [getint ?c self ?n] =>
               change (getint c self n) with (Ok (field c n self))
           end;
    cbn [rbind]; rewrite Hdate; reflexivity.
Qed.

Lemma invalid_date_raises_witness :
  In XTFNotesHeader packet_classes
  /\ has_nonzero XTFNotesHeader
       (with_fields XTFNotesHeader
          [("MagicNumber", 0xFACE); ("HeaderType", XTFHeaderType.notes)])
       "SourceEpoch" = Ok false
  /\ ~ Gregorian.valid 0 0 0
  /\ exists msg,
       get_time XTFNotesHeader
         (with_fields XTFNotesHeader
            [("MagicNumber", 0xFACE); ("HeaderType", XTFHeaderType.notes)])
       = Raise (ValueError msg).
Proof.
  assert (Hin : In XTFNotesHeader packet_classes)
    by (do 2 right; left; reflexivity).
  assert (Hinv : ~ Gregorian.valid 0 0 0)
    by (intros (H & _); lia).
  split; [exact Hin |]. split; [reflexivity |]. split; [exact Hinv |].
  exact (invalid_date_raises XTFNotesHeader
           (with_fields XTFNotesHeader
              [("MagicNumber", 0xFACE); ("HeaderType", XTFHeaderType.notes)])
           Hin eq_refl Hinv).
Defined.

(** ** Sample values *)

Lemma chunks_encode (w : nat) (values : list Z) (n : nat) :
  (0 < w)%nat -> (length values <= n)%nat ->
  chunks n w (flat_map (le_encode w) values) = map (le_encode w) values.
Proof.
  intros Hw. revert n. induction values as [| v values IH]; intros n Hn.
  - destruct n; reflexivity.
  - destruct n as [| n]; [cbn in Hn; lia |].
    cbn [flat_map map].
    pose proof (length_le_encode w v) as Hlen.
    destruct (le_encode w v ++ flat_map (le_encode w) values)
      as [| b bs] eqn:Heq.
    + apply (f_equal (@length byte)) in Heq.
      rewrite length_app in Heq. cbn in Heq. lia.
    + cbn [chunks]. rewrite <- Heq.
      rewrite firstn_app, skipn_app, Hlen, Nat.sub_diag, firstn_O, skipn_O,
        app_nil_r.
      rewrite firstn_all2, skipn_all2 by lia. cbn [app].
      rewrite IH by (cbn in Hn; lia). reflexivity.
Qed.

Lemma length_flat_map_encode (w : nat) (values : list Z) :
  length (flat_map (le_encode w) values) = (length values * w)%nat.
Proof.
  induction values as [| v values IH]; [reflexivity |].
  cbn [flat_map length]. rewrite length_app, length_le_encode, IH. lia.
Qed.

(** The sample arrays hold the little-endian values of the stream: the bytes
    of any list of unsigned integers that fit [width] bytes, written one
    after the other with the low byte first, are decoded by [np.frombuffer]
    into exactly that list. *)
Theorem samples_round_trip (width : nat) (values : list Z) :
  (0 < width)%nat ->
  Forall (fun v => 0 <= v < 256 ^ Z.of_nat width) values ->
  np_frombuffer (encode_samples width values) (Z.of_nat width)
  = Ok {| itemsize := Z.of_nat width; items := values |}.
Proof.
  intros Hw Hrange. unfold np_frombuffer, encode_samples.
  rewrite length_flat_map_encode, Nat2Z.inj_mul, Z.mod_mul by lia.
  cbn [Z.eqb]. rewrite Nat2Z.id. do 2 f_equal.
  rewrite chunks_encode by (try assumption; nia).
  rewrite map_map. rewrite <- (map_id values) at 2.
  apply map_ext_in. intros v Hv.
  rewrite le_uint_le_encode. apply Z.mod_small.
  rewrite Forall_forall in Hrange. now apply Hrange.
Qed.

Lemma samples_round_trip_witness :
  (0 < 2)%nat
  /\ Forall (fun v => 0 <= v < 256 ^ Z.of_nat 2) [513; 65535; 0]
  /\ encode_samples 2 [513; 65535; 0] = [x01; x02; xff; xff; x00; x00]
  /\ np_frombuffer [x01; x02; xff; xff; x00; x00] 2
     = Ok {| itemsize := 2; items := [513; 65535; 0] |}.
Proof.
  assert (Hr : Forall (fun v => 0 <= v < 256 ^ Z.of_nat 2) [513; 65535; 0])
    by (repeat constructor; cbn; lia).
  split; [lia |]. split; [exact Hr |]. split; [reflexivity |].
  exact (samples_round_trip 2 [513; 65535; 0] ltac:(lia) Hr).
Defined.

(** ** The raw serial packet, all cases *)

(** [XTFRawSerialHeader]: built without a buffer it carries the magic number
    and its header type, with an empty [RawAsciiData]; from a stream that
    holds its 30 bytes it never yields a packet: a wrong magic number raises
    the identifier error, a right one the [AttributeError] of
    [self.StringSize.value]; in both cases the stream is left just after the
    30 bytes. *)
Theorem raw_serial_constructor (hdr rest s : bytes) :
  XTFRawSerialHeader_call PyNone s
  = (Ok {| rs_raw := with_fields XTFRawSerialHeader
                       [("MagicNumber", 0xFACE);
                        ("HeaderType", XTFHeaderType.raw_serial)];
           RawAsciiData := [] |}, s)
  /\ (length hdr = sizeof XTFRawSerialHeader ->
      XTFRawSerialHeader_call PyStream (hdr ++ rest)
      = (Raise (if le_uint (firstn 2 hdr) =? 0xFACE
                then AttributeError "value" else bad_magic), rest)).
Proof.
  split; [reflexivity |].
  intros Hlen. unfold XTFRawSerialHeader_call.
  rewrite (bind_ok _ _ _ _ _
             (XTFBase_new_stream_ok XTFRawSerialHeader hdr rest Hlen
                ltac:(vm_compute; lia))).
  unfold XTFRawSerialHeader_init, bind, lift, XTFPacketStart_init.
  cbn [truthy].
  change (field XTFRawSerialHeader "MagicNumber" hdr)
    with (le_uint (firstn 2 hdr)).
  destruct (le_uint (firstn 2 hdr) =? 0xFACE); reflexivity.
Qed.

Lemma raw_serial_constructor_witness :
  length (firstn 30 Examples.raw_serial_stream) = sizeof XTFRawSerialHeader
  /\ XTFRawSerialHeader_call PyStream
       (firstn 30 Examples.raw_serial_stream ++ [x07])
     = (Raise (AttributeError "value"), [x07]).
Proof.
  split; [reflexivity |].
  exact (proj2 (raw_serial_constructor (firstn 30 Examples.raw_serial_stream)
                  [x07] []) eq_refl).
Defined.

(** From a bytes object the packet is not decoded either: [buffer.read] is
    looked up before [self.StringSize.value] is evaluated, and a bytes
    object has no such attribute. *)
Example raw_serial_from_bytes_object :
  XTFRawSerialHeader_call (PyBytes Examples.raw_serial_stream) [x07]
  = (Raise (AttributeError "read"), [x07]).
Proof. reflexivity. Qed.
